(** * MIZU Sensor Hub: telemetry decoder and serial session

    A shallow embedding of [database_manager.py] (the line decoder
    [_parse_sensor_data] and its four format parsers) and of
    [serial_manager.py] (port scan, connect, disconnect), with the
    properties the specification states about them.

    Conventions.
    - Python [str] values are lists of characters ([text]); characters are
      the code points below 256, and Python's tables for whitespace, decimal
      digits and lower-casing are the ones of that range.
    - A [dict] is a [gmap] from key names to Python values.
    - Library calls the repository does not define ([float], [json.loads],
      [str] of a non-string, the serial driver, [glob]) are parameters.
    - Exceptions are values: a computation returns [Ok v] or [Raise e], and
      [try]/[except] is a match on that result. *)

From Stdlib Require Import Ascii String ZArith QArith Lia.
From stdpp Require Import base option list strings pretty gmap fin_maps.

Local Open Scope string_scope.
Local Open Scope list_scope.

(** ** Text *)

Abbreviation text := (list ascii).

(** String literals stand for their list of characters. *)
Coercion list_ascii_of_string : string >-> list.

Module Text.

Definition code (c : ascii) : N := N_of_ascii c.

(** [str.isspace] on one character: U+0009..U+000D, U+001C..U+0020,
    U+0085 and U+00A0. *)
Definition isspace (c : ascii) : bool :=
  let n := code c in
  ((9 <=? n) && (n <=? 13) || (28 <=? n) && (n <=? 32)
   || (n =? 133) || (n =? 160))%N.

(** The regular expression class [\d]: the decimal digits. *)
Definition isdigit (c : ascii) : bool :=
  let n := code c in ((48 <=? n) && (n <=? 57))%N.

(** [str.lower] on one character: A..Z and the upper-case letters of
    U+00C0..U+00DE (all but the multiplication sign U+00D7) move up by 32. *)
Definition lower_char (c : ascii) : ascii :=
  let n := code c in
  if ((65 <=? n) && (n <=? 90)
      || (192 <=? n) && (n <=? 222) && negb (n =? 215))%N
  then ascii_of_N (n + 32) else c.

Definition lower (s : text) : text := map lower_char s.

Fixpoint lstrip (s : text) : text :=
  match s with
  | c :: s' => if isspace c then lstrip s' else s
  | [] => []
  end.

Definition rstrip (s : text) : text := rev (lstrip (rev s)).

(** [s.strip()] *)
Definition strip (s : text) : text := lstrip (rstrip s).

(** [c in s] for a one-character [c]. *)
Definition contains (c : ascii) (s : text) : bool :=
  existsb (Ascii.eqb c) s.

(** [s.startswith(prefix)] and [s.endswith(suffix)] *)
Fixpoint startswith (prefix s : text) : bool :=
  match prefix, s with
  | [], _ => true
  | p :: prefix', c :: s' => Ascii.eqb p c && startswith prefix' s'
  | _ :: _, [] => false
  end.

Definition endswith (suffix s : text) : bool := startswith (rev suffix) (rev s).

(** [s.split(sep)] for a one-character separator: never empty, and
    [''.split(',')] is [['']]. *)
Fixpoint split (sep : ascii) (s : text) : list text :=
  match s with
  | [] => [[]]
  | c :: s' =>
      if Ascii.eqb c sep then [] :: split sep s'
      else match split sep s' with
           | p :: ps => (c :: p) :: ps
           | [] => [[c]]
           end
  end.

(** [s.split(sep, 1)]: at most one cut, at the first separator. *)
Fixpoint split1 (sep : ascii) (s : text) : list text :=
  match s with
  | [] => [[]]
  | c :: s' =>
      if Ascii.eqb c sep then [[]; s']
      else match split1 sep s' with
           | p :: ps => (c :: p) :: ps
           | [] => [[c]]
           end
  end.

(** [sep.join(parts)] *)
Fixpoint join (sep : ascii) (parts : list text) : text :=
  match parts with
  | [] => []
  | [p] => p
  | p :: ps => p ++ sep :: join sep ps
  end.

Definition eqb (a b : text) : bool := bool_decide (a = b).

End Text.

(** ** Python values, exceptions and results *)

(** The exception classes the two modules raise or catch. *)
Inductive pyexn :=
| ValueError | TypeError | OverflowError | AttributeError | IndexError
| SerialException | OSError | EnvironmentError.

(** The outcome of a computation that may raise. *)
Inductive Res (A : Type) :=
| Ok (a : A)
| Raise (e : pyexn).
Arguments Ok {A} a.
Arguments Raise {A} e.

#[global] Instance Res_ret : MRet Res := fun A a => Ok a.
#[global] Instance Res_bind : MBind Res := fun A B f m =>
  match m with
  | Ok a => f a
  | Raise e => Raise e
  end.

(** [try: body / except Exception: pass / return None] *)
Definition except_none {A} (body : Res (option A)) : option A :=
  match body with
  | Ok r => r
  | Raise _ => None
  end.

(** A [for] loop that threads the loop state and stops at the first raise. *)
Fixpoint for_each {S A} (step : S -> A -> Res S) (s : S) (l : list A) : Res S :=
  match l with
  | [] => Ok s
  | x :: l' => s' ← step s x; for_each step s' l'
  end.

(** [l[i]] *)
Definition index {A} (l : list A) (i : nat) : Res A :=
  match l !! i with
  | Some x => Ok x
  | None => Raise IndexError
  end.

Set Warnings "-register-all".

Section Values.
Context {F : Type}.

(** The values that flow through the decoder: what [json.loads] can return
    and what a reading holds.  [F] is the type of floats. *)
Inductive pyval :=
| VNone
| VBool (b : bool)
| VInt (z : Z)
| VFloat (f : F)
| VStr (s : text)
| VList (l : list pyval)
| VDict (d : gmap string pyval).

End Values.
Arguments pyval F : clear implicits.

Abbreviation dict F := (gmap string (pyval F)).

(** The library functions the decoder calls. *)
Record PyLib (F : Type) := {
  (** [float(s)] for a string: [None] stands for [ValueError]. *)
  float_of_text : text -> option F;
  (** [float(n)] for an integer: [None] stands for [OverflowError]. *)
  float_of_int : Z -> option F;
  (** [json.loads(s)]: [None] stands for the exception it raises. *)
  json_loads : text -> option (pyval F);
  (** [str(v)] for a value that is not a string. *)
  repr : pyval F -> text;
}.
Arguments float_of_text {F} _ _.
Arguments float_of_int {F} _ _.
Arguments json_loads {F} _ _.
Arguments repr {F} _ _.

(** ** The regular expression [-?\d+\.?\d*] *)

Module Regex.

(** The longest prefix of characters in a class, and what follows it. *)
Fixpoint span (p : ascii -> bool) (s : text) : text * text :=
  match s with
  | c :: s' => if p c then let '(a, b) := span p s' in (c :: a, b) else ([], s)
  | [] => ([], [])
  end.

(** An optional character. *)
Definition opt (c : ascii) (s : text) : text * text :=
  match s with
  | x :: s' => if Ascii.eqb x c then ([x], s') else ([], s)
  | [] => ([], [])
  end.

(** A match of the pattern at the start of [s]: the matched text and the
    rest.  Every quantifier is greedy, and giving back the sign cannot
    help: a sign is no digit. *)
Definition match_number (s : text) : option (text * text) :=
  let '(sign, s1) := opt "-" s in
  let '(int, s2) := span Text.isdigit s1 in
  match int with
  | [] => None
  | _ :: _ =>
      let '(dot, s3) := opt "." s2 in
      let '(frac, s4) := span Text.isdigit s3 in
      Some (sign ++ int ++ dot ++ frac, s4)
  end.

(** The scan of [re.findall]: at each position the leftmost match, then on
    from its end; a position with no match is skipped.  [n] bounds the
    number of positions still to visit. *)
Fixpoint findall_from (n : nat) (s : text) : list text :=
  match n with
  | O => []
  | S n' =>
      match match_number s with
      | Some (tok, rest) => tok :: findall_from n' rest
      | None =>
          match s with
          | _ :: s' => findall_from n' s'
          | [] => []
          end
      end
  end.

(** [re.findall(r'-?\d+\.?\d*', s)] *)
Definition findall (s : text) : list text := findall_from (S (length s)) s.

End Regex.

(** ** The decoder of [database_manager.py] *)

Section Decoder.
Context {F : Type} (lib : PyLib F).

Abbreviation reading := (dict F).

(** [float(value)] *)
Definition float (value : pyval F) : Res F :=
  match value with
  | VFloat f => Ok f
  | VInt z =>
      match float_of_int lib z with
      | Some f => Ok f
      | None => Raise OverflowError
      end
  | VBool b =>
      match float_of_int lib (if b then 1 else 0) with
      | Some f => Ok f
      | None => Raise OverflowError
      end
  | VStr s =>
      match float_of_text lib s with
      | Some f => Ok f
      | None => Raise ValueError
      end
  | VNone | VList _ | VDict _ => Raise TypeError
  end.

(** [str(value)] *)
Definition str (value : pyval F) : text :=
  match value with
  | VStr s => s
  | _ => repr lib value
  end.

(** [d.get(key)] and [d.get(key, fallback)] *)
Definition get (d : dict F) (key : string) : pyval F := default VNone (d !! key).
Definition get_or (d : dict F) (key : string) (fallback : pyval F) : pyval F :=
  default fallback (d !! key).

(** [key in d] *)
Definition has (d : dict F) (key : string) : bool := bool_decide (is_Some (d !! key)).

Definition _safe_float (value : pyval F) : Res (pyval F) :=
  match value with
  | VNone => Ok VNone
  | _ =>
      match float value with
      | Ok f => Ok (VFloat f)
      | Raise ValueError | Raise TypeError => Ok VNone
      | Raise e => Raise e
      end
  end.

(** The dictionary literal the JSON, CSV and generic parsers return. *)
Definition record (device_id : text) (ambient_temperature humidity soil_moisture
    soil_temperature wind_speed longitude latitude : pyval F) : reading :=
  <["transmitted" := VBool false]> (
  <["latitude" := latitude]> (
  <["longitude" := longitude]> (
  <["wind_speed" := wind_speed]> (
  <["soil_temperature" := soil_temperature]> (
  <["soil_moisture" := soil_moisture]> (
  <["humidity" := humidity]> (
  <["ambient_temperature" := ambient_temperature]> (
  <["device_id" := VStr device_id]> ∅)))))))).

Definition _parse_json_format (data_string : text) : option reading :=
  except_none (
    data ← match json_loads lib data_string with
           | Some v => Ok v
           | None => Raise ValueError
           end;
    match data with
    | VDict data =>
        let device_id := str (get_or data "device_id" (VStr "unknown")) in
        ambient_temperature ← _safe_float (get data "ambient_temp");
        humidity ← _safe_float (get data "humidity");
        soil_moisture ← _safe_float (get data "soil_moisture");
        soil_temperature ← _safe_float (get data "soil_temp");
        wind_speed ← _safe_float (get data "wind_speed");
        longitude ← _safe_float (get data "longitude");
        latitude ← _safe_float (get data "latitude");
        Ok (Some (record device_id ambient_temperature humidity soil_moisture
                    soil_temperature wind_speed longitude latitude))
    | _ => Raise AttributeError
    end).

(** [self._safe_float(seq[i]) if len(seq) > i else None] *)
Definition optional_float (seq : list text) (i : nat) : Res (pyval F) :=
  if bool_decide (i < length seq) then x ← index seq i; _safe_float (VStr x)
  else Ok VNone.

Definition _parse_csv_format (data_string : text) : option reading :=
  except_none (
    let parts := Text.split "," data_string in
    if bool_decide (5 <= length parts) then
      p0 ← index parts 0;
      let device_id := str (VStr (Text.strip p0)) in
      ambient_temperature ← (x ← index parts 1; _safe_float (VStr x));
      humidity ← (x ← index parts 2; _safe_float (VStr x));
      soil_moisture ← (x ← index parts 3; _safe_float (VStr x));
      soil_temperature ← (x ← index parts 4; _safe_float (VStr x));
      wind_speed ← optional_float parts 5;
      longitude ← optional_float parts 6;
      latitude ← optional_float parts 7;
      Ok (Some (record device_id ambient_temperature humidity soil_moisture
                  soil_temperature wind_speed longitude latitude))
    else Ok None).

(** The keys of a reading that hold sensor values. *)
Definition sensor_fields : list string :=
  [ "ambient_temperature"; "humidity"; "soil_moisture"; "soil_temperature";
    "wind_speed"; "longitude"; "latitude" ].

(** [data[field] = self._safe_float(value)] *)
Definition store_float (data : reading) (field : string) (value : text) : Res reading :=
  v ← _safe_float (VStr value); Ok (<[field := v]> data).

(** The body of the loop over the comma-separated pairs. *)
Definition kv_pair (data : reading) (pair : text) : Res reading :=
  if Text.contains "=" pair then
    match Text.split1 "=" pair with
    | [key; value] =>
        let key := Text.lower (Text.strip key) in
        let value := Text.strip value in
        if Text.eqb key "device_id" then Ok (<["device_id" := VStr value]> data)
        else if Text.eqb key "ambient_temp" then store_float data "ambient_temperature" value
        else if Text.eqb key "humidity" then store_float data "humidity" value
        else if Text.eqb key "soil_moisture" then store_float data "soil_moisture" value
        else if Text.eqb key "soil_temp" then store_float data "soil_temperature" value
        else if Text.eqb key "wind_speed" then store_float data "wind_speed" value
        else if Text.eqb key "longitude" then store_float data "longitude" value
        else if Text.eqb key "latitude" then store_float data "latitude" value
        else Ok data
    | _ => Raise ValueError
    end
  else Ok data.

(** The dictionary the loop has built when it ends. *)
Definition kv_collect (data_string : text) : Res reading :=
  for_each kv_pair ∅ (Text.split "," data_string).

Definition _parse_key_value_format (data_string : text) : option reading :=
  except_none (
    data ← kv_collect data_string;
    if has data "device_id" && existsb (has data) sensor_fields
    then Ok (Some (<["transmitted" := VBool false]> data))
    else Ok None).

Definition _parse_generic_format (data_string : text) : option reading :=
  except_none (
    let numbers := Regex.findall data_string in
    if bool_decide (4 <= length numbers) then
      ambient_temperature ← (x ← index numbers 0; _safe_float (VStr x));
      humidity ← (x ← index numbers 1; _safe_float (VStr x));
      soil_moisture ← (x ← index numbers 2; _safe_float (VStr x));
      soil_temperature ← (x ← index numbers 3; _safe_float (VStr x));
      wind_speed ← optional_float numbers 4;
      longitude ← optional_float numbers 5;
      latitude ← optional_float numbers 6;
      Ok (Some (record "unknown" ambient_temperature humidity soil_moisture
                  soil_temperature wind_speed longitude latitude))
    else Ok None).

(** [s.startswith('{') and s.endswith('}')] *)
Definition braced (s : text) : bool := Text.startswith "{" s && Text.endswith "}" s.

Definition _parse_sensor_data (data_string : text) : option reading :=
  let data_string := Text.strip data_string in
  if braced data_string then _parse_json_format data_string
  else if Text.contains "=" data_string then _parse_key_value_format data_string
  else if Text.contains "," data_string then _parse_csv_format data_string
  else _parse_generic_format data_string.

End Decoder.

(** ** A reference library

    An executable instance of [PyLib] for evaluating the decoder on sample
    lines.  Floats are exact rationals.  It covers the inputs the samples
    use: plain decimal literals for [float], and flat JSON objects whose
    members are strings without escapes, plain numbers, [true], [false] and
    [null] for [json.loads]; anything else is reported as an error. *)

Module Ref.

Definition digit_val (c : ascii) : Z := Z.of_N (Text.code c) - 48.

Definition digits_val (ds : text) : Z :=
  fold_left (fun acc c => 10 * acc + digit_val c)%Z ds 0%Z.

(** The value of [int.frac], negated when [neg]. *)
Definition decimal (neg : bool) (int frac : text) : Q :=
  let m := digits_val (int ++ frac) in
  Qred (Qmake (if neg then - m else m) (Z.to_pos (10 ^ Z.of_nat (length frac)))).

Definition sign (s : text) : bool * text :=
  match s with
  | "-"%char :: t => (true, t)
  | "+"%char :: t => (false, t)
  | _ => (false, s)
  end.

Definition float_literal (s : text) : option Q :=
  let '(neg, s1) := sign (Text.strip s) in
  let '(int, s2) := Regex.span Text.isdigit s1 in
  let '(_, s3) := Regex.opt "." s2 in
  let '(frac, s4) := Regex.span Text.isdigit s3 in
  match s4, int ++ frac with
  | [], _ :: _ => Some (decimal neg int frac)
  | _, _ => None
  end.

Definition float_integer (z : Z) : option Q :=
  if (Z.abs z <? 2 ^ 1024)%Z then Some (inject_Z z) else None.

Definition show (v : pyval Q) : text :=
  match v with
  | VNone => "None"
  | VBool true => "True"
  | VBool false => "False"
  | VInt z => pretty z
  | _ => "<object>"
  end.

Definition json_space (c : ascii) : bool :=
  let n := Text.code c in ((n =? 32) || (n =? 9) || (n =? 10) || (n =? 13))%N.

Definition skip_ws (s : text) : text := snd (Regex.span json_space s).

(** The characters of a string literal up to its closing quote. *)
Fixpoint string_body (s : text) : option (text * text) :=
  match s with
  | [] => None
  | c :: s' =>
      if Ascii.eqb c "034" then Some ([], s')
      else if Ascii.eqb c "\" || (Text.code c <? 32)%N then None
      else '(body, rest) ← string_body s'; Some (c :: body, rest)
  end.

Definition number (s : text) : option (pyval Q * text) :=
  let '(sgn, s1) := Regex.opt "-" s in
  let '(int, s2) := Regex.span Text.isdigit s1 in
  let neg := bool_decide (sgn ≠ []) in
  match int, s2 with
  | [], _ => None
  | "0"%char :: _ :: _, _ => None
  | _, "."%char :: s3 =>
      let '(frac, s4) := Regex.span Text.isdigit s3 in
      if bool_decide (frac = []) then None else Some (VFloat (decimal neg int frac), s4)
  | _, _ => Some (VInt (if neg then - digits_val int else digits_val int), s2)
  end.

Definition value (s : text) : option (pyval Q * text) :=
  match s with
  | "034"%char :: t => '(body, rest) ← string_body t; Some (VStr body, rest)
  | "t"%char :: "r"%char :: "u"%char :: "e"%char :: t => Some (VBool true, t)
  | "f"%char :: "a"%char :: "l"%char :: "s"%char :: "e"%char :: t => Some (VBool false, t)
  | "n"%char :: "u"%char :: "l"%char :: "l"%char :: t => Some (VNone, t)
  | _ => number s
  end.

(** The members of an object, from the first key to the closing brace. *)
Fixpoint members (n : nat) (acc : dict Q) (s : text) : option (dict Q * text) :=
  match n, skip_ws s with
  | S n', "034"%char :: t =>
      '(key, r1) ← string_body t;
      match skip_ws r1 with
      | ":"%char :: r2 =>
          '(v, r3) ← value (skip_ws r2);
          let acc := <[string_of_list_ascii key := v]> acc in
          match skip_ws r3 with
          | ","%char :: r4 => members n' acc r4
          | "}"%char :: r4 => Some (acc, r4)
          | _ => None
          end
      | _ => None
      end
  | _, _ => None
  end.

Definition loads (s : text) : option (pyval Q) :=
  match skip_ws s with
  | "{"%char :: t =>
      '(d, rest) ← match skip_ws t with
                   | "}"%char :: r => Some (∅, r)
                   | _ => members (length t) ∅ t
                   end;
      match skip_ws rest with
      | [] => Some (VDict d)
      | _ :: _ => None
      end
  | _ => None
  end.

(** A line written with apostrophes for its double quotes. *)
Definition quoted (s : text) : text :=
  map (fun c => if Ascii.eqb c "'" then "034"%char else c) s.

Definition lib : PyLib Q :=
  {| float_of_text := float_literal; float_of_int := float_integer;
     json_loads := loads; repr := show |}.

End Ref.

(** ** The serial session of [serial_manager.py] *)

Module Serial.

(** Constants of [config.py]. *)
Definition SERIAL_TIMEOUT : Q := 1 # 10.
Definition MAX_COM_PORTS : nat := 256.
Definition OS_WINDOWS : Z := 1.
Definition OS_LINUX : Z := 2.
Definition connection_closed : text := "Serial connection successfully closed".

(** An open serial port, named by the path it was opened with. *)
Definition handle := text.

(** The host the program runs on: [sys.platform], the paths [glob.glob]
    finds for a pattern, and what the serial driver answers when a port is
    opened ([serial.Serial(port, baudrate, timeout=...)]) or closed: [None]
    for success, or the exception raised. *)
Record Host := {
  platform : text;
  glob : text -> list text;
  open_port : text -> option Z -> option Q -> option pyexn;
  close_port : handle -> option pyexn;
}.

(** The fields of a [SerialManager] the session methods use. *)
Record SerialManager := {
  serial_connection : option handle;
  is_connected : bool;
  should_monitor_data : bool;
  data_monitoring_thread : option nat;
}.

(** What the process holds besides: the ports it has open, the threads it
    has started, and what it has printed. *)
Record World := {
  open_handles : list handle;
  threads : nat;
  stdout : list text;
}.

Record State := {
  self : SerialManager;
  world : World;
}.

(** [SerialManager.__init__] *)
Definition init : SerialManager :=
  {| serial_connection := None; is_connected := false;
     should_monitor_data := false; data_monitoring_thread := None |}.

(** A method body: it reads and writes the state, and returns or raises.
    The state written before a raise stays written. *)
Definition M (A : Type) : Type := State -> Res A * State.

#[global] Instance M_ret : MRet M := fun A a st => (Ok a, st).
#[global] Instance M_bind : MBind M := fun A B f m st =>
  match m st with
  | (Ok a, st') => f a st'
  | (Raise e, st') => (Raise e, st')
  end.

Definition raise {A} (e : pyexn) : M A := fun st => (Raise e, st).

(** [try: body / except classes: handler] *)
Definition try_except {A} (body : M A) (classes : pyexn -> bool) (handler : M A) : M A :=
  fun st =>
    match body st with
    | (Ok a, st') => (Ok a, st')
    | (Raise e, st') => if classes e then handler st' else (Raise e, st')
    end.

(** [try: body / finally: final] *)
Definition try_finally {A} (body : M A) (final : M unit) : M A :=
  fun st =>
    match body st with
    | (r, st') =>
        match final st' with
        | (Ok _, st'') => (r, st'')
        | (Raise e, st'') => (Raise e, st'')
        end
    end.

(** A [for] loop over a list, with the loop's variable as its state. *)
Fixpoint for_loop {S A} (step : S -> A -> M S) (s : S) (l : list A) : M S :=
  match l with
  | [] => mret s
  | x :: l' => s' ← step s x; for_loop step s' l'
  end.

Definition get_self : M SerialManager := fun st => (Ok (self st), st).
Definition get_world : M World := fun st => (Ok (world st), st).
Definition set_self (f : SerialManager -> SerialManager) : M unit :=
  fun st => (Ok tt, {| self := f (self st); world := world st |}).
Definition set_world (f : World -> World) : M unit :=
  fun st => (Ok tt, {| self := self st; world := f (world st) |}).

Definition set_serial_connection (c : option handle) : M unit :=
  set_self (fun s => {| serial_connection := c; is_connected := is_connected s;
     should_monitor_data := should_monitor_data s;
     data_monitoring_thread := data_monitoring_thread s |}).
Definition set_is_connected (b : bool) : M unit :=
  set_self (fun s => {| serial_connection := serial_connection s; is_connected := b;
     should_monitor_data := should_monitor_data s;
     data_monitoring_thread := data_monitoring_thread s |}).
Definition set_should_monitor_data (b : bool) : M unit :=
  set_self (fun s => {| serial_connection := serial_connection s;
     is_connected := is_connected s; should_monitor_data := b;
     data_monitoring_thread := data_monitoring_thread s |}).
Definition set_data_monitoring_thread (t : option nat) : M unit :=
  set_self (fun s => {| serial_connection := serial_connection s;
     is_connected := is_connected s; should_monitor_data := should_monitor_data s;
     data_monitoring_thread := t |}).

(** [print(message)] *)
Definition print (message : text) : M unit :=
  set_world (fun w => {| open_handles := open_handles w; threads := threads w;
     stdout := stdout w ++ [message] |}).

(** The open handles once one object with the path of [connection] is
    closed: the handles are the paths of the objects that are open, one entry
    for each object, so a second object on the same path stays open. *)
Fixpoint close_one (connection : handle) (handles : list handle) : list handle :=
  match handles with
  | [] => []
  | h :: rest => if Text.eqb h connection then rest else h :: close_one connection rest
  end.

Section Session.
Context (host : Host).

(** [serial.Serial(port, baudrate, timeout=timeout)] *)
Definition serial_open (port : text) (baudrate : option Z) (timeout : option Q) : M handle :=
  match open_port host port baudrate timeout with
  | None =>
      set_world (fun w => {| open_handles := port :: open_handles w;
         threads := threads w; stdout := stdout w |});;
      mret port
  | Some e => raise e
  end.

(** [connection.close()]: the close ends one object. *)
Definition serial_close (connection : handle) : M unit :=
  match close_port host connection with
  | None =>
      set_world (fun w => {| open_handles := close_one connection (open_handles w);
         threads := threads w; stdout := stdout w |})
  | Some e => raise e
  end.

(** The candidate ports of the platform. *)
Definition port_list : M (list text) :=
  if Text.startswith "win" (platform host) then
    mret (map (fun port_number => "COM" ++ pretty (port_number + 1)) (seq 0 MAX_COM_PORTS))
  else if Text.startswith "linux" (platform host) || Text.startswith "cygwin" (platform host) then
    mret (glob host "/dev/tty[A-Za-z]*")
  else if Text.startswith "darwin" (platform host) then
    mret (glob host "/dev/tty.*")
  else raise EnvironmentError.

Definition io_error (e : pyexn) : bool :=
  match e with
  | OSError | SerialException => true
  | _ => false
  end.

(** The body of the probe loop. *)
Definition probe (available_ports : list text) (port_name : text) : M (list text) :=
  try_except
    (test_connection ← serial_open port_name None None;
     serial_close test_connection;;
     mret (available_ports ++ [port_name]))
    io_error
    (mret available_ports).

Definition scan_available_ports : M (list text) :=
  ports ← port_list;
  for_loop probe [] ports.

(** The thread is made and started; what it runs is not part of this
    model, only that it has been started. *)
Definition _start_data_monitoring : M unit :=
  set_should_monitor_data true;;
  w ← get_world;
  set_data_monitoring_thread (Some (threads w));;
  set_world (fun w => {| open_handles := open_handles w; threads := S (threads w);
     stdout := stdout w |}).

Definition serial_exception (e : pyexn) : bool :=
  match e with
  | SerialException => true
  | _ => false
  end.

(** The branch [else: return False] leaves the [try] at once: [opened]
    tells whether a port was opened or that branch was taken. *)
Definition connect (port : text) (baud_rate : Z) (os_type : Z) : M bool :=
  try_except
    (opened ←
       (if (os_type =? OS_LINUX)%Z then
          let full_port_path := "/dev/tty" ++ port in
          connection ← serial_open full_port_path (Some baud_rate) (Some SERIAL_TIMEOUT);
          set_serial_connection (Some connection);;
          mret true
        else if (os_type =? OS_WINDOWS)%Z then
          connection ← serial_open port (Some baud_rate) (Some SERIAL_TIMEOUT);
          set_serial_connection (Some connection);;
          mret true
        else mret false);
     if opened : bool then
       set_is_connected true;;
       _start_data_monitoring;;
       mret true
     else mret false)
    serial_exception
    (set_is_connected false;; mret false).

(** The message of the [except] branch is printed without the text of the
    exception. *)
Definition disconnect : M unit :=
  set_should_monitor_data false;;
  s ← get_self;
  match serial_connection s with
  | Some connection =>
      try_finally
        (try_except
           (serial_close connection;; print connection_closed)
           serial_exception
           (print "Error while closing connection"))
        (set_serial_connection None)
  | None => mret tt
  end;;
  set_is_connected false.

End Session.

End Serial.

(** ** The vocabulary of the specification *)

Section Vocabulary.
Context {F : Type} (lib : PyLib F).

(** A sensor field is present in a reading when it holds a float. *)
Definition present (r : dict F) (field : string) : Prop :=
  exists f, r !! field = Some (VFloat f).

Definition some_sensor_present (r : dict F) : Prop :=
  exists field, field ∈ sensor_fields /\ present r field.

(** The value [_safe_float] gives for a piece of text. *)
Definition float_or_none (value : text) : pyval F :=
  match float_of_text lib value with
  | Some f => VFloat f
  | None => VNone
  end.

(** The pieces of the line that the optional positions read. *)
Definition optional_value (seq : list text) (i : nat) : pyval F :=
  match seq !! i with
  | Some x => float_or_none x
  | None => VNone
  end.

(** The reading of a positional format: the device id, and the sensor
    values in the fixed order ambient temperature, humidity, soil moisture,
    soil temperature, wind speed, longitude, latitude; a position the line
    does not have is [None]. *)
Definition positional (device_id : text) (values : list text) : dict F :=
  record device_id
    (optional_value values 0) (optional_value values 1)
    (optional_value values 2) (optional_value values 3)
    (optional_value values 4) (optional_value values 5)
    (optional_value values 6).

(** The key and the value of a pair [key=value], cut at its first [=]. *)
Definition pair_parts (pair : text) : option (text * text) :=
  match Text.split1 "=" pair with
  | [key; value] => Some (key, value)
  | _ => None
  end.

(** The recognized keys, with the field of the reading each one writes. *)
Definition recognized : list (text * string) :=
  [ ("device_id" : text, "device_id"); ("ambient_temp" : text, "ambient_temperature");
    ("humidity" : text, "humidity"); ("soil_moisture" : text, "soil_moisture");
    ("soil_temp" : text, "soil_temperature"); ("wind_speed" : text, "wind_speed");
    ("longitude" : text, "longitude"); ("latitude" : text, "latitude") ].

Definition key_field (key : text) : option string :=
  snd <$> find (fun entry => Text.eqb key (fst entry)) recognized.

(** The field a pair of the line writes: its key, trimmed and lower-cased,
    looked up among the recognized keys. *)
Definition pair_field (pair : text) : option string :=
  '(key, _) ← pair_parts pair; key_field (Text.lower (Text.strip key)).

(** What a pair stores under a field: the trimmed value as it is for the
    device id, and its float (or [None]) for a sensor. *)
Definition field_value (field : string) (value : text) : pyval F :=
  if bool_decide (field = "device_id") then VStr value else float_or_none value.

Definition pair_entry (pair : text) : option (string * pyval F) :=
  '(key, value) ← pair_parts pair;
  field ← key_field (Text.lower (Text.strip key));
  Some (field, field_value field (Text.strip value)).

(** The update of the dictionary one pair makes. *)
Definition write_pair (data : dict F) (pair : text) : dict F :=
  match pair_entry pair with
  | Some (field, v) => <[field := v]> data
  | None => data
  end.

(** One write into the dictionary. *)
Definition write_entry (data : dict F) (entry : string * pyval F) : dict F :=
  <[entry.1 := entry.2]> data.

(** The device id a line gives: the trimmed value of a [device_id] pair of
    a key=value line, or the trimmed first piece of a delimited line.  A
    line of the generic format gives none. *)
Definition line_gives_device_id (s : text) (device_id : text) : Prop :=
  if Text.contains "=" s then
    exists pair key value,
      pair ∈ Text.split "," s /\ pair_parts pair = Some (key, value)
      /\ Text.lower (Text.strip key) = "device_id"
      /\ device_id = Text.strip value
  else
    Text.contains "," s = true
    /\ exists p0 values, Text.split "," s = p0 :: values /\ device_id = Text.strip p0.

(** The device id of the reading was supplied by the line: the line gives
    it, and it is not the empty text. *)
Definition device_id_supplied (s : text) (r : dict F) : Prop :=
  exists device_id,
    device_id <> [] /\ line_gives_device_id s device_id
    /\ r !! "device_id" = Some (VStr device_id).

(** The device id of the reading is the empty text, which is what the line
    gives in the place of a device id. *)
Definition device_id_blank (s : text) (r : dict F) : Prop :=
  line_gives_device_id s [] /\ r !! "device_id" = Some (VStr []).

(** The keys a structured line is read by. *)
Definition json_keys : list string :=
  [ "device_id"; "ambient_temp"; "humidity"; "soil_moisture"; "soil_temp";
    "wind_speed"; "longitude"; "latitude" ].

(** The reading with no sensor value and the default device id. *)
Definition blank_reading : dict F :=
  record "unknown" VNone VNone VNone VNone VNone VNone VNone.

End Vocabulary.

(** The line names a device id, or a sensor, in one of its pairs. *)
Definition names_device_id (line : text) : bool :=
  existsb (fun pair => bool_decide (pair_field pair = Some "device_id"))
    (Text.split "," line).

Definition names_sensor (line : text) : bool :=
  existsb (fun pair => match pair_field pair with
                      | Some field => bool_decide (field ∈ sensor_fields)
                      | None => false
                      end)
    (Text.split "," line).

(** Two pieces of a key=value line that differ at most in the case of the
    letters of the key: the values after the first [=] are the same text. *)
Inductive same_pair : text -> text -> Prop :=
| same_pair_recased (key1 key2 value : text) :
    Text.lower key1 = Text.lower key2 -> "="%char ∉ key1 ->
    same_pair (key1 ++ "="%char :: value) (key2 ++ "="%char :: value)
| same_pair_unchanged (piece : text) : same_pair piece piece.

(** The signed-decimal pattern in words: an optional minus sign, one or more
    digits, an optional point, and any number of digits. *)
Inductive signed_decimal : text -> Prop :=
| signed_decimal_intro (sign int dot frac : text) :
    sign = [] \/ sign = ["-"%char] ->
    int <> [] -> Forall (fun c => Text.isdigit c = true) int ->
    dot = [] \/ dot = ["."%char] ->
    Forall (fun c => Text.isdigit c = true) frac ->
    signed_decimal (sign ++ int ++ dot ++ frac).

(** The pieces occur in the text one after the other, in this order and
    without overlap. *)
Inductive in_order : list text -> text -> Prop :=
| in_order_nil (s : text) : in_order [] s
| in_order_cons (gap tok : text) (toks : list text) (s : text) :
    in_order toks s -> in_order (tok :: toks) (gap ++ tok ++ s).

(** The extraction of the numbers of a line, in words: from left to right,
    where a piece of the signed-decimal shape starts the longest such piece
    is taken and the scan goes on behind it; where none starts, the
    character is passed over. *)
Inductive extraction : text -> list text -> Prop :=
| extraction_end : extraction [] []
| extraction_pass (c : ascii) (s : text) (toks : list text) :
    (forall tok rest, c :: s = tok ++ rest -> ~ signed_decimal tok) ->
    extraction s toks ->
    extraction (c :: s) toks
| extraction_take (tok rest : text) (toks : list text) :
    signed_decimal tok ->
    (forall tok' rest', tok ++ rest = tok' ++ rest' -> signed_decimal tok' ->
       length tok' <= length tok) ->
    extraction rest toks ->
    extraction (tok ++ rest) (tok :: toks).

(** The four formats, and the rules that select them in priority order:
    the first rule that matches owns the line. *)
Inductive format := Structured | KeyValue | Delimited | Generic.

Definition rules : list (format * (text -> bool)) :=
  [ (Structured, fun s => Text.startswith "{" s && Text.endswith "}" s);
    (KeyValue, Text.contains "=");
    (Delimited, Text.contains ",") ].

Definition classify (s : text) : format :=
  match find (fun rule => snd rule s) rules with
  | Some rule => fst rule
  | None => Generic
  end.

Definition parse_as {F} (lib : PyLib F) (fmt : format) (s : text) : option (dict F) :=
  match fmt with
  | Structured => _parse_json_format lib s
  | KeyValue => _parse_key_value_format lib s
  | Delimited => _parse_csv_format lib s
  | Generic => _parse_generic_format lib s
  end.

(** The vocabulary of the session. *)

Module SerialSpec.
Import Serial.

(** The platforms the port scan knows. *)
Definition supported (platform : text) : bool :=
  Text.startswith "win" platform || Text.startswith "linux" platform
  || Text.startswith "cygwin" platform || Text.startswith "darwin" platform.

(** The candidate ports of a supported platform. *)
Definition candidates (host : Host) : list text :=
  if Text.startswith "win" (platform host) then
    map (fun port_number => "COM" ++ pretty (port_number + 1)) (seq 0 MAX_COM_PORTS)
  else if Text.startswith "linux" (platform host) || Text.startswith "cygwin" (platform host)
  then glob host "/dev/tty[A-Za-z]*"
  else glob host "/dev/tty.*".

(** The probe of a port opens it, and closes it again. *)
Definition probe_opens (host : Host) (port : text) : bool :=
  bool_decide (open_port host port None None = None).
Definition probe_succeeds (host : Host) (port : text) : bool :=
  probe_opens host port && bool_decide (close_port host port = None).

(** The path [connect] opens for a port. *)
Definition connect_path (os_type : Z) (port : text) : text :=
  if (os_type =? OS_LINUX)%Z then "/dev/tty" ++ port else port.

(** The session at rest: no handle, not connected, monitoring stopped. *)
Definition idle (thread : option nat) : SerialManager :=
  {| serial_connection := None; is_connected := false;
     should_monitor_data := false; data_monitoring_thread := thread |}.

(** A host for evaluation: a Linux machine with three serial devices, of
    which only the USB adapter can be opened. *)
Definition bench : Host :=
  {| platform := "linux";
     glob := fun pattern =>
       if Text.eqb pattern "/dev/tty[A-Za-z]*"
       then [ "/dev/ttyS0" : text; "/dev/ttyUSB0" : text; "/dev/ttyACM0" : text ]
       else [];
     open_port := fun port baudrate timeout =>
       if Text.eqb port "/dev/ttyUSB0" then None
       else if Text.eqb port "/dev/ttyS0" then Some SerialException
       else Some OSError;
     close_port := fun connection => None |}.

(** The state of a process that has just made its [SerialManager]. *)
Definition boot : State :=
  {| self := init; world := {| open_handles := []; threads := 0; stdout := [] |} |}.

End SerialSpec.

(** ** More vocabulary: the readings the decoder makes *)

Section ReadingVocabulary.
Context {F : Type} (lib : PyLib F).

(** The keys a reading can have: the columns the decoder fills. *)
Definition reading_keys : list string :=
  "device_id" :: sensor_fields ++ [ "transmitted" ].

(** A value [float] converts, or refuses with [ValueError] or [TypeError]:
    anything but an integer or a boolean. *)
Definition plain_value (v : option (pyval F)) : Prop :=
  match v with
  | Some (VInt _) | Some (VBool _) => False
  | _ => True
  end.

(** What [_safe_float] makes of a plain value: a float stays, a string is
    read as a float or gives [None], and anything else gives [None]. *)
Definition plain_float (v : option (pyval F)) : pyval F :=
  match v with
  | Some (VFloat f) => VFloat f
  | Some (VStr s) => float_or_none lib s
  | _ => VNone
  end.

(** A sensor value of a reading: [None] or a float. *)
Definition sensor_value (v : pyval F) : Prop := v = VNone \/ exists f, v = VFloat f.

(** What every reading of the decoder is like: [transmitted] is false, the
    device id is a string, no key is outside the columns, and the sensor
    fields it has hold [None] or a float. *)
Definition wellformed (r : dict F) : Prop :=
  r !! "transmitted" = Some (VBool false)
  /\ (exists device_id, r !! "device_id" = Some (VStr device_id))
  /\ (forall key, is_Some (r !! key) -> key ∈ reading_keys)
  /\ (forall key v, key ∈ sensor_fields -> r !! key = Some v -> sensor_value v).

(** The result of the key=value parser, from the entries its pairs write,
    in the order of the line. *)
Definition kv_of_entries (entries : list (string * pyval F)) : option (dict F) :=
  if existsb (fun entry => bool_decide (entry.1 = "device_id")) entries
     && existsb (fun entry => bool_decide (entry.1 ∈ sensor_fields)) entries
  then Some (<["transmitted" := VBool false]> (foldl write_entry ∅ entries))
  else None.

End ReadingVocabulary.

(** ** Method bodies over any state

    The monad of [Serial.M], for any state and any type of exceptions. *)

Module Eff.

Inductive Out (E A : Type) :=
| Done (a : A)
| Fail (e : E).
Arguments Done {E A} a.
Arguments Fail {E A} e.

Definition M (E S A : Type) : Type := S -> Out E A * S.

#[global] Instance M_ret {E S} : MRet (M E S) := fun A a st => (Done a, st).
#[global] Instance M_bind {E S} : MBind (M E S) := fun A B f m st =>
  match m st with
  | (Done a, st') => f a st'
  | (Fail e, st') => (Fail e, st')
  end.

Definition raise {E S A} (e : E) : M E S A := fun st => (Fail e, st).
Definition get {E S} : M E S S := fun st => (Done st, st).
Definition modify {E S} (f : S -> S) : M E S unit := fun st => (Done tt, f st).

(** [try: body / except classes: handler] *)
Definition try_except {E S A} (body : M E S A) (classes : E -> bool) (handler : M E S A)
  : M E S A :=
  fun st =>
    match body st with
    | (Done a, st') => (Done a, st')
    | (Fail e, st') => if classes e then handler st' else (Fail e, st')
    end.

(** [try: body / except classes as error: handler] *)
Definition try_except_as {E S A} (body : M E S A) (classes : E -> bool)
    (handler : E -> M E S A) : M E S A :=
  fun st =>
    match body st with
    | (Done a, st') => (Done a, st')
    | (Fail e, st') => if classes e then handler e st' else (Fail e, st')
    end.

(** [try: body / finally: final] *)
Definition try_finally {E S A} (body : M E S A) (final : M E S unit) : M E S A :=
  fun st =>
    match body st with
    | (r, st') =>
        match final st' with
        | (Done _, st'') => (r, st'')
        | (Fail e, st'') => (Fail e, st'')
        end
    end.

(** [except Exception] *)
Definition any_exception {E} (e : E) : bool := true.

End Eff.

(** ** The rest of the session: [send_command], [cleanup], [_monitor_data] *)

Module Wire.
Import Serial.

(** [s.encode()]: the UTF-8 bytes of the text, one byte for a code point
    below 128 and two for the others. *)
Definition encode_char (c : ascii) : list N :=
  let n := Text.code c in
  if (n <? 128)%N then [n] else [192 + n / 64; 128 + n mod 64]%N.

Definition encode (s : text) : list N := flat_map encode_char s.

(** What [readline] gives: bytes (none at a timeout) or an exception. *)
Inductive reading_result :=
| Bytes (data : list N)
| ReadError (e : pyexn).

(** The session with its link: what has been written to which handle, what
    the device will answer to the coming reads, whether a data callback is
    set, and what the callback has been given. *)
Record Line := {
  session : State;
  sent : list (handle * list N);
  incoming : list reading_result;
  data_callback : bool;
  received : list text;
}.

Definition M (A : Type) : Type := Eff.M pyexn Line A.

Definition with_session (st : State) (l : Line) : Line :=
  {| session := st; sent := sent l; incoming := incoming l;
     data_callback := data_callback l; received := received l |}.

(** A method of the session, run on the session of the line. *)
Definition lift {A} (m : Serial.M A) : M A :=
  fun l =>
    match m (session l) with
    | (Ok a, st) => (Eff.Done a, with_session st l)
    | (Raise e, st) => (Eff.Fail e, with_session st l)
    end.

(** [self.data_callback = callback] *)
Definition set_data_callback : M unit :=
  Eff.modify (fun l => {| session := session l; sent := sent l; incoming := incoming l;
     data_callback := true; received := received l |}).

(** The call of the data callback. *)
Definition call_data_callback (data : text) : M unit :=
  Eff.modify (fun l => {| session := session l; sent := sent l; incoming := incoming l;
     data_callback := data_callback l; received := received l ++ [data] |}).

Section Link.
Context (host : Host).
(** [connection.write(data)]: [None] for success, or the exception. *)
Context (write_port : handle -> list N -> option pyexn).
(** [data.decode('utf-8', errors='ignore')] *)
Context (decode : list N -> text).

Definition serial_write (connection : handle) (data : list N) : M unit :=
  match write_port connection data with
  | None =>
      Eff.modify (fun l => {| session := session l; sent := sent l ++ [(connection, data)];
         incoming := incoming l; data_callback := data_callback l;
         received := received l |})
  | Some e => Eff.raise e
  end.

(** [connection.readline()]: the next answer of the device; when none is
    left, the read times out with no bytes. *)
Definition serial_readline (connection : handle) : M (list N) :=
  fun l =>
    match incoming l with
    | [] => (Eff.Done [], l)
    | Bytes data :: rest =>
        (Eff.Done data, {| session := session l; sent := sent l; incoming := rest;
           data_callback := data_callback l; received := received l |})
    | ReadError e :: rest =>
        (Eff.Fail e, {| session := session l; sent := sent l; incoming := rest;
           data_callback := data_callback l; received := received l |})
    end.

Definition send_command (command : text) : M bool :=
  s ← lift get_self;
  match is_connected s, serial_connection s with
  | true, Some connection =>
      Eff.try_except
        (serial_write connection (encode command);;
         lift (print ("Command sent successfully: " ++ command));;
         mret true)
        serial_exception
        (mret false)
  | _, _ => mret false
  end.

(** One turn of the loop of [_monitor_data], after its test: [true] to go
    on ([continue], or the end of the body), [false] to [break]. *)
Definition monitor_turn (connection : handle) : M bool :=
  Eff.try_except
    (incoming_data ← serial_readline connection;
     l ← Eff.get;
     (if bool_decide (incoming_data <> []) && data_callback l then
        let decoded_data := decode incoming_data in
        lift (print ("Received data: " ++ decoded_data));;
        call_data_callback decoded_data
      else mret tt);;
     mret true)
    serial_exception
    (mret false).

(** [_monitor_data], followed for at most [turns] turns of its loop:
    [Some tt] when the method has returned, [None] when it is still in its
    loop after that many turns.  The handler for [UnicodeDecodeError] has no
    part: with [errors='ignore'] the decoding raises none. *)
Fixpoint _monitor_data (turns : nat) : M (option unit) :=
  match turns with
  | O => mret None
  | S turns' =>
      s ← lift get_self;
      match should_monitor_data s, serial_connection s with
      | true, Some connection =>
          go_on ← monitor_turn connection;
          if go_on : bool then _monitor_data turns' else mret (Some tt)
      | _, _ => mret (Some tt)
      end
  end.

Definition cleanup : Serial.M unit :=
  s ← get_self;
  if is_connected s then disconnect host else mret tt.

End Link.

End Wire.

(** ** Saving the readings: [database_manager.py] and [database_models.py] *)

Module Store.

(** The exceptions of this part: the [RuntimeError] of [get_db_session],
    the [TypeError] of the model's constructor for a keyword that is no
    attribute, and the errors of the database library. *)
Inductive dbexn := RuntimeError | KeywordError | DatabaseError.

(** The attributes of [SensorData]. *)
Definition columns : list string :=
  [ "id"; "device_id"; "ambient_temperature"; "humidity"; "soil_moisture";
    "soil_temperature"; "wind_speed"; "longitude"; "latitude"; "transmitted";
    "timestamp" ].

Section Store.
Context {F : Type} (lib : PyLib F).

(** The database library and server: what [create_engine] and
    [create_all] answer for a URL, what [commit] answers for the rows of
    the table and the records added, and what [rollback] and [close] answer:
    [None] for success, or the exception raised. *)
Record Backend := {
  create_engine : text -> option dbexn;
  create_all : text -> option dbexn;
  commit : list (dict F) -> list (dict F) -> option dbexn;
  rollback : option dbexn;
  close : option dbexn;
}.

(** The globals of [database_models.py], the table, the sessions that are
    open and the records added to the session in use, and what has been
    printed. *)
Record Database := {
  engine : option text;
  SessionLocal : option text;
  table : list (dict F);
  open_sessions : nat;
  pending : list (dict F);
  stdout : list text;
}.

Record DatabaseManager := {
  database_url : text;
  _initialized : bool;
}.

Record State := {
  self : DatabaseManager;
  db : Database;
}.

Definition M (A : Type) : Type := Eff.M dbexn State A.

(** [DatabaseManager.__init__] *)
Definition __init__ (database_url : text) : DatabaseManager :=
  {| database_url := database_url; _initialized := false |}.

Definition set_db (f : Database -> Database) : M unit :=
  Eff.modify (fun st => {| self := self st; db := f (db st) |}).

Definition print (message : text) : M unit :=
  set_db (fun d => {| engine := engine d; SessionLocal := SessionLocal d; table := table d;
     open_sessions := open_sessions d; pending := pending d;
     stdout := stdout d ++ [message] |}).

Context (backend : Backend).

(** A call of the library that may raise. *)
Definition call (answer : option dbexn) : M unit :=
  match answer with
  | None => mret tt
  | Some e => Eff.raise e
  end.

(** [init_database(database_url)]: the globals are set before the tables
    are made. *)
Definition init_database (database_url : text) : M unit :=
  call (create_engine backend database_url);;
  set_db (fun d => {| engine := Some database_url; SessionLocal := SessionLocal d;
     table := table d; open_sessions := open_sessions d; pending := pending d;
     stdout := stdout d |});;
  set_db (fun d => {| engine := engine d; SessionLocal := Some database_url;
     table := table d; open_sessions := open_sessions d; pending := pending d;
     stdout := stdout d |});;
  call (create_all backend database_url).

(** [get_db_session()] *)
Definition get_db_session : M unit :=
  st ← Eff.get;
  match SessionLocal (db st) with
  | None => Eff.raise RuntimeError
  | Some _ =>
      set_db (fun d => {| engine := engine d; SessionLocal := SessionLocal d;
         table := table d; open_sessions := S (open_sessions d); pending := [];
         stdout := stdout d |})
  end.

(** [SensorData] called with the entries of the dictionary as keywords: a
    keyword that is no attribute of the model is a [TypeError]. *)
Definition SensorData (sensor_data : dict F) : M (dict F) :=
  if bool_decide (Forall (fun key => key ∈ columns) (map fst (map_to_list sensor_data)))
  then mret sensor_data
  else Eff.raise KeywordError.

(** [db.add(new_record)] *)
Definition db_add (new_record : dict F) : M unit :=
  set_db (fun d => {| engine := engine d; SessionLocal := SessionLocal d; table := table d;
     open_sessions := open_sessions d; pending := pending d ++ [new_record];
     stdout := stdout d |}).

(** [db.commit()] *)
Definition db_commit : M unit :=
  st ← Eff.get;
  call (commit backend (table (db st)) (pending (db st)));;
  set_db (fun d => {| engine := engine d; SessionLocal := SessionLocal d;
     table := table d ++ pending d; open_sessions := open_sessions d; pending := [];
     stdout := stdout d |}).

(** [db.rollback()] *)
Definition db_rollback : M unit :=
  call (rollback backend);;
  set_db (fun d => {| engine := engine d; SessionLocal := SessionLocal d; table := table d;
     open_sessions := open_sessions d; pending := []; stdout := stdout d |}).

(** [db.close()] *)
Definition db_close : M unit :=
  call (close backend);;
  set_db (fun d => {| engine := engine d; SessionLocal := SessionLocal d; table := table d;
     open_sessions := pred (open_sessions d); pending := []; stdout := stdout d |}).

Definition set_initialized (b : bool) : M unit :=
  Eff.modify (fun st =>
    {| self := {| database_url := database_url (self st); _initialized := b |};
       db := db st |}).

Definition initialize : M bool :=
  Eff.try_except
    (st ← Eff.get;
     init_database (database_url (self st));;
     set_initialized true;;
     print "Database initialized successfully";;
     mret true)
    Eff.any_exception
    (print "Failed to initialize database";; mret false).

(** [not sensor_data]: the parse gave [None], or a dictionary with no key. *)
Definition falsy (sensor_data : option (dict F)) : bool :=
  match sensor_data with
  | None => true
  | Some d => bool_decide (size d = 0)
  end.

(** The messages are printed without the values they name. *)
Definition save_sensor_data (data_string : text) : M bool :=
  st ← Eff.get;
  if negb (_initialized (self st)) then
    print "Database not initialized. Cannot save data.";;
    mret false
  else
    Eff.try_except
      (let sensor_data := _parse_sensor_data lib data_string in
       match sensor_data with
       | Some record =>
           if falsy sensor_data then mret false
           else
             get_db_session;;
             Eff.try_finally
               (Eff.try_except
                  (new_record ← SensorData record;
                   db_add new_record;;
                   db_commit;;
                   print "Saved sensor data to database";;
                   mret true)
                  Eff.any_exception
                  (db_rollback;;
                   print "Failed to save sensor data";;
                   mret false))
               db_close
       | None => mret false
       end)
      Eff.any_exception
      (print "Error processing sensor data";; mret false).

End Store.

End Store.

(** ** Validation and dialogs: [error_handler.py] *)

Module Gui.

(** A call of [messagebox]. *)
Inductive dialog :=
| ShowError (title message : text)
| ShowWarning (title message : text)
| ShowInfo (title message : text).

(** [config.py] *)
Definition ERROR_MESSAGES : gmap string text :=
  list_to_map
    [ ("configuration_missing", "Please specify both port and baud rate before connecting" : text);
      ("invalid_baud_rate", "Baud rate must be a valid number" : text);
      ("os_not_selected", "Please select an operating system before connecting" : text);
      ("connection_failed", "Failed to connect to {port}: {error}" : text);
      ("no_connection", "No active connection. Please connect to a device first." : text);
      ("empty_command", "Please enter a command to send" : text);
      ("send_failed", "Failed to send command: {error}" : text);
      ("unsupported_platform", "Unsupported platform detected" : text) ].

Definition DIALOG_TITLES : gmap string text :=
  list_to_map
    [ ("configuration_error", "Configuration Error" : text);
      ("connection_error", "Connection Error" : text);
      ("input_error", "Input Error" : text);
      ("communication_error", "Communication Error" : text);
      ("exit_confirmation", "Exit Application" : text) ].

(** The dialogs shown so far are the state. *)
Definition M (A : Type) : Type := Eff.M pyexn (list dialog) A.

Definition show (d : dialog) : M unit := Eff.modify (fun shown => shown ++ [d]).

Section Handler.
(** [int(s)] for a string: [None] stands for [ValueError]. *)
Context (int_of_text : text -> option Z).
(** [template.format] with keyword arguments. *)
Context (format : text -> list (string * text) -> Res text).

(** [ERROR_MESSAGES.get(message_key, message_key)], formatted when there
    are keyword arguments. *)
Definition message_for (message_key : string) (kwargs : list (string * text)) : M text :=
  let message := default (message_key : text) (ERROR_MESSAGES !! message_key) in
  match kwargs with
  | [] => mret message
  | _ :: _ =>
      match format message kwargs with
      | Ok formatted => mret formatted
      | Raise e => Eff.raise e
      end
  end.

(** [DIALOG_TITLES[key]], for a key the dictionary has. *)
Definition title_for (key : string) : text := default [] (DIALOG_TITLES !! key).

Definition show_configuration_error (message_key : string) (kwargs : list (string * text))
  : M unit :=
  message ← message_for message_key kwargs;
  show (ShowError (title_for "configuration_error") message).

Definition show_connection_error (message_key : string) (kwargs : list (string * text))
  : M unit :=
  message ← message_for message_key kwargs;
  show (ShowError (title_for "connection_error") message).

Definition show_input_error (message_key : string) (kwargs : list (string * text))
  : M unit :=
  message ← message_for message_key kwargs;
  show (ShowWarning (title_for "input_error") message).

Definition show_communication_error (message_key : string) (kwargs : list (string * text))
  : M unit :=
  message ← message_for message_key kwargs;
  show (ShowError (title_for "communication_error") message).

Definition show_warning (title message : text) : M unit := show (ShowWarning title message).

Definition value_error (e : pyexn) : bool :=
  match e with
  | ValueError => true
  | _ => false
  end.

Definition validate_baud_rate (baud_rate_string : text) : M (option Z) :=
  Eff.try_except
    (baud_rate ← match int_of_text baud_rate_string with
                 | Some n => mret n
                 | None => Eff.raise ValueError
                 end;
     if (baud_rate <=? 0)%Z then
       show_configuration_error "invalid_baud_rate" [];;
       mret None
     else mret (Some baud_rate))
    value_error
    (show_configuration_error "invalid_baud_rate" [];;
     mret None).

(** [not s] for a string. *)
Definition empty (s : text) : bool := bool_decide (s = []).

Definition validate_connection_settings (selected_os : Z) (selected_port : text)
    (baud_rate_string : text) : M bool :=
  if empty selected_port || empty baud_rate_string then
    show_configuration_error "configuration_missing" [];;
    mret false
  else
    baud_rate ← validate_baud_rate baud_rate_string;
    match baud_rate with
    | None => mret false
    | Some _ =>
        if negb (bool_decide (selected_os ∈ [1; 2]%Z)) then
          show_configuration_error "os_not_selected" [];;
          mret false
        else mret true
    end.

Definition handle_connection_failure (port error : text) : M unit :=
  show_connection_error "connection_failed" [("port", port); ("error", error)].

Definition handle_command_validation (is_connected : bool) (command_text : text) : M bool :=
  if negb is_connected then
    show_input_error "no_connection" [];;
    mret false
  else if empty command_text then
    show_input_error "empty_command" [];;
    mret false
  else mret true.

Definition handle_send_failure (error : text) : M unit :=
  show_communication_error "send_failed" [("error", error)].

End Handler.

End Gui.

(** ** The handlers of the window: [mizu_sensor_hub.py] *)

Module App.
Import Serial.

(** The widgets the handlers read and write: the radio buttons, the port
    menu, the two entries, the text of the connection button, and the
    dialogs shown. *)
Record Ui := {
  selected_os : Z;
  port_selection : text;
  baud_rate_input : text;
  command_input : text;
  button_text : text;
  dialogs : list Gui.dialog;
}.

Record State := {
  line : Wire.Line;
  ui : Ui;
}.

Definition M (A : Type) : Type := Eff.M pyexn State A.

(** A method of the serial manager, and a function of the error handler,
    run from the window. *)
Definition on_line {A} (m : Wire.M A) : M A :=
  fun st =>
    match m (line st) with
    | (r, l) => (r, {| line := l; ui := ui st |})
    end.

Definition with_dialogs (shown : list Gui.dialog) (u : Ui) : Ui :=
  {| selected_os := selected_os u; port_selection := port_selection u;
     baud_rate_input := baud_rate_input u; command_input := command_input u;
     button_text := button_text u; dialogs := shown |}.

Definition on_dialogs {A} (m : Gui.M A) : M A :=
  fun st =>
    match m (dialogs (ui st)) with
    | (r, shown) => (r, {| line := line st; ui := with_dialogs shown (ui st) |})
    end.

(** [connection_panel.update_connection_button_state(is_connected)] *)
Definition update_connection_button_state (is_connected : bool) : M unit :=
  Eff.modify (fun st =>
    {| line := line st;
       ui := {| selected_os := selected_os (ui st); port_selection := port_selection (ui st);
                baud_rate_input := baud_rate_input (ui st);
                command_input := command_input (ui st);
                button_text := if is_connected then "Disconnect" else "Connect";
                dialogs := dialogs (ui st) |} |}).

(** [main_content_panel.clear_command_input()] *)
Definition clear_command_input : M unit :=
  Eff.modify (fun st =>
    {| line := line st;
       ui := {| selected_os := selected_os (ui st); port_selection := port_selection (ui st);
                baud_rate_input := baud_rate_input (ui st); command_input := [];
                button_text := button_text (ui st); dialogs := dialogs (ui st) |} |}).

Section Window.
Context (host : Host).
Context (write_port : handle -> list N -> option pyexn).
Context (int_of_text : text -> option Z).
Context (format : text -> list (string * text) -> Res text).
(** [str(error)] for an exception. *)
Context (error_text : pyexn -> text).

Definition _scan_available_ports : M (list text) :=
  Eff.try_except_as
    (on_line (Wire.lift (scan_available_ports host)))
    Eff.any_exception
    (fun error =>
       on_dialogs
         (Gui.show_warning "Port Scan Error"
            ("Failed to scan for available ports: " ++ error_text error));;
       mret []).

Definition _establish_serial_connection : M unit :=
  st ← Eff.get;
  let selected_os := selected_os (ui st) in
  let selected_port := port_selection (ui st) in
  let baud_rate_string := baud_rate_input (ui st) in
  valid ← on_dialogs
    (Gui.validate_connection_settings int_of_text format selected_os selected_port
       baud_rate_string);
  if negb valid then mret tt
  else
    baud_rate ← on_dialogs (Gui.validate_baud_rate int_of_text format baud_rate_string);
    match baud_rate with
    | None => mret tt
    | Some baud_rate =>
        connected ← on_line (Wire.lift (connect host selected_port baud_rate selected_os));
        if connected : bool then update_connection_button_state true
        else on_dialogs (Gui.handle_connection_failure format selected_port "Connection failed")
    end.

Definition _close_serial_connection : M unit :=
  on_line (Wire.lift (disconnect host));;
  update_connection_button_state false.

Definition _toggle_serial_connection : M unit :=
  st ← Eff.get;
  if is_connected (self (Wire.session (line st))) then _close_serial_connection
  else _establish_serial_connection.

Definition _send_serial_command : M unit :=
  st ← Eff.get;
  let command_text := Text.strip (command_input (ui st)) in
  valid ← on_dialogs
    (Gui.handle_command_validation format
       (is_connected (self (Wire.session (line st)))) command_text);
  if negb valid then mret tt
  else
    sent ← on_line (Wire.send_command write_port command_text);
    if negb sent then on_dialogs (Gui.handle_send_failure format "Failed to send command")
    else clear_command_input.

End Window.

End App.

(** ** Vocabulary for the window *)

Module WindowSpec.
Import Serial.

Section Settings.
Context (int_of_text : text -> option Z).

(** The settings [connect] is called with: a port, a baud rate that reads
    as a positive integer, and one of the two operating systems. *)
Definition settings_valid (selected_os : Z) (selected_port baud_rate_string : text) : Prop :=
  selected_port <> [] /\ baud_rate_string <> []
  /\ (exists n, int_of_text baud_rate_string = Some n /\ (0 < n)%Z)
  /\ (selected_os = OS_WINDOWS \/ selected_os = OS_LINUX).

End Settings.

(** The window with another line, and with another list of dialogs. *)
Definition on (l : Wire.Line) (u : App.Ui) : App.State := {| App.line := l; App.ui := u |}.

(** A reference [int]: an optional sign and decimal digits, blanks around
    them ignored. *)
Definition int (s : text) : option Z :=
  let '(neg, digits) := Ref.sign (Text.strip s) in
  if bool_decide (digits <> []) && forallb Text.isdigit digits
  then Some (if neg then - Ref.digits_val digits else Ref.digits_val digits)%Z
  else None.

(** A reference [format] for templates with named fields only. *)
Fixpoint fill (fuel : nat) (template : text) (kwargs : list (string * text)) : Res text :=
  match fuel, template with
  | _, [] => Ok []
  | O, _ => Ok []
  | S fuel', "{"%char :: rest =>
      let '(name, after) := Regex.span (fun c => negb (Ascii.eqb c "}")) rest in
      match find (fun kv => Text.eqb name (kv.1 : string)) kwargs, after with
      | Some (_, value), _ :: after' => tail ← fill fuel' after' kwargs; Ok (value ++ tail)
      | _, _ => Raise IndexError
      end
  | S fuel', c :: rest => tail ← fill fuel' rest kwargs; Ok (c :: tail)
  end.

Definition format (template : text) (kwargs : list (string * text)) : Res text :=
  fill (length template) template kwargs.

(** A window for evaluation: nothing connected, the Linux button chosen,
    the USB adapter selected, and the default baud rate. *)
Definition line0 : Wire.Line :=
  {| Wire.session := SerialSpec.boot; Wire.sent := []; Wire.incoming := [];
     Wire.data_callback := true; Wire.received := [] |}.

Definition settings (selected_port baud_rate_string : text) : App.Ui :=
  {| App.selected_os := OS_LINUX; App.port_selection := selected_port;
     App.baud_rate_input := baud_rate_string; App.command_input := [];
     App.button_text := "Connect"; App.dialogs := [] |}.

Definition window : App.State := on line0 (settings "USB0" "9600").

(** Hosts for evaluation: a platform the scan does not know, and a Linux
    machine whose ports open but fail to close. *)
Definition unknown_platform : Host :=
  {| platform := "sunos5"; glob := fun _ => [];
     open_port := fun _ _ _ => None; close_port := fun _ => None |}.

Definition stuck : Host :=
  {| platform := "linux"; glob := glob SerialSpec.bench;
     open_port := fun _ _ _ => None; close_port := fun _ => Some SerialException |}.


(** A link for evaluation: every write succeeds, and the bytes below 128
    decode to their characters. *)
Definition write_port (connection : handle) (data : list N) : option pyexn := None.

Definition decode (data : list N) : text :=
  map ascii_of_N (filter (fun n => (n < 128)%N) data).

(** A session that holds the USB adapter. *)
Definition connected : State :=
  {| self := {| serial_connection := Some ("/dev/ttyUSB0" : text); is_connected := true;
                should_monitor_data := true; data_monitoring_thread := Some 0 |};
     world := {| open_handles := [ "/dev/ttyUSB0" : text ]; threads := 1; stdout := [] |} |}.

End WindowSpec.

(** ** The example sender: [example_sensor_data.py] *)

Module Example.

Section Formatters.
Context {F : Type} (lib : PyLib F).

(** The dictionary [generate_sensor_data] returns, for the values drawn. *)
Definition generated (device_id : text) (ambient_temp humidity soil_moisture soil_temp
    wind_speed longitude latitude : F) : dict F :=
  <["latitude" := VFloat latitude]> (
  <["longitude" := VFloat longitude]> (
  <["wind_speed" := VFloat wind_speed]> (
  <["soil_temp" := VFloat soil_temp]> (
  <["soil_moisture" := VFloat soil_moisture]> (
  <["humidity" := VFloat humidity]> (
  <["ambient_temp" := VFloat ambient_temp]> (
  <["device_id" := VStr device_id]> ∅))))))).

(** [{data[key]}] in an f-string: [None] stands for [KeyError]. *)
Definition field (data : dict F) (key : string) : option text := str lib <$> data !! key.

Definition format_csv_data (data : dict F) : option text :=
  device_id ← field data "device_id";
  ambient_temp ← field data "ambient_temp";
  humidity ← field data "humidity";
  soil_moisture ← field data "soil_moisture";
  soil_temp ← field data "soil_temp";
  wind_speed ← field data "wind_speed";
  longitude ← field data "longitude";
  latitude ← field data "latitude";
  Some (device_id ++ "," ++ ambient_temp ++ "," ++ humidity ++ "," ++ soil_moisture
        ++ "," ++ soil_temp ++ "," ++ wind_speed ++ "," ++ longitude ++ "," ++ latitude).

Definition format_key_value_data (data : dict F) : option text :=
  device_id ← field data "device_id";
  ambient_temp ← field data "ambient_temp";
  humidity ← field data "humidity";
  soil_moisture ← field data "soil_moisture";
  soil_temp ← field data "soil_temp";
  wind_speed ← field data "wind_speed";
  longitude ← field data "longitude";
  latitude ← field data "latitude";
  Some ("device_id=" ++ device_id ++ ",ambient_temp=" ++ ambient_temp
        ++ ",humidity=" ++ humidity ++ ",soil_moisture=" ++ soil_moisture
        ++ ",soil_temp=" ++ soil_temp ++ ",wind_speed=" ++ wind_speed
        ++ ",longitude=" ++ longitude ++ ",latitude=" ++ latitude).

(** The characters of the text of a float: digits, the point, the signs,
    and the letters of the exponent, of [inf] and of [nan]. *)
Definition float_char (c : ascii) : bool :=
  Text.isdigit c || Text.contains c ".-+einfa".

(** A float whose text is made of such characters and reads back as the
    same float. *)
Definition printable (v : F) : Prop :=
  forallb float_char (repr lib (VFloat v)) = true
  /\ float_of_text lib (repr lib (VFloat v)) = Some v.

(** A device id that a line can carry: no blank at either end, no comma
    and no equals sign, and no brace in front. *)
Definition sendable (device_id : text) : Prop :=
  Text.strip device_id = device_id
  /\ (","%char ∉ device_id) /\ ("="%char ∉ device_id)
  /\ Text.startswith "{" device_id = false.

End Formatters.

(** A library for evaluation: the reference one, with the decimal text of
    the floats that have at most six decimals. *)
Definition places (q : Q) : option nat :=
  find (fun k => (10 ^ Z.of_nat k mod Z.pos (Qden q) =? 0)%Z) (seq 1 6).

Definition show_float (q : Q) : text :=
  match places q with
  | Some k =>
      let unit := (10 ^ Z.of_nat k)%Z in
      let scaled := (Z.abs (Qnum q) * unit / Z.pos (Qden q))%Z in
      let decimals : text := pretty (scaled mod unit)%Z in
      (if (Qnum q <? 0)%Z then "-" : text else [])
      ++ pretty (scaled / unit)%Z ++ "."
      ++ replicate (k - length decimals) "0"%char ++ decimals
  | None => "nan"
  end.

Definition lib : PyLib Q :=
  {| float_of_text := float_of_text Ref.lib;
     float_of_int := float_of_int Ref.lib;
     json_loads := json_loads Ref.lib;
     repr := fun v =>
       match v with
       | VFloat q => show_float q
       | _ => Ref.show v
       end |}.

End Example.

(** ** A database for evaluation *)

Module StoreSpec.

(** A server that accepts everything, and a database with nothing in it. *)
Definition accepting : Store.Backend (F := Q) :=
  {| Store.create_engine := fun _ => None; Store.create_all := fun _ => None;
     Store.commit := fun _ _ => None; Store.rollback := None; Store.close := None |}.

Definition empty : Store.Database (F := Q) :=
  {| Store.engine := None; Store.SessionLocal := None; Store.table := [];
     Store.open_sessions := 0; Store.pending := []; Store.stdout := [] |}.

Definition ready : Store.State (F := Q) :=
  {| Store.self := {| Store.database_url := "postgresql://localhost/mizu_sensor_hub";
                      Store._initialized := true |};
     Store.db := {| Store.engine := Some ("postgresql://localhost/mizu_sensor_hub" : text);
                    Store.SessionLocal := Some ("postgresql://localhost/mizu_sensor_hub" : text);
                    Store.table := []; Store.open_sessions := 0; Store.pending := [];
                    Store.stdout := [] |} |}.

End StoreSpec.

(** ** Sample inputs *)

Module Samples.
Import Serial.

(** A structured line with all eight values, and the object it holds. *)
Definition structured_line : text :=
  Ref.quoted "{'device_id':'T1','ambient_temp':25.5,'humidity':60.2,'soil_moisture':41.5,'soil_temp':22.5,'wind_speed':3.5,'longitude':12.25,'latitude':45.5}".

Definition structured_object : dict Q :=
  Example.generated "T1" (51 # 2) (301 # 5) (83 # 2) (45 # 2) (7 # 2) (49 # 4) (91 # 2).

(** A structured line whose humidity is an integer beyond the floats. *)
Definition overflow_line : text :=
  Ref.quoted "{'device_id':'T1','humidity':1" ++ replicate 309 "0"%char ++ "}".

Definition overflow_object : dict Q :=
  <["humidity" := VInt (10 ^ 309)]> (<["device_id" := VStr "T1"]> ∅).

(** A structured line with a number as device id, a string as humidity and
    [null] as soil temperature. *)
Definition lenient_line : text :=
  Ref.quoted "{'device_id':7,'humidity':'61.5','soil_temp':null}".

Definition lenient_object : dict Q :=
  <["soil_temp" := VNone]> (<["humidity" := VStr "61.5"]> (<["device_id" := VInt 7]> ∅)).

(** The line end that [readline] leaves. *)
Definition line_end : text := [ "013"%char; "010"%char ].

(** A line that is being monitored: the session holds the USB adapter, a
    callback is set, and the device answers two texts around a timeout
    before the read fails. *)
Definition monitored : Wire.Line :=
  {| Wire.session := WindowSpec.connected; Wire.sent := [];
     Wire.incoming :=
       map Wire.Bytes [ [72; 105]; []; [79; 75] ]%N
       ++ Wire.ReadError SerialException :: [ Wire.Bytes [1%N] ];
     Wire.data_callback := true; Wire.received := [] |}.

(** The window once connected, with a command typed between blanks. *)
Definition typing : App.State :=
  {| App.line := monitored;
     App.ui := {| App.selected_os := OS_LINUX; App.port_selection := "USB0";
                  App.baud_rate_input := "9600"; App.command_input := " PING ";
                  App.button_text := "Disconnect"; App.dialogs := [] |} |}.

(** The reading of the delimited sample line. *)
Definition delimited_reading : dict Q :=
  record "T2" (VFloat (261 # 10)) (VFloat (589 # 10)) (VFloat (423 # 10))
    (VFloat (47 # 2)) VNone VNone VNone.

End Samples.

(** * Properties

    ** Text *)

Module TextFacts.
Import Text.

Lemma contains_true (c : ascii) (s : text) : contains c s = true <-> c ∈ s.
Proof.
  unfold contains. rewrite existsb_exists. split.
  - intros (x & Hx & Heq). apply Ascii.eqb_eq in Heq. subst. by apply list_elem_of_In.
  - intros Hc. exists c. split; [by apply list_elem_of_In | apply Ascii.eqb_refl].
Qed.

Lemma contains_false (c : ascii) (s : text) : contains c s = false <-> c ∉ s.
Proof.
  rewrite <- contains_true. destruct (contains c s); split; congruence.
Qed.

Lemma contains_not_in (c : ascii) (s : text) : c ∉ s -> contains c s = false.
Proof. apply contains_false. Qed.

Lemma contains_app (c : ascii) (a b : text) :
  contains c (a ++ b) = contains c a || contains c b.
Proof. unfold contains. apply existsb_app. Qed.

(** [split] cuts at every separator, and the pieces hold none. *)
Lemma split_nonempty sep s : split sep s ≠ [].
Proof.
  induction s as [|c s IH]; simpl; [done|].
  destruct (Ascii.eqb c sep); [done|]. by destruct (split sep s).
Qed.

Lemma split_no_sep sep (s : text) : sep ∉ s -> split sep s = [s].
Proof.
  induction s as [|c s IH]; simpl; [done|].
  intros Hn. apply not_elem_of_cons in Hn as [Hc Hs].
  destruct (Ascii.eqb_spec c sep) as [->|_]; [done|]. by rewrite IH.
Qed.

Lemma split_app sep (a : text) (s : text) :
  sep ∉ a -> split sep (a ++ sep :: s) = a :: split sep s.
Proof.
  induction a as [|c a IH]; simpl; intros Hn.
  - by rewrite Ascii.eqb_refl.
  - apply not_elem_of_cons in Hn as [Hc Ha].
    destruct (Ascii.eqb_spec c sep) as [->|_]; [done|]. by rewrite IH.
Qed.

Lemma split_join sep (parts : list text) :
  parts ≠ [] -> Forall (fun p => sep ∉ p) parts -> split sep (join sep parts) = parts.
Proof.
  induction parts as [|p ps IH]; [done|]. intros _ Hall.
  apply Forall_cons in Hall as [Hp Hps].
  destruct ps as [|q ps].
  - simpl. by apply split_no_sep.
  - change (join sep (p :: q :: ps)) with (p ++ sep :: join sep (q :: ps)).
    rewrite split_app by done. f_equal. by apply IH.
Qed.

Lemma split_pieces sep s : Forall (fun p => sep ∉ p) (split sep s).
Proof.
  induction s as [|c s IH]; simpl.
  - repeat constructor. apply not_elem_of_nil.
  - destruct (Ascii.eqb_spec c sep) as [->|Hne].
    + constructor; [apply not_elem_of_nil | done].
    + destruct (split sep s) as [|p ps] eqn:E; [by apply split_nonempty in E|].
      apply Forall_cons in IH as [Hp Hps]. constructor; [|done].
      apply not_elem_of_cons. split; [congruence | done].
Qed.

Lemma join_split sep s : join sep (split sep s) = s.
Proof.
  induction s as [|c s IH]; simpl; [done|].
  destruct (Ascii.eqb_spec c sep) as [->|Hne].
  - destruct (split sep s) as [|p ps] eqn:E; [by apply split_nonempty in E|].
    simpl in *. by rewrite IH.
  - destruct (split sep s) as [|p ps] eqn:E; [by apply split_nonempty in E|].
    destruct ps; simpl in *; by rewrite <- IH.
Qed.

Lemma split_length_contains sep s : contains sep s = true -> 2 <= length (split sep s).
Proof.
  induction s as [|c s IH]; simpl; [done|].
  destruct (Ascii.eqb_spec c sep) as [->|Hne].
  - intros _. pose proof (split_nonempty sep s). destruct (split sep s); simpl; [done|lia].
  - rewrite Ascii.eqb_sym. destruct (Ascii.eqb_spec c sep); [done|]. simpl.
    intros H. specialize (IH H). destruct (split sep s); simpl in *; lia.
Qed.

(** [split1] cuts at the first separator only. *)
Lemma split1_cut sep (k v : text) :
  sep ∉ k -> split1 sep (k ++ sep :: v) = [k; v].
Proof.
  induction k as [|c k IH]; simpl; intros Hn.
  - by rewrite Ascii.eqb_refl.
  - apply not_elem_of_cons in Hn as [Hc Hk].
    destruct (Ascii.eqb_spec c sep) as [->|_]; [done|]. by rewrite IH.
Qed.

Lemma contains_cut sep (s : text) :
  contains sep s = true -> exists k v, s = k ++ sep :: v /\ sep ∉ k.
Proof.
  induction s as [|c s IH]; simpl; [done|].
  destruct (Ascii.eqb_spec sep c) as [->|Hne]; simpl.
  - intros _. exists [], s. split; [done | apply not_elem_of_nil].
  - intros H. destruct (IH H) as (k & v & -> & Hk). exists (c :: k), v.
    split; [done|]. apply not_elem_of_cons. by split.
Qed.

(** Lower-casing moves no character onto or off a separator or a space. *)
Lemma lower_char_eq (c : ascii) : lower_char c = "="%char -> c = "="%char.
Proof. destruct c as [[] [] [] [] [] [] [] []]; vm_compute; congruence. Qed.

Lemma lower_char_comma (c : ascii) : lower_char c = ","%char -> c = ","%char.
Proof. destruct c as [[] [] [] [] [] [] [] []]; vm_compute; congruence. Qed.

Lemma lower_char_space (c : ascii) : isspace (lower_char c) = isspace c.
Proof. destruct c as [[] [] [] [] [] [] [] []]; reflexivity. Qed.

Lemma lower_lstrip (s : text) : lower (lstrip s) = lstrip (lower s).
Proof.
  induction s as [|c s IH]; simpl; [done|].
  rewrite lower_char_space. by destruct (isspace c).
Qed.

Lemma lower_rev (s : text) : lower (rev s) = rev (lower s).
Proof. unfold lower. by rewrite map_rev. Qed.

Lemma lower_strip (s : text) : lower (strip s) = strip (lower s).
Proof.
  unfold strip, rstrip. by rewrite lower_lstrip, lower_rev, lower_lstrip, lower_rev.
Qed.

Lemma lower_no_eq (k1 k2 : text) :
  lower k1 = lower k2 -> "="%char ∉ k1 -> "="%char ∉ k2.
Proof.
  intros Hl Hk1 Hk2. apply Hk1.
  assert ("="%char ∈ lower k1) as Hin.
  { rewrite Hl. unfold lower. apply list_elem_of_fmap. by exists "="%char. }
  unfold lower in Hin. apply list_elem_of_fmap in Hin as (c & Hc & Hin).
  symmetry in Hc. apply lower_char_eq in Hc. by subst.
Qed.

Lemma lower_no_comma (k1 k2 : text) :
  lower k1 = lower k2 -> ","%char ∉ k1 -> ","%char ∉ k2.
Proof.
  intros Hl Hk1 Hk2. apply Hk1.
  assert (","%char ∈ lower k1) as Hin.
  { rewrite Hl. unfold lower. apply list_elem_of_fmap. by exists ","%char. }
  unfold lower in Hin. apply list_elem_of_fmap in Hin as (c & Hc & Hin).
  symmetry in Hc. apply lower_char_comma in Hc. by subst.
Qed.

End TextFacts.

(** ** The key=value loop *)

Section KeyValueFacts.
Context {F : Type} (lib : PyLib F).
Import Text TextFacts.

Lemma _safe_float_text (s : text) :
  _safe_float lib (VStr s) = Ok (float_or_none lib s).
Proof. unfold _safe_float, float, float_or_none. by destruct (float_of_text lib s). Qed.

Lemma index_lookup {A} (l : list A) i x : l !! i = Some x -> index l i = Ok x.
Proof. unfold index. by intros ->. Qed.

Lemma pair_parts_cut (key value : text) :
  "="%char ∉ key -> pair_parts (key ++ "="%char :: value) = Some (key, value).
Proof. intros Hk. unfold pair_parts. by rewrite split1_cut. Qed.

Lemma pair_parts_bare (pair : text) :
  contains "=" pair = false -> pair_parts pair = None.
Proof.
  intros Hn. apply contains_false in Hn. unfold pair_parts.
  assert (split1 "=" pair = [pair]) as ->; [|done].
  induction pair as [|c s IH]; simpl; [done|].
  apply not_elem_of_cons in Hn as [Hc Hs].
  destruct (Ascii.eqb_spec c "=") as [->|_]; [done|]. by rewrite IH.
Qed.

(** The unpacking [key, value = pair.split('=', 1)] never fails, and no
    conversion raises: one turn of the loop is one write. *)
Lemma kv_pair_write (data : dict F) (pair : text) :
  kv_pair lib data pair = Ok (write_pair lib data pair).
Proof.
  unfold kv_pair, write_pair, pair_entry.
  destruct (contains "=" pair) eqn:Hc.
  - destruct (contains_cut _ _ Hc) as (k & v & -> & Hk).
    rewrite pair_parts_cut by done. rewrite split1_cut by done.
    cbn [mbind option_bind].
    generalize (lower (strip k)) (strip v). intros key value.
    unfold key_field, recognized, store_float.
    cbn [find fst snd fmap option_fmap option_map mbind option_bind].
    repeat lazymatch goal with
    | |- context [Text.eqb key ?lit] =>
        destruct (Text.eqb key lit);
        [rewrite ?_safe_float_text; reflexivity|]
    end.
    reflexivity.
  - by rewrite pair_parts_bare.
Qed.

Lemma for_each_writes (pairs : list text) (data : dict F) :
  for_each (kv_pair lib) data pairs = Ok (foldl (write_pair lib) data pairs).
Proof.
  revert data. induction pairs as [|p ps IH]; intros data; simpl; [done|].
  rewrite kv_pair_write. simpl. apply IH.
Qed.

Lemma kv_collect_writes (s : text) :
  kv_collect lib s = Ok (foldl (write_pair lib) ∅ (split "," s)).
Proof. apply for_each_writes. Qed.

Lemma pair_entry_field (pair : text) :
  fst <$> pair_entry lib pair = pair_field pair.
Proof.
  unfold pair_entry, pair_field. destruct (pair_parts pair) as [[k v]|]; [|done].
  cbn [mbind option_bind]. by destruct (key_field _).
Qed.

Lemma write_pair_other (data : dict F) (pair : text) (field : string) :
  pair_field pair ≠ Some field -> write_pair lib data pair !! field = data !! field.
Proof.
  intros Hne. unfold write_pair. rewrite <- pair_entry_field in Hne.
  destruct (pair_entry lib pair) as [[fld v]|]; [|done].
  apply lookup_insert_ne. intros ->. by apply Hne.
Qed.

Lemma write_pair_same (data : dict F) (pair : text) (field : string) (v : pyval F) :
  pair_entry lib pair = Some (field, v) -> write_pair lib data pair !! field = Some v.
Proof. intros He. unfold write_pair. rewrite He. apply lookup_insert_eq. Qed.

(** Pairs that do not write a field leave it as it was. *)
Lemma writes_other (pairs : list text) (data : dict F) (field : string) :
  Forall (fun p => pair_field p ≠ Some field) pairs ->
  foldl (write_pair lib) data pairs !! field = data !! field.
Proof.
  revert data. induction pairs as [|p ps IH]; intros data Hall; simpl; [done|].
  apply Forall_cons in Hall as [Hp Hps]. rewrite IH by done.
  by apply write_pair_other.
Qed.

(** The last pair that writes a field decides it. *)
Lemma writes_last (before after : list text) (pair : text) (data : dict F)
    (field : string) (v : pyval F) :
  pair_entry lib pair = Some (field, v) ->
  Forall (fun p => pair_field p ≠ Some field) after ->
  foldl (write_pair lib) data (before ++ pair :: after) !! field = Some v.
Proof.
  intros He Hafter. rewrite foldl_app. simpl.
  rewrite writes_other by done. by apply write_pair_same.
Qed.

(** A field is a key of the dictionary exactly when some pair writes it. *)
Lemma writes_has (pairs : list text) (data : dict F) (field : string) :
  has (foldl (write_pair lib) data pairs) field
  = has data field || existsb (fun p => bool_decide (pair_field p = Some field)) pairs.
Proof.
  revert data. induction pairs as [|p ps IH]; intros data; simpl.
  - by rewrite orb_false_r.
  - rewrite IH. rewrite orb_assoc. f_equal.
    case_bool_decide as Hp.
    + rewrite orb_true_r. rewrite <- pair_entry_field in Hp.
      destruct (pair_entry lib p) as [[fld v]|] eqn:He; [|done].
      simpl in Hp. injection Hp as ->. unfold has.
      rewrite (write_pair_same _ _ _ _ He). by apply bool_decide_eq_true_2.
    + rewrite orb_false_r. unfold has. by rewrite write_pair_other.
Qed.

(** What the dictionary holds under a field, some pair wrote. *)
Lemma writes_origin (pairs : list text) (data : dict F) (field : string) (v : pyval F) :
  foldl (write_pair lib) data pairs !! field = Some v ->
  data !! field = Some v
  \/ exists pair, pair ∈ pairs /\ pair_entry lib pair = Some (field, v).
Proof.
  revert data. induction pairs as [|p ps IH]; intros data; simpl; [auto|].
  intros Hv. destruct (IH _ Hv) as [Hw|(pair & Hin & He)].
  - unfold write_pair in Hw. destruct (pair_entry lib p) as [[fld v']|] eqn:He; [|auto].
    destruct (decide (fld = field)) as [->|Hne].
    + rewrite lookup_insert_eq in Hw. injection Hw as ->.
      right. exists p. split; [apply list_elem_of_here | done].
    + rewrite lookup_insert_ne in Hw by done. auto.
  - right. exists pair. split; [by apply list_elem_of_further | done].
Qed.

Lemma key_field_device_id (key : text) :
  key_field key = Some "device_id" -> key = "device_id".
Proof.
  unfold key_field, recognized. cbn [find fst snd].
  destruct (Text.eqb key "device_id") eqn:Hk.
  { intros _. by apply bool_decide_eq_true_1 in Hk. }
  repeat (case_match; [done|]). done.
Qed.

Lemma pair_entry_device_id (pair : text) (v : pyval F) :
  pair_entry lib pair = Some ("device_id", v) ->
  exists key value,
    pair_parts pair = Some (key, value)
    /\ Text.lower (Text.strip key) = "device_id"
    /\ v = VStr (Text.strip value).
Proof.
  unfold pair_entry. destruct (pair_parts pair) as [[key value]|]; [|done].
  cbn [mbind option_bind].
  destruct (key_field _) as [field|] eqn:Hf; [|done].
  cbn [mbind option_bind]. intros [= -> <-].
  exists key, value. split; [done|]. split; [by apply key_field_device_id|done].
Qed.

Lemma has_empty (field : string) : has (∅ : dict F) field = false.
Proof. unfold has. apply bool_decide_eq_false_2. rewrite lookup_empty. by intros [? ?]. Qed.

Lemma sensor_written (pairs : list text) (data : dict F) :
  existsb (has (foldl (write_pair lib) data pairs)) sensor_fields
  = existsb (has data) sensor_fields
    || existsb (fun p => match pair_field p with
                         | Some field => bool_decide (field ∈ sensor_fields)
                         | None => false
                         end) pairs.
Proof.
  apply eq_true_iff_eq. rewrite orb_true_iff, !existsb_exists. split.
  - intros (field & Hin & Hhas). rewrite writes_has in Hhas.
    apply orb_true_iff in Hhas as [Hd|Hp]; [left; eauto|right].
    apply existsb_exists in Hp as (p & Hp & Hf). exists p. split; [done|].
    apply bool_decide_eq_true_1 in Hf. rewrite Hf.
    apply bool_decide_eq_true_2. by apply list_elem_of_In.
  - intros [(field & Hin & Hhas)|(p & Hp & Hf)].
    + exists field. split; [done|]. rewrite writes_has. by rewrite Hhas.
    + destruct (pair_field p) as [field|] eqn:Hpf; [|done].
      apply bool_decide_eq_true_1 in Hf. exists field.
      split; [by apply list_elem_of_In|]. rewrite writes_has.
      apply orb_true_iff. right. apply existsb_exists. exists p.
      split; [done|]. by apply bool_decide_eq_true_2.
Qed.

(** The outcome of the key=value parser: the dictionary the pairs wrote,
    with [transmitted] added, when a device id and a sensor were named. *)
Lemma kv_outcome (s : text) :
  _parse_key_value_format lib s
  = if names_device_id s && names_sensor s
    then Some (<["transmitted" := VBool false]> (foldl (write_pair lib) ∅ (split "," s)))
    else None.
Proof.
  unfold _parse_key_value_format. rewrite kv_collect_writes.
  cbn [mbind Res_bind]. rewrite writes_has, sensor_written, has_empty.
  assert (existsb (has (∅ : dict F)) sensor_fields = false) as ->.
  { unfold sensor_fields. cbn [existsb]. by rewrite !has_empty. }
  cbn [orb]. unfold names_device_id, names_sensor.
  by destruct (existsb _ _ && existsb _ _).
Qed.

(** The parse depends on the line through the entries of its pairs only:
    the pieces that write nothing do not count. *)
Lemma writes_entries (pairs : list text) (data : dict F) :
  foldl (write_pair lib) data pairs
  = foldl write_entry data (omap (pair_entry lib) pairs).
Proof.
  revert data. induction pairs as [|p ps IH]; intros data; simpl; [done|].
  rewrite IH. unfold write_pair. by destruct (pair_entry lib p) as [[fld v]|].
Qed.

Lemma names_entries (pairs : list text) (test : string -> bool) :
  existsb (fun p => match pair_field p with
                    | Some field => test field
                    | None => false
                    end) pairs
  = existsb (fun entry => test entry.1) (omap (pair_entry lib) pairs).
Proof.
  induction pairs as [|p ps IH]; simpl; [done|].
  rewrite IH, <- pair_entry_field. by destruct (pair_entry lib p) as [[fld v]|].
Qed.

Lemma names_device_id_test (pairs : list text) :
  existsb (fun p => bool_decide (pair_field p = Some "device_id")) pairs
  = existsb (fun p => match pair_field p with
                      | Some field => bool_decide (field = "device_id")
                      | None => false
                      end) pairs.
Proof.
  induction pairs as [|p ps IH]; simpl; [done|]. rewrite IH. f_equal.
  destruct (pair_field p) as [field|]; [|done].
  apply bool_decide_ext. split; congruence.
Qed.

Lemma kv_same_entries (s1 s2 : text) :
  omap (pair_entry lib) (split "," s1) = omap (pair_entry lib) (split "," s2) ->
  _parse_key_value_format lib s1 = _parse_key_value_format lib s2.
Proof.
  intros He. rewrite !kv_outcome. unfold names_device_id, names_sensor.
  by rewrite !names_device_id_test, !names_entries, !writes_entries, He.
Qed.

(** The device id of a key=value reading is the trimmed value of one of
    the line's [device_id] pairs. *)
Lemma kv_device_id_origin (s : text) (r : dict F) :
  _parse_key_value_format lib s = Some r ->
  exists pair key value,
    pair ∈ split "," s /\ pair_parts pair = Some (key, value)
    /\ lower (strip key) = "device_id"
    /\ r !! "device_id" = Some (VStr (strip value)).
Proof.
  rewrite kv_outcome.
  destruct (names_device_id s) eqn:Hd; [|done].
  destruct (names_sensor s); [|done]. intros [= <-].
  unfold names_device_id in Hd.
  pose proof (writes_has (split "," s) ∅ "device_id") as Hhas.
  rewrite has_empty, Hd in Hhas. apply bool_decide_eq_true_1 in Hhas as [v Hv].
  destruct (writes_origin _ _ _ _ Hv) as [Hempty|(pair & Hin & Hentry)];
    [by rewrite lookup_empty in Hempty|].
  apply pair_entry_device_id in Hentry as (key & value & Hparts & Hkey & ->).
  exists pair, key, value. repeat split; try done.
  by rewrite lookup_insert_ne.
Qed.

Lemma same_pair_entry (p1 p2 : text) :
  same_pair p1 p2 -> pair_entry lib p1 = pair_entry lib p2.
Proof.
  intros [k1 k2 v Hl Hk1|]; [|done].
  pose proof (lower_no_eq _ _ Hl Hk1) as Hk2.
  unfold pair_entry. rewrite !pair_parts_cut by done. cbn [mbind option_bind].
  by rewrite !lower_strip, Hl.
Qed.

Lemma same_pairs_entries (pairs1 pairs2 : list text) :
  Forall2 same_pair pairs1 pairs2 ->
  omap (pair_entry lib) pairs1 = omap (pair_entry lib) pairs2.
Proof.
  induction 1 as [|p1 p2 ps1 ps2 Hp _ IH]; [done|].
  change (match pair_entry lib p1 with
          | Some e => e :: omap (pair_entry lib) ps1
          | None => omap (pair_entry lib) ps1
          end
          = match pair_entry lib p2 with
            | Some e => e :: omap (pair_entry lib) ps2
            | None => omap (pair_entry lib) ps2
            end).
  by rewrite (same_pair_entry _ _ Hp), IH.
Qed.

Lemma same_pair_no_comma (p1 p2 : text) :
  same_pair p1 p2 -> ","%char ∉ p1 -> ","%char ∉ p2.
Proof.
  intros [k1 k2 v Hl Hk1|]; [|done].
  rewrite !not_elem_of_app, !not_elem_of_cons. intros (Hc1 & Hne & Hv).
  repeat split; try done. by apply (lower_no_comma k1).
Qed.

(** The entries of a line put together from pieces are those of the
    pieces. *)
Lemma entries_join (pairs : list text) :
  Forall (fun p => ","%char ∉ p) pairs ->
  omap (pair_entry lib) (split "," (join "," pairs)) = omap (pair_entry lib) pairs.
Proof.
  intros Hall. destruct pairs as [|p ps]; [done|]. by rewrite split_join.
Qed.

Lemma entries_filter (pairs : list text) :
  omap (pair_entry lib) (filter (fun p => contains "=" p = true) pairs)
  = omap (pair_entry lib) pairs.
Proof.
  induction pairs as [|p ps IH]; [done|].
  rewrite filter_cons. destruct (decide (contains "=" p = true)) as [Hp|Hp].
  - change (match pair_entry lib p with
            | Some e => e :: omap (pair_entry lib) (filter (fun p => contains "=" p = true) ps)
            | None => omap (pair_entry lib) (filter (fun p => contains "=" p = true) ps)
            end
            = match pair_entry lib p with
              | Some e => e :: omap (pair_entry lib) ps
              | None => omap (pair_entry lib) ps
              end).
    by rewrite IH.
  - rewrite IH. apply not_true_is_false in Hp.
    change (omap (pair_entry lib) ps
            = match pair_entry lib p with
              | Some e => e :: omap (pair_entry lib) ps
              | None => omap (pair_entry lib) ps
              end).
    unfold pair_entry. by rewrite pair_parts_bare.
Qed.

Lemma key_field_not_transmitted (key : text) (field : string) :
  key_field key = Some field -> field <> "transmitted".
Proof.
  unfold key_field, recognized. cbn [find fst snd].
  repeat (case_match; [by intros [= <-]|]). done.
Qed.

End KeyValueFacts.

(** ** The positional parsers and the dispatch *)

Section FormatFacts.
Context {F : Type} (lib : PyLib F).
Import Text TextFacts.

Lemma optional_float_value (seq : list text) (i : nat) :
  optional_float lib seq i = Ok (optional_value lib seq i).
Proof.
  unfold optional_float, optional_value, index. case_bool_decide as Hi.
  - destruct (lookup_lt_is_Some_2 seq i Hi) as [x Hx]. rewrite Hx.
    cbn [mbind Res_bind]. apply _safe_float_text.
  - rewrite lookup_ge_None_2 by lia. done.
Qed.

Lemma csv_outcome (s : text) :
  _parse_csv_format lib s
  = match split "," s with
    | p0 :: values =>
        if bool_decide (4 <= length values)
        then Some (positional lib (strip p0) values)
        else None
    | [] => None
    end.
Proof.
  unfold _parse_csv_format, positional.
  destruct (split "," s) as [|p0 [|p1 [|p2 [|p3 [|p4 more]]]]]; try done.
  rewrite !bool_decide_eq_true_2 by (simpl; lia).
  cbn [index lookup list_lookup mbind Res_bind except_none].
  rewrite !_safe_float_text. cbn [mbind Res_bind].
  rewrite !optional_float_value. done.
Qed.

Lemma generic_outcome (s : text) :
  _parse_generic_format lib s
  = if bool_decide (4 <= length (Regex.findall s))
    then Some (positional lib "unknown" (Regex.findall s))
    else None.
Proof.
  unfold _parse_generic_format, positional.
  destruct (Regex.findall s) as [|p1 [|p2 [|p3 [|p4 more]]]]; try done.
  rewrite !bool_decide_eq_true_2 by (simpl; lia).
  cbn [index lookup list_lookup mbind Res_bind except_none].
  rewrite !_safe_float_text. cbn [mbind Res_bind].
  rewrite !optional_float_value. done.
Qed.

Lemma record_lookup (device_id : text) (a h sm st w lo la : pyval F) :
  let r := record device_id a h sm st w lo la in
  r !! "device_id" = Some (VStr device_id)
  /\ r !! "ambient_temperature" = Some a /\ r !! "humidity" = Some h
  /\ r !! "soil_moisture" = Some sm /\ r !! "soil_temperature" = Some st
  /\ r !! "wind_speed" = Some w /\ r !! "longitude" = Some lo
  /\ r !! "latitude" = Some la /\ r !! "transmitted" = Some (VBool false).
Proof.
  unfold record. repeat split;
    repeat (rewrite lookup_insert_ne by done); apply lookup_insert_eq.
Qed.

(** The cascade of tests in [_parse_sensor_data] is the priority list. *)
Lemma dispatch_by_priority (line : text) :
  _parse_sensor_data lib line = parse_as lib (classify (strip line)) (strip line).
Proof.
  unfold _parse_sensor_data, classify, rules, braced. cbn [find snd fst].
  destruct (startswith "{" (strip line) && endswith "}" (strip line)); [done|].
  destruct (contains "=" (strip line)); [done|].
  by destruct (contains "," (strip line)).
Qed.

End FormatFacts.

(** ** The pattern and its scan *)

Module RegexFacts.
Import Text Regex.

Lemma span_spec (p : ascii -> bool) (s : text) :
  s = (span p s).1 ++ (span p s).2
  /\ Forall (fun c => p c = true) (span p s).1
  /\ match (span p s).2 with
     | c :: _ => p c = false
     | [] => True
     end.
Proof.
  induction s as [|c s (IH1 & IH2 & IH3)]; simpl; [done|].
  destruct (p c) eqn:Hc; [|done].
  destruct (span p s) as [a b]. simpl in *. by rewrite <- IH1; auto.
Qed.

Lemma span_all (p : ascii -> bool) (a b : text) :
  Forall (fun c => p c = true) a ->
  match b with
  | c :: _ => p c = false
  | [] => True
  end ->
  span p (a ++ b) = (a, b).
Proof.
  intros Ha Hb. induction Ha as [|c a Hc Ha IH]; simpl.
  - destruct b as [|c b]; [done|]. simpl. by rewrite Hb.
  - by rewrite Hc, IH.
Qed.

Lemma opt_spec (c : ascii) (s : text) :
  s = (opt c s).1 ++ (opt c s).2
  /\ ((opt c s).1 = [] \/ (opt c s).1 = [c]).
Proof.
  destruct s as [|x s]; simpl; [auto|].
  destruct (Ascii.eqb_spec x c) as [->|]; simpl; auto.
Qed.

(** A match is a prefix of the text, and it has the shape of the pattern. *)
Lemma match_number_Some (s tok rest : text) :
  match_number s = Some (tok, rest) ->
  s = tok ++ rest /\ signed_decimal tok /\ tok <> [].
Proof.
  unfold match_number.
  pose proof (opt_spec "-" s) as [Hs1 Hsign].
  destruct (opt "-" s) as [sign s1]. simpl in *.
  pose proof (span_spec isdigit s1) as (Hs2 & Hint & _).
  destruct (span isdigit s1) as [int s2]. simpl in *.
  destruct int as [|d int]; [done|].
  pose proof (opt_spec "." s2) as [Hs3 Hdot].
  destruct (opt "." s2) as [dot s3]. simpl in *.
  pose proof (span_spec isdigit s3) as (Hs4 & Hfrac & _).
  destruct (span isdigit s3) as [frac s4]. simpl in *.
  intros [= <- <-]. split; [|split].
  - subst s s1 s2 s3. rewrite <- (app_assoc sign). simpl. by rewrite <- !app_assoc.
  - by apply (signed_decimal_intro sign (d :: int) dot frac).
  - by destruct sign.
Qed.

Lemma span_app_all (p : ascii -> bool) (a b : text) :
  Forall (fun c => p c = true) a ->
  span p (a ++ b) = (a ++ (span p b).1, (span p b).2).
Proof.
  intros Ha. induction Ha as [|c a Hc Ha IH]; simpl.
  - by destruct (span p b).
  - by rewrite Hc, IH.
Qed.

Lemma digit_not_sign (c : ascii) : isdigit c = true -> Ascii.eqb c "-" = false.
Proof. destruct c as [[] [] [] [] [] [] [] []]; done. Qed.

(** Where a piece of the pattern's shape starts, the match succeeds and
    reaches at least as far. *)
Lemma match_number_prefix (tok rest : text) :
  signed_decimal tok ->
  exists more rest', match_number (tok ++ rest) = Some (tok ++ more, rest').
Proof.
  intros [sign int dot frac Hsign Hne Hint Hdot Hfrac].
  destruct int as [|d int]; [done|].
  assert (isdigit d = true) as Hd by by inversion Hint.
  unfold match_number.
  assert (opt "-" ((sign ++ (d :: int) ++ dot ++ frac) ++ rest)
          = (sign, (d :: int) ++ dot ++ frac ++ rest)) as ->.
  { destruct Hsign as [-> | ->]; simpl.
    - rewrite (digit_not_sign d Hd). by rewrite <- !app_assoc.
    - by rewrite <- !app_assoc. }
  rewrite span_app_all by done.
  destruct Hdot as [-> | ->].
  - (* no point: the digits of the fraction lengthen the integer part *)
    change ([] ++ frac ++ rest) with (frac ++ rest).
    rewrite (span_app_all isdigit frac rest Hfrac). cbn [fst snd app].
    destruct (opt "." (span isdigit rest).2) as [dot s3].
    destruct (span isdigit s3) as [frac' s4].
    exists ((span isdigit rest).1 ++ dot ++ frac'), s4. f_equal. f_equal.
    rewrite <- !app_assoc. simpl. by rewrite <- !app_assoc.
  - (* a point: the integer part stops at it *)
    change (span isdigit (["."%char] ++ frac ++ rest)) with ([] : text, "."%char :: frac ++ rest).
    cbn [fst snd app opt Ascii.eqb Bool.eqb]. rewrite app_nil_r.
    rewrite (span_app_all isdigit frac rest Hfrac). cbn [fst snd].
    exists (span isdigit rest).1, (span isdigit rest).2. f_equal. f_equal.
    rewrite <- !app_assoc. simpl. by rewrite <- !app_assoc.
Qed.

Lemma match_number_None (s : text) :
  match_number s = None ->
  forall tok rest, s = tok ++ rest -> ~ signed_decimal tok.
Proof.
  intros Hm tok rest -> Htok.
  destruct (match_number_prefix tok rest Htok) as (more & rest' & Heq). congruence.
Qed.

Lemma match_number_longest (tok rest : text) :
  match_number (tok ++ rest) = Some (tok, rest) ->
  forall tok' rest', tok ++ rest = tok' ++ rest' -> signed_decimal tok' ->
    length tok' <= length tok.
Proof.
  intros Hm tok' rest' Heq Htok'.
  destruct (match_number_prefix tok' rest' Htok') as (more & rest'' & Hm').
  rewrite <- Heq, Hm in Hm'. injection Hm' as -> _.
  rewrite length_app. lia.
Qed.

Lemma findall_from_extraction (n : nat) (s : text) :
  length s < n -> extraction s (findall_from n s).
Proof.
  revert s. induction n as [|n IH]; intros s Hn; [lia|]. simpl.
  destruct (match_number s) as [[tok rest]|] eqn:Hm.
  - pose proof Hm as (-> & Htok & Hne)%match_number_Some.
    apply extraction_take; [done|by apply match_number_longest|].
    apply IH. rewrite length_app in Hn. destruct tok; [done|]. simpl in Hn. lia.
  - destruct s as [|c s]; [constructor|].
    apply extraction_pass; [by apply match_number_None|].
    apply IH. simpl in Hn. lia.
Qed.

Lemma findall_extraction (s : text) : extraction s (findall s).
Proof. apply findall_from_extraction. unfold lt. done. Qed.

Lemma findall_from_spec (n : nat) (s : text) :
  length s < n ->
  Forall signed_decimal (findall_from n s) /\ in_order (findall_from n s) s.
Proof.
  revert s. induction n as [|n IH]; intros s Hn; [lia|]. simpl.
  destruct (match_number s) as [[tok rest]|] eqn:Hm.
  - apply match_number_Some in Hm as (-> & Htok & Hne).
    destruct (IH rest) as [IH1 IH2].
    { rewrite length_app in Hn. destruct tok; [done|]. simpl in Hn. lia. }
    split; [by constructor|]. by apply (in_order_cons []).
  - destruct s as [|c s]; [split; constructor|].
    destruct (IH s) as [IH1 IH2]; [simpl in Hn; lia|].
    split; [done|]. destruct IH2 as [|gap tok toks s' IH2]; [constructor|].
    by apply (in_order_cons (c :: gap)).
Qed.

(** The numbers [findall] extracts have the shape of the pattern, and they
    stand in the line in the order extracted. *)
Lemma findall_spec (s : text) :
  Forall signed_decimal (findall s) /\ in_order (findall s) s.
Proof. apply findall_from_spec. lia. Qed.

End RegexFacts.

(** ** The reference library accepts the numbers of the pattern *)

Module RefFacts.
Import Text Regex RegexFacts.

Lemma digit_no_space (c : ascii) : isdigit c = true -> isspace c = false.
Proof. destruct c as [[] [] [] [] [] [] [] []]; done. Qed.

Lemma lstrip_head (c : ascii) (s : text) : isspace c = false -> lstrip (c :: s) = c :: s.
Proof. simpl. by intros ->. Qed.

Lemma strip_no_space (s : text) :
  Forall (fun c => isspace c = false) s -> strip s = s.
Proof.
  intros Hs. unfold strip, rstrip.
  assert (lstrip (rev s) = rev s) as ->.
  { apply Forall_rev in Hs. destruct Hs; [done|]. by apply lstrip_head. }
  rewrite rev_involutive. destruct Hs; [done|]. by apply lstrip_head.
Qed.

Lemma signed_decimal_no_space (tok : text) :
  signed_decimal tok -> Forall (fun c => isspace c = false) tok.
Proof.
  intros [sign int dot frac Hsign Hne Hint Hdot Hfrac].
  rewrite !Forall_app. repeat split.
  - destruct Hsign as [->| ->]; repeat constructor.
  - eapply Forall_impl; [done|]. apply digit_no_space.
  - destruct Hdot as [->| ->]; repeat constructor.
  - eapply Forall_impl; [done|]. apply digit_no_space.
Qed.

Lemma float_literal_signed_decimal (tok : text) :
  signed_decimal tok -> is_Some (Ref.float_literal tok).
Proof.
  intros Htok. unfold Ref.float_literal.
  rewrite strip_no_space by by apply signed_decimal_no_space.
  destruct Htok as [sign int dot frac Hsign Hne Hint Hdot Hfrac].
  destruct int as [|d int]; [done|].
  assert (isdigit d = true) as Hd by by inversion Hint.
  assert (exists neg, Ref.sign (sign ++ (d :: int) ++ dot ++ frac)
                      = (neg, (d :: int) ++ dot ++ frac)) as [neg ->].
  { destruct Hsign as [->| ->]; [|by exists true].
    exists false. simpl.
    destruct d as [[] [] [] [] [] [] [] []]; done. }
  destruct Hdot as [->| ->].
  - rewrite app_nil_l. rewrite <- (app_nil_r (_ ++ frac)).
    rewrite span_all; [|by apply Forall_app|done]. simpl. by eexists.
  - rewrite span_all; [|done|done]. cbn [app opt Ascii.eqb Bool.eqb].
    rewrite <- (app_nil_r frac) at 1. rewrite span_all by done.
    simpl. by eexists.
Qed.

End RefFacts.

(** ** The session *)

Module SerialFacts.
Import Serial SerialSpec.

(** Run the plumbing of a method body. *)
Ltac run_m :=
  cbv [mret M_ret mbind M_bind raise try_except try_finally
       get_self get_world set_self set_world print
       set_serial_connection set_is_connected set_should_monitor_data
       set_data_monitoring_thread];
  cbn [self world fst snd].

Lemma port_list_supported (host : Host) :
  supported (platform host) = true -> port_list host = mret (candidates host).
Proof.
  unfold supported, port_list, candidates.
  destruct (Text.startswith "win" (platform host)); [done|].
  destruct (Text.startswith "linux" (platform host)); [done|].
  destruct (Text.startswith "cygwin" (platform host)); [done|].
  by destruct (Text.startswith "darwin" (platform host)).
Qed.

Section Scan.
Context (host : Host).
Hypothesis open_errors : forall port e,
  open_port host port None None = Some e -> io_error e = true.
Hypothesis close_errors : forall port e,
  close_port host port = Some e -> io_error e = true.

(** One turn of the probe loop returns, and adds the port exactly when its
    probe succeeded; the session object is not touched. *)
Lemma probe_turn (available : list text) (port : text) (st : State) :
  exists st',
    probe host available port st
    = (Ok (if probe_succeeds host port then available ++ [port] else available), st')
    /\ self st' = self st.
Proof.
  unfold probe, probe_succeeds, probe_opens, serial_open, serial_close.
  destruct (open_port host port None None) as [e|] eqn:Ho.
  - rewrite bool_decide_eq_false_2 by done.
    pose proof (open_errors _ _ Ho) as He.
    destruct e; try discriminate He; simpl; run_m; eexists; split; reflexivity.
  - rewrite bool_decide_eq_true_2 by done. run_m.
    destruct (close_port host port) as [e|] eqn:Hc.
    + rewrite bool_decide_eq_false_2 by done.
      pose proof (close_errors _ _ Hc) as He.
      destruct e; try discriminate He; simpl; eexists; split; reflexivity.
    + rewrite bool_decide_eq_true_2 by done. simpl. eexists; split; reflexivity.
Qed.

Lemma probe_loop (ports available : list text) (st : State) :
  exists st',
    for_loop (probe host) available ports st
    = (Ok (available ++ filter (fun p => probe_succeeds host p = true) ports), st')
    /\ self st' = self st.
Proof.
  revert available st. induction ports as [|port ports IH]; intros available st.
  - simpl. rewrite app_nil_r. simpl. run_m. eexists; split; reflexivity.
  - destruct (probe_turn available port st) as (st1 & Hturn & Hself1).
    simpl. unfold mbind, M_bind. rewrite Hturn.
    destruct (IH (if probe_succeeds host port then available ++ [port] else available) st1)
      as (st2 & Hloop & Hself2).
    exists st2. rewrite Hloop. split; [|congruence].
    rewrite filter_cons. destruct (probe_succeeds host port); simpl.
    + by rewrite <- app_assoc.
    + done.
Qed.

End Scan.

End SerialFacts.

(** * The claims of the specification *)

Section DecoderClaims.
Context {F : Type} (lib : PyLib F).
Import Text TextFacts.

Lemma present_dec (r : dict F) (field : string) : present r field \/ ~ present r field.
Proof.
  unfold present. destruct (r !! field) as [[| | |f| | |]|];
    first [by left; eexists | right; by intros [? ?]].
Qed.

Lemma some_sensor_present_dec (r : dict F) :
  some_sensor_present r \/ ~ some_sensor_present r.
Proof.
  unfold some_sensor_present. induction sensor_fields as [|field fields IH].
  - right. by intros (? & ?%elem_of_nil & _).
  - destruct (present_dec r field) as [Hp|Hn].
    { left. exists field. split; [apply list_elem_of_here | done]. }
    destruct IH as [(x & Hin & Hx)|Hnone].
    { left. exists x. split; [by apply list_elem_of_further | done]. }
    right. intros (x & Hin & Hx). apply elem_of_cons in Hin as [-> | Hin]; [done|].
    apply Hnone. by exists x.
Qed.

(** A device id the line gives is supplied, or blank. *)
Lemma given_device_id (s : text) (r : dict F) (device_id : text) :
  line_gives_device_id s device_id ->
  r !! "device_id" = Some (VStr device_id) ->
  some_sensor_present r \/ device_id_supplied s r
  \/ (~ some_sensor_present r /\ device_id_blank s r).
Proof.
  intros Hgiven Hid. destruct (some_sensor_present_dec r) as [?|Hnone]; [by left|].
  right. destruct device_id as [|c device_id].
  - right. by repeat split.
  - left. by exists (c :: device_id).
Qed.

(** C1, as amended.  When [float] accepts every text of the signed-decimal
    shape, a reading decoded from a line that is not brace-delimited is of
    one of three kinds: a sensor field is present; or the line supplied its
    device id, a text that is not empty (in a [device_id] pair, or as the
    first piece of a delimited line); or no sensor field is present and the
    device id is the empty text, the blank the line gives in the place of
    a device id.  A line of the generic format is always of the first kind.
    A brace-delimited line is held to nothing: when [json.loads] gives an
    object with none of the eight keys, the parse succeeds with every sensor
    field [None] and the device id ["unknown"]. *)
Theorem reading_sensor_or_device_id (line : text) :
  (forall tok, signed_decimal tok -> is_Some (float_of_text lib tok)) ->
  (braced (strip line) = false ->
   forall r, _parse_sensor_data lib line = Some r ->
     some_sensor_present r \/ device_id_supplied (strip line) r
     \/ (~ some_sensor_present r /\ device_id_blank (strip line) r))
  /\ (braced (strip line) = false ->
      contains "=" (strip line) = false -> contains "," (strip line) = false ->
      forall r, _parse_sensor_data lib line = Some r -> some_sensor_present r)
  /\ (braced (strip line) = true ->
      forall d, json_loads lib (strip line) = Some (VDict d) ->
        Forall (fun key => d !! key = None) json_keys ->
        _parse_sensor_data lib line = Some blank_reading).
Proof.
  intros Hfloat.
  assert (braced (strip line) = false ->
          contains "=" (strip line) = false -> contains "," (strip line) = false ->
          forall r, _parse_sensor_data lib line = Some r -> some_sensor_present r) as Hgeneric.
  { intros Hb He Hc r. unfold _parse_sensor_data. rewrite Hb, He, Hc.
    rewrite generic_outcome. case_bool_decide as Hl; [|done]. intros [= <-].
    exists "ambient_temperature". split; [set_solver|].
    destruct (RegexFacts.findall_spec (strip line)) as [Hshape _].
    destruct (Regex.findall (strip line)) as [|n0 numbers]; [simpl in Hl; lia|].
    apply Forall_cons in Hshape as [Hn0 _].
    destruct (Hfloat n0 Hn0) as [f Hf]. exists f.
    unfold positional. destruct (record_lookup "unknown"
      (optional_value lib (n0 :: numbers) 0) (optional_value lib (n0 :: numbers) 1)
      (optional_value lib (n0 :: numbers) 2) (optional_value lib (n0 :: numbers) 3)
      (optional_value lib (n0 :: numbers) 4) (optional_value lib (n0 :: numbers) 5)
      (optional_value lib (n0 :: numbers) 6)) as (_ & Ha & _).
    etrans; [exact Ha|].
    unfold optional_value, float_or_none. simpl. by rewrite Hf. }
  split; [|split; [exact Hgeneric|]].
  - intros Hb r Hr.
    destruct (contains "=" (strip line)) eqn:He;
      [|destruct (contains "," (strip line)) eqn:Hc].
    + unfold _parse_sensor_data in Hr. rewrite Hb, He in Hr.
      destruct (kv_device_id_origin lib _ _ Hr) as (pair & key & value & Hin & Hp & Hk & Hid).
      apply (given_device_id _ _ (strip value)); [|done].
      unfold line_gives_device_id. rewrite He. by exists pair, key, value.
    + unfold _parse_sensor_data in Hr. rewrite Hb, He, Hc in Hr.
      rewrite csv_outcome in Hr.
      destruct (split "," (strip line)) as [|p0 values] eqn:Hs; [done|].
      case_bool_decide; [|done]. injection Hr as <-.
      apply (given_device_id _ _ (strip p0)); [|apply record_lookup].
      unfold line_gives_device_id. rewrite He. split; [done|]. by exists p0, values.
    + left. by apply Hgeneric.
  - intros Hb d Hd Hkeys. unfold _parse_sensor_data, _parse_json_format.
    rewrite Hb, Hd. cbn [mbind Res_bind].
    unfold json_keys in Hkeys. repeat (apply Forall_cons in Hkeys as [? Hkeys]).
    unfold get, get_or. repeat match goal with H : d !! _ = None |- _ => rewrite H; clear H end.
    reflexivity.
Qed.


(** C2, as amended.  For a line that is classified as key=value (after
    trimming it holds an [=] and is not brace-delimited), the parse fails if
    and only if no pair names the device id or no pair names a recognized
    sensor key: the parser asks for both. *)
Theorem key_value_fails_iff (line : text) :
  braced (strip line) = false ->
  contains "=" (strip line) = true ->
  _parse_sensor_data lib line = None
  <-> names_device_id (strip line) = false \/ names_sensor (strip line) = false.
Proof.
  intros Hb He. unfold _parse_sensor_data. rewrite Hb, He, kv_outcome.
  destruct (names_device_id (strip line)), (names_sensor (strip line)); simpl;
    split; intros H; try done; try (by left); try (by right); by destruct H.
Qed.

(** C3.  A line that after trimming holds both [=] and [,] and is not
    brace-delimited is classified as key=value, not as delimited, and is
    parsed by the key=value parser; and every line is parsed by the format
    that the priority list braces, [=], [,], generic selects. *)
Theorem key_value_before_delimited (line : text) :
  braced (strip line) = false ->
  contains "=" (strip line) = true ->
  contains "," (strip line) = true ->
  classify (strip line) = KeyValue
  /\ classify (strip line) <> Delimited
  /\ _parse_sensor_data lib line = _parse_key_value_format lib (strip line)
  /\ (forall other : text,
        _parse_sensor_data lib other = parse_as lib (classify (strip other)) (strip other)).
Proof.
  intros Hb He Hc.
  assert (classify (strip line) = KeyValue) as Hk.
  { unfold classify, rules. cbn [find snd fst]. unfold braced in Hb. by rewrite Hb, He. }
  repeat split.
  - done.
  - by rewrite Hk.
  - by rewrite dispatch_by_priority, Hk.
  - apply dispatch_by_priority.
Qed.

(** C4.  A line that is classified as delimited (after trimming it holds a
    [,] and no [=], and is not brace-delimited) fails when [split(',')] gives
    fewer than five pieces, whatever the generic parser would make of it;
    with five or more it succeeds with the device id from the first piece and
    the sensor values from the next ones, and with exactly five the wind
    speed, longitude and latitude are [None]. *)
Theorem delimited_needs_five (line : text) :
  braced (strip line) = false ->
  contains "=" (strip line) = false ->
  contains "," (strip line) = true ->
  let parts := split "," (strip line) in
  (length parts < 5 -> _parse_sensor_data lib line = None)
  /\ (forall p0 values, parts = p0 :: values -> 4 <= length values ->
        _parse_sensor_data lib line = Some (positional lib (strip p0) values))
  /\ (forall p0 p1 p2 p3 p4, parts = [p0; p1; p2; p3; p4] ->
        _parse_sensor_data lib line
        = Some (record (strip p0) (float_or_none lib p1) (float_or_none lib p2)
                  (float_or_none lib p3) (float_or_none lib p4) VNone VNone VNone)).
Proof.
  intros Hb He Hc parts.
  assert (_parse_sensor_data lib line = _parse_csv_format lib (strip line)) as ->.
  { unfold _parse_sensor_data. by rewrite Hb, He, Hc. }
  rewrite csv_outcome. fold parts. repeat split.
  - destruct parts as [|p0 values]; [done|]. simpl. intros Hl.
    by rewrite bool_decide_eq_false_2 by lia.
  - intros p0 values -> Hl. by rewrite bool_decide_eq_true_2.
  - by intros p0 p1 p2 p3 p4 ->.
Qed.

(** C5.  A line that is classified as generic (after trimming it holds no
    [=] and no [,], and is not brace-delimited) is read through the numbers
    [findall] extracts from it: scanning from the left, the longest piece of
    the signed-decimal shape wherever one starts, so the numbers stand in
    the line in the order extracted.  With fewer than four numbers the parse
    fails; otherwise it succeeds, the numbers fill ambient temperature,
    humidity, soil moisture, soil temperature and then, as far as they go,
    wind speed, longitude and latitude, and the device id is ["unknown"]. *)
Theorem generic_needs_four (line : text) :
  braced (strip line) = false ->
  contains "=" (strip line) = false ->
  contains "," (strip line) = false ->
  let numbers := Regex.findall (strip line) in
  extraction (strip line) numbers
  /\ Forall signed_decimal numbers
  /\ in_order numbers (strip line)
  /\ (length numbers < 4 -> _parse_sensor_data lib line = None)
  /\ (4 <= length numbers ->
        _parse_sensor_data lib line = Some (positional lib "unknown" numbers)
        /\ positional lib "unknown" numbers !! "device_id" = Some (VStr "unknown")).
Proof.
  intros Hb He Hc numbers.
  assert (_parse_sensor_data lib line = _parse_generic_format lib (strip line)) as ->.
  { unfold _parse_sensor_data. by rewrite Hb, He, Hc. }
  rewrite generic_outcome. fold numbers.
  destruct (RegexFacts.findall_spec (strip line)) as [Hshape Horder].
  split; [apply RegexFacts.findall_extraction|].
  split; [done|]. split; [done|]. split.
  - intros Hl. by rewrite bool_decide_eq_false_2 by lia.
  - intros Hl. rewrite bool_decide_eq_true_2 by done. split; [done|].
    apply record_lookup.
Qed.

(** C6.  Two key=value lines whose pairs differ at most in the case of the
    letters of their keys parse to the same result, through the key=value
    parser and, when both are trimmed key=value lines, through the decoder;
    the device id of the reading is the trimmed text of a value of the line,
    in the case the line has it. *)
Theorem key_case_irrelevant (pairs1 pairs2 : list text) :
  Forall2 same_pair pairs1 pairs2 ->
  Forall (fun p => ","%char ∉ p) pairs1 ->
  let line1 := join "," pairs1 in
  let line2 := join "," pairs2 in
  _parse_key_value_format lib line1 = _parse_key_value_format lib line2
  /\ (strip line1 = line1 -> strip line2 = line2 ->
      classify line1 = KeyValue -> classify line2 = KeyValue ->
      _parse_sensor_data lib line1 = _parse_sensor_data lib line2)
  /\ (forall r, _parse_key_value_format lib line2 = Some r ->
        exists pair key value,
          pair ∈ pairs1 /\ pair_parts pair = Some (key, value)
          /\ r !! "device_id" = Some (VStr (strip value))).
Proof.
  intros Hsame Hc1 line1 line2.
  assert (Forall (fun p => ","%char ∉ p) pairs2) as Hc2.
  { clear line1 line2. induction Hsame as [|p1 p2 ps1 ps2 Hp _ IH]; [done|].
    apply Forall_cons in Hc1 as [Hp1 Hps1]. constructor; [|by apply IH].
    by apply (same_pair_no_comma p1). }
  assert (_parse_key_value_format lib line1 = _parse_key_value_format lib line2) as Heq.
  { apply kv_same_entries. unfold line1, line2. rewrite !entries_join by done.
    by apply same_pairs_entries. }
  split; [done|]. split.
  - intros Hs1 Hs2 Hk1 Hk2. rewrite !dispatch_by_priority, Hs1, Hs2, Hk1, Hk2. exact Heq.
  - intros r Hr. rewrite <- Heq in Hr.
    apply kv_device_id_origin in Hr as (pair & key & value & Hin & Hparts & _ & Hid).
    exists pair, key, value. repeat split; try done.
    unfold line1 in Hin. destruct pairs1 as [|p ps].
    + simpl in Hin. apply list_elem_of_singleton in Hin. by subst.
    + by rewrite split_join in Hin.
Qed.

(** C10.  In a key=value line, of the pairs that name the same recognized
    key the last one decides the field: the dictionary, and the reading when
    the parse succeeds, hold the value of that last pair.  A piece without
    [=] writes nothing and fails nothing: the line parses as it does with
    such pieces left out. *)
Theorem last_pair_wins (before after : list text) (key value : text) (field : string) :
  Forall (fun p => ","%char ∉ p) (before ++ (key ++ "="%char :: value) :: after) ->
  "="%char ∉ key ->
  key_field (lower (strip key)) = Some field ->
  Forall (fun p => pair_field p <> Some field) after ->
  let line := join "," (before ++ (key ++ "="%char :: value) :: after) in
  (exists data, kv_collect lib line = Ok data
                /\ data !! field = Some (field_value lib field (strip value)))
  /\ (forall r, _parse_key_value_format lib line = Some r ->
        r !! field = Some (field_value lib field (strip value)))
  /\ (forall pieces, Forall (fun p => ","%char ∉ p) pieces ->
        _parse_key_value_format lib (join "," pieces)
        = _parse_key_value_format lib
            (join "," (filter (fun p => contains "=" p = true) pieces))).
Proof.
  intros Hcomma Hkey Hfield Hafter line.
  assert (pair_entry lib (key ++ "="%char :: value)
          = Some (field, field_value lib field (strip value))) as Hentry.
  { unfold pair_entry. rewrite pair_parts_cut by done. cbn [mbind option_bind].
    by rewrite Hfield. }
  assert (split "," line = before ++ (key ++ "="%char :: value) :: after) as Hsplit.
  { apply split_join; [by destruct before|done]. }
  assert (foldl (write_pair lib) ∅ (split "," line) !! field
          = Some (field_value lib field (strip value))) as Hlast.
  { rewrite Hsplit. by apply writes_last. }
  split; [|split].
  - eexists. split; [apply kv_collect_writes|done].
  - intros r. rewrite kv_outcome. case_match; [|done]. intros [= <-].
    rewrite lookup_insert_ne; [done|].
    intros Heq. by apply (key_field_not_transmitted _ _ Hfield).
  - intros pieces Hpieces. apply kv_same_entries.
    rewrite !entries_join, entries_filter; [done| |done].
    apply Forall_forall. intros p [_ Hp]%list_elem_of_filter.
    by apply (proj1 (Forall_forall _ _) Hpieces).
Qed.

End DecoderClaims.

Section SessionClaims.
Context (host : Serial.Host).
Import Serial SerialSpec SerialFacts.

(** C7.  On a supported platform, when the errors of the serial driver are
    I/O errors ([OSError] or [SerialException]), the port scan returns, and
    it returns the candidates whose probe succeeded, in their order: each
    of them could be opened, and a candidate whose probe raised is left out
    without stopping the scan. *)
Theorem scan_keeps_opened_ports (st : State) :
  supported (platform host) = true ->
  (forall port e, open_port host port None None = Some e -> io_error e = true) ->
  (forall port e, close_port host port = Some e -> io_error e = true) ->
  exists ports st',
    scan_available_ports host st = (Ok ports, st')
    /\ ports = filter (fun p => probe_succeeds host p = true) (candidates host)
    /\ (forall port, port ∈ ports -> open_port host port None None = None)
    /\ self st' = self st.
Proof.
  intros Hplatform Hopen Hclose.
  destruct (probe_loop host Hopen Hclose (candidates host) [] st) as (st' & Hloop & Hself).
  exists (filter (fun p => probe_succeeds host p = true) (candidates host)), st'.
  split; [|split; [done|split; [|done]]].
  - unfold scan_available_ports. rewrite port_list_supported by done. exact Hloop.
  - intros port [Hok _]%list_elem_of_filter.
    unfold probe_succeeds, probe_opens in Hok.
    apply andb_true_iff in Hok as [Hok _]. by apply bool_decide_eq_true_1 in Hok.
Qed.

(** What [connect] does keep of C8: when the session is idle and the driver
    fails to open the port with a [SerialException], [connect] returns
    [False] without raising, and the session is as it was: no handle, not
    connected, no monitoring thread started. *)
Lemma connect_serial_exception (port : text) (baud_rate os_type : Z) (st : State) :
  os_type = OS_LINUX \/ os_type = OS_WINDOWS ->
  open_port host (connect_path os_type port) (Some baud_rate) (Some SERIAL_TIMEOUT)
  = Some SerialException ->
  serial_connection (self st) = None ->
  is_connected (self st) = false ->
  connect host port baud_rate os_type st = (Ok false, st).
Proof.
  intros Hos Hopen Hconn Hflag.
  destruct st as [[conn flag monitor thread] w]. simpl in Hconn, Hflag. subst conn flag.
  unfold connect, connect_path, serial_open in *.
  destruct Hos as [-> | ->]; simpl in Hopen |- *; rewrite Hopen; reflexivity.
Qed.

(** C8, at the input where the code departs from it.  When the driver
    fails to open the port with an [OSError], the class of open failure the
    port scan catches beside [SerialException], [connect] does not return
    [False]: its handler names [SerialException] only, and the [OSError]
    reaches the caller.  The session is left as it was. *)
Theorem connect_os_error_propagates (port : text) (baud_rate os_type : Z) (st : State) :
  os_type = OS_LINUX \/ os_type = OS_WINDOWS ->
  open_port host (connect_path os_type port) (Some baud_rate) (Some SERIAL_TIMEOUT)
  = Some OSError ->
  connect host port baud_rate os_type st = (Raise OSError, st).
Proof.
  intros Hos Hopen. unfold connect, connect_path, serial_open in *.
  destruct Hos as [-> | ->]; simpl in Hopen |- *; rewrite Hopen; reflexivity.
Qed.

(** C9.  After a first [disconnect], whatever the session was and whether
    or not the close raised, the handle is cleared; a second [disconnect]
    then returns without raising and leaves the session idle (no handle,
    not connected, monitoring stopped), the rest of the process untouched.
    The same holds for a [disconnect] on a session that is idle to begin
    with. *)
Theorem disconnect_idempotent (st : State) (monitor : bool) (thread : option nat) (w : World) :
  let st1 := (disconnect host st).2 in
  serial_connection (self st1) = None
  /\ disconnect host st1
     = (Ok tt, {| self := idle (data_monitoring_thread (self st1)); world := world st1 |})
  /\ disconnect host
       {| self := {| serial_connection := None; is_connected := false;
                     should_monitor_data := monitor; data_monitoring_thread := thread |};
          world := w |}
     = (Ok tt, {| self := idle thread; world := w |}).
Proof.
  assert (forall s, serial_connection (self s) = None ->
            disconnect host s
            = (Ok tt, {| self := idle (data_monitoring_thread (self s)); world := world s |}))
    as Hidle.
  { intros [[conn flag mon thr] w'] Hc. simpl in Hc. subst conn. reflexivity. }
  intros st1. split; [|split].
  - unfold st1, disconnect, serial_close.
    destruct st as [[[conn|] flag mon thr] w']; [|reflexivity].
    run_m. simpl. destruct (close_port host conn) as [e|]; [destruct e|]; reflexivity.
  - apply Hidle. unfold st1, disconnect, serial_close.
    destruct st as [[[conn|] flag mon thr] w']; [|reflexivity].
    run_m. simpl. destruct (close_port host conn) as [e|]; [destruct e|]; reflexivity.
  - reflexivity.
Qed.

End SessionClaims.

(** ** The claims at sample inputs *)

(** An equation between closed terms, settled by evaluating both sides. *)
Ltac by_evaluation :=
  lazymatch goal with
  | |- ?lhs = ?rhs => vm_cast_no_check (eq_refl rhs)
  end.

(** C1 as stated fails in each of the three formats that carry a device
    id: the decoder has no check of what it has read.  The line [{}] gives
    the empty object, and the parse succeeds with the device id defaulted.
    The delimited line of five empty pieces, and the key=value line whose
    device id is empty and whose humidity is no number, parse as well, with
    the empty text as device id.  In all three readings no sensor field is
    present, and no device id was supplied. *)
Lemma zero_valued_readings :
  (json_loads Ref.lib (Text.strip "{}") = Some (VDict ∅)
   /\ _parse_sensor_data Ref.lib "{}" = Some blank_reading
   /\ ~ some_sensor_present (blank_reading : dict Q)
   /\ ~ device_id_supplied (Text.strip "{}") (blank_reading : dict Q)
   /\ (blank_reading : dict Q) !! "device_id" = Some (VStr "unknown"))
  /\ (_parse_sensor_data Ref.lib ",,,,"
      = Some (record [] VNone VNone VNone VNone VNone VNone VNone)
      /\ ~ some_sensor_present
            (record [] VNone VNone VNone VNone VNone VNone VNone : dict Q)
      /\ ~ device_id_supplied (Text.strip ",,,,")
            (record [] VNone VNone VNone VNone VNone VNone VNone : dict Q))
  /\ (_parse_sensor_data Ref.lib "device_id=,humidity=x"
      = Some (<["transmitted" := VBool false]>
                (<["humidity" := VNone]> (<["device_id" := VStr []]> ∅)))
      /\ ~ some_sensor_present
            (<["transmitted" := VBool false]>
               (<["humidity" := VNone]> (<["device_id" := VStr []]> ∅)) : dict Q)
      /\ ~ device_id_supplied (Text.strip "device_id=,humidity=x")
            (<["transmitted" := VBool false]>
               (<["humidity" := VNone]> (<["device_id" := VStr []]> ∅)) : dict Q)).
Proof.
  assert (forall r : dict Q,
            Forall (fun field => forall f, r !! field <> Some (VFloat f)) sensor_fields ->
            ~ some_sensor_present r) as Hnone.
  { intros r Hall (field & Hin & f & Hf).
    rewrite Forall_forall in Hall. by apply (Hall field Hin f). }
  assert (forall (s : text) (r : dict Q),
            r !! "device_id" = Some (VStr []) -> ~ device_id_supplied s r) as Hblank.
  { intros s r Hr (device_id & Hne & _ & Hid). rewrite Hr in Hid. by injection Hid as <-. }
  split; [|split].
  - split; [by_evaluation|]. split; [by_evaluation|]. split; [|split; [|by_evaluation]].
    + apply Hnone. unfold sensor_fields.
      repeat (apply Forall_cons; split; [intros f Hf; vm_compute in Hf; discriminate Hf|]).
      apply Forall_nil_2.
    + intros (device_id & _ & Hgiven & _). unfold line_gives_device_id in Hgiven.
      vm_compute in Hgiven. by destruct Hgiven.
  - split; [by_evaluation|]. split.
    + apply Hnone. unfold sensor_fields.
      repeat (apply Forall_cons; split; [intros f Hf; vm_compute in Hf; discriminate Hf|]).
      apply Forall_nil_2.
    + apply Hblank. by_evaluation.
  - split; [by_evaluation|]. split.
    + apply Hnone. unfold sensor_fields.
      repeat (apply Forall_cons; split; [intros f Hf; vm_compute in Hf; discriminate Hf|]).
      apply Forall_nil_2.
    + apply Hblank. by_evaluation.
Qed.

Lemma reading_sensor_or_device_id_witness :
  some_sensor_present (positional Ref.lib "unknown" (Regex.findall "27.3 55.6 39.7 24.2"))
  /\ (some_sensor_present (record [] VNone VNone VNone VNone VNone VNone VNone : dict Q)
      \/ device_id_supplied (Text.strip ",,,,")
           (record [] VNone VNone VNone VNone VNone VNone VNone : dict Q)
      \/ (~ some_sensor_present (record [] VNone VNone VNone VNone VNone VNone VNone : dict Q)
          /\ device_id_blank (Text.strip ",,,,")
               (record [] VNone VNone VNone VNone VNone VNone VNone : dict Q))).
Proof.
  assert (braced (Text.strip "27.3 55.6 39.7 24.2") = false) as Hb by by_evaluation.
  assert (Text.contains "=" (Text.strip "27.3 55.6 39.7 24.2") = false) as He by by_evaluation.
  assert (Text.contains "," (Text.strip "27.3 55.6 39.7 24.2") = false) as Hc by by_evaluation.
  assert (_parse_sensor_data Ref.lib "27.3 55.6 39.7 24.2"
          = Some (positional Ref.lib "unknown" (Regex.findall "27.3 55.6 39.7 24.2")))
    as Hr by by_evaluation.
  assert (braced (Text.strip ",,,,") = false) as Hb' by by_evaluation.
  assert (_parse_sensor_data Ref.lib ",,,,"
          = Some (record [] VNone VNone VNone VNone VNone VNone VNone)) as Hr' by by_evaluation.
  split.
  - exact (proj1 (proj2 (reading_sensor_or_device_id Ref.lib "27.3 55.6 39.7 24.2"
                           RefFacts.float_literal_signed_decimal)) Hb He Hc _ Hr).
  - exact (proj1 (reading_sensor_or_device_id Ref.lib ",,,,"
                    RefFacts.float_literal_signed_decimal) Hb' _ Hr').
Defined.

Lemma key_value_fails_iff_witness :
  _parse_sensor_data Ref.lib "device_id=T3,humidity=62.1" = None
  <-> names_device_id (Text.strip "device_id=T3,humidity=62.1") = false
      \/ names_sensor (Text.strip "device_id=T3,humidity=62.1") = false.
Proof.
  apply (key_value_fails_iff Ref.lib "device_id=T3,humidity=62.1"); by_evaluation.
Defined.

(** C2 as stated fails: a line that supplies only a device id, and a line
    that supplies only a recognized sensor key, are key=value lines that
    name one of the two, and both fail to parse. *)
Lemma key_value_one_of_two_fails :
  (Text.strip "device_id=A" = "device_id=A"
   /\ braced "device_id=A" = false /\ Text.contains "=" "device_id=A" = true
   /\ names_device_id "device_id=A" = true
   /\ _parse_sensor_data Ref.lib "device_id=A" = None)
  /\ (Text.strip "humidity=1" = "humidity=1"
      /\ braced "humidity=1" = false /\ Text.contains "=" "humidity=1" = true
      /\ names_sensor "humidity=1" = true
      /\ _parse_sensor_data Ref.lib "humidity=1" = None).
Proof. repeat split; by_evaluation. Qed.

Lemma key_value_before_delimited_witness :
  classify (Text.strip "device_id=A,humidity=1") = KeyValue
  /\ classify (Text.strip "device_id=A,humidity=1") <> Delimited
  /\ _parse_sensor_data Ref.lib "device_id=A,humidity=1"
     = _parse_key_value_format Ref.lib (Text.strip "device_id=A,humidity=1")
  /\ (forall other : text,
        _parse_sensor_data Ref.lib other
        = parse_as Ref.lib (classify (Text.strip other)) (Text.strip other)).
Proof.
  apply (key_value_before_delimited Ref.lib "device_id=A,humidity=1"); by_evaluation.
Defined.

Lemma delimited_needs_five_witness :
  _parse_sensor_data Ref.lib "T2,26.1,58.9,42.3,23.5"
  = Some (record (Text.strip "T2") (float_or_none Ref.lib "26.1")
            (float_or_none Ref.lib "58.9") (float_or_none Ref.lib "42.3")
            (float_or_none Ref.lib "23.5") VNone VNone VNone).
Proof.
  assert (braced (Text.strip "T2,26.1,58.9,42.3,23.5") = false) as Hb by by_evaluation.
  assert (Text.contains "=" (Text.strip "T2,26.1,58.9,42.3,23.5") = false) as He by by_evaluation.
  assert (Text.contains "," (Text.strip "T2,26.1,58.9,42.3,23.5") = true) as Hc by by_evaluation.
  assert (Text.split "," (Text.strip "T2,26.1,58.9,42.3,23.5")
          = [ "T2" : text; "26.1" : text; "58.9" : text; "42.3" : text; "23.5" : text ])
    as Hparts by by_evaluation.
  exact (proj2 (proj2 (delimited_needs_five Ref.lib "T2,26.1,58.9,42.3,23.5" Hb He Hc))
           _ _ _ _ _ Hparts).
Defined.

Lemma generic_needs_four_witness :
  _parse_sensor_data Ref.lib "27.3 55.6 39.7 24.2"
  = Some (positional Ref.lib "unknown" (Regex.findall (Text.strip "27.3 55.6 39.7 24.2"))).
Proof.
  assert (braced (Text.strip "27.3 55.6 39.7 24.2") = false) as Hb by by_evaluation.
  assert (Text.contains "=" (Text.strip "27.3 55.6 39.7 24.2") = false) as He by by_evaluation.
  assert (Text.contains "," (Text.strip "27.3 55.6 39.7 24.2") = false) as Hc by by_evaluation.
  assert (4 <= length (Regex.findall (Text.strip "27.3 55.6 39.7 24.2"))) as Hl.
  { replace (Regex.findall (Text.strip "27.3 55.6 39.7 24.2"))
      with [ "27.3" : text; "55.6" : text; "39.7" : text; "24.2" : text ] by by_evaluation.
    simpl. lia. }
  exact (proj1 (proj2 (proj2 (proj2 (proj2
           (generic_needs_four Ref.lib "27.3 55.6 39.7 24.2" Hb He Hc)))) Hl)).
Defined.

Lemma key_case_irrelevant_witness :
  _parse_key_value_format Ref.lib (Text.join "," [ "DEVICE_ID=Xy" : text; "Humidity=1" : text ])
  = _parse_key_value_format Ref.lib (Text.join "," [ "device_id=Xy" : text; "humidity=1" : text ]).
Proof.
  assert (Forall2 same_pair [ "DEVICE_ID=Xy" : text; "Humidity=1" : text ]
            [ "device_id=Xy" : text; "humidity=1" : text ]) as Hsame.
  { constructor; [|constructor; [|constructor]].
    - apply (same_pair_recased "DEVICE_ID" "device_id" "Xy"); [by_evaluation|].
      apply TextFacts.contains_false. by_evaluation.
    - apply (same_pair_recased "Humidity" "humidity" "1"); [by_evaluation|].
      apply TextFacts.contains_false. by_evaluation. }
  assert (Forall (fun p => ","%char ∉ p) [ "DEVICE_ID=Xy" : text; "Humidity=1" : text ]) as Hcomma.
  { repeat constructor; apply TextFacts.contains_false; by_evaluation. }
  exact (proj1 (key_case_irrelevant Ref.lib _ _ Hsame Hcomma)).
Defined.

Lemma last_pair_wins_witness :
  _parse_key_value_format Ref.lib "humidity=1,Humidity = 2,device_id=A,noise"
  = Some (<["transmitted" := VBool false]>
            (<["device_id" := VStr "A"]> (<["humidity" := VFloat (2 # 1)]> ∅)))
  /\ (forall r,
        _parse_key_value_format Ref.lib
          (Text.join "," ([ "humidity=1" : text ]
                          ++ ("Humidity " ++ "="%char :: " 2") :: [ "device_id=A" : text; "noise" : text ]))
        = Some r ->
        r !! "humidity" = Some (field_value Ref.lib "humidity" (Text.strip " 2"))).
Proof.
  split; [by_evaluation|].
  assert (Forall (fun p => ","%char ∉ p)
            ([ "humidity=1" : text ]
             ++ ("Humidity " ++ "="%char :: " 2") :: [ "device_id=A" : text; "noise" : text ]))
    as Hcomma.
  { repeat constructor; apply TextFacts.contains_false; by_evaluation. }
  assert ("="%char ∉ ("Humidity " : text)) as Hkey.
  { apply TextFacts.contains_false. by_evaluation. }
  assert (key_field (Text.lower (Text.strip "Humidity ")) = Some "humidity") as Hfield
    by by_evaluation.
  assert (Forall (fun p => pair_field p <> Some "humidity")
            [ "device_id=A" : text; "noise" : text ]) as Hafter.
  { repeat constructor.
    - replace (pair_field "device_id=A") with (Some "device_id") by by_evaluation. done.
    - replace (pair_field "noise") with (@None string) by by_evaluation. done. }
  exact (proj1 (proj2 (last_pair_wins Ref.lib _ _ _ _ _ Hcomma Hkey Hfield Hafter))).
Defined.

Lemma scan_keeps_opened_ports_witness :
  exists ports st',
    Serial.scan_available_ports SerialSpec.bench SerialSpec.boot = (Ok ports, st')
    /\ ports = filter (fun p => SerialSpec.probe_succeeds SerialSpec.bench p = true)
                 (SerialSpec.candidates SerialSpec.bench)
    /\ (forall port, port ∈ ports -> Serial.open_port SerialSpec.bench port None None = None)
    /\ Serial.self st' = Serial.self SerialSpec.boot.
Proof.
  apply (scan_keeps_opened_ports SerialSpec.bench SerialSpec.boot).
  - by_evaluation.
  - intros port e. simpl. repeat case_match; intros [= <-]; reflexivity.
  - intros port e. simpl. discriminate.
Defined.

Lemma connect_os_error_propagates_witness :
  Serial.connect SerialSpec.bench "ACM0" 9600 Serial.OS_LINUX SerialSpec.boot
  = (Raise OSError, SerialSpec.boot).
Proof.
  apply (connect_os_error_propagates SerialSpec.bench "ACM0" 9600 Serial.OS_LINUX SerialSpec.boot).
  - by left.
  - by_evaluation.
Defined.

(** On the same host, a port whose opening fails with [SerialException]
    makes [connect] return [False]. *)
Example connect_bench_serial_exception :
  Serial.connect SerialSpec.bench "S0" 9600 Serial.OS_LINUX SerialSpec.boot
  = (Ok false, SerialSpec.boot).
Proof. by_evaluation. Qed.

(** The spec's sample lines, and lines that show the order of the rules. *)

Example sample_structured :
  _parse_sensor_data Ref.lib
    (Ref.quoted "{'device_id':'T1','ambient_temp':25.5,'humidity':60.2}")
  = Some (record "T1" (VFloat (51 # 2)) (VFloat (301 # 5)) VNone VNone VNone VNone VNone).
Proof. by_evaluation. Qed.

Example sample_delimited :
  _parse_sensor_data Ref.lib "T2,26.1,58.9,42.3,23.5"
  = Some (record "T2" (VFloat (261 # 10)) (VFloat (589 # 10)) (VFloat (423 # 10))
            (VFloat (47 # 2)) VNone VNone VNone).
Proof. by_evaluation. Qed.

Example sample_key_value :
  _parse_sensor_data Ref.lib "device_id=T3,humidity=62.1"
  = Some (<["transmitted" := VBool false]>
            (<["humidity" := VFloat (621 # 10)]> (<["device_id" := VStr "T3"]> ∅))).
Proof. by_evaluation. Qed.

Example sample_generic :
  _parse_sensor_data Ref.lib "27.3 55.6 39.7 24.2"
  = Some (record "unknown" (VFloat (273 # 10)) (VFloat (278 # 5)) (VFloat (397 # 10))
            (VFloat (121 # 5)) VNone VNone VNone).
Proof. by_evaluation. Qed.

Example sample_garbage : _parse_sensor_data Ref.lib "garbage" = None.
Proof. by_evaluation. Qed.

(** A delimited line with four pieces fails, though the generic parser
    would find four numbers in it: the rule that owns the line decides. *)
Example delimited_no_fallthrough :
  _parse_sensor_data Ref.lib "1,2,3,4" = None
  /\ _parse_generic_format Ref.lib "1,2,3,4"
     = Some (record "unknown" (VFloat (1 # 1)) (VFloat (2 # 1)) (VFloat (3 # 1))
               (VFloat (4 # 1)) VNone VNone VNone).
Proof. split; by_evaluation. Qed.

Example findall_sample :
  Regex.findall "a-1.5.2--3 4. x.5 -"
  = [ "-1.5" : text; "2" : text; "-3" : text; "4." : text; "5" : text ].
Proof. by_evaluation. Qed.

Example scan_bench :
  (Serial.scan_available_ports SerialSpec.bench SerialSpec.boot).1
  = Ok [ "/dev/ttyUSB0" : text ].
Proof. by_evaluation. Qed.

(** * Further properties of the decoder *)

(** Membership in a list that is written out. *)
Ltac in_list :=
  repeat first [ apply list_elem_of_here | apply list_elem_of_further ].
Ltac not_in_list H :=
  repeat (apply elem_of_cons in H as [H|H]; [discriminate H|]);
  by apply elem_of_nil in H.

Section DecoderExtras.
Context {F : Type} (lib : PyLib F).
Import Text TextFacts.

Lemma _safe_float_plain (d : dict F) (key : string) :
  plain_value (d !! key) ->
  _safe_float lib (get d key) = Ok (plain_float lib (d !! key)).
Proof.
  unfold get, plain_value, plain_float.
  destruct (d !! key) as [[| | | |s| |]|]; try done.
  intros _. apply _safe_float_text.
Qed.

(** X1.  A structured line whose object holds the device id as a string and
    the seven sensor values as floats is decoded to exactly these eight
    values, with [transmitted] false. *)
Theorem structured_recovers_fields (line : text) (d : dict F) (device_id : text)
    (a h sm st w lo la : F) :
  braced (strip line) = true ->
  json_loads lib (strip line) = Some (VDict d) ->
  d !! "device_id" = Some (VStr device_id) ->
  d !! "ambient_temp" = Some (VFloat a) ->
  d !! "humidity" = Some (VFloat h) ->
  d !! "soil_moisture" = Some (VFloat sm) ->
  d !! "soil_temp" = Some (VFloat st) ->
  d !! "wind_speed" = Some (VFloat w) ->
  d !! "longitude" = Some (VFloat lo) ->
  d !! "latitude" = Some (VFloat la) ->
  _parse_sensor_data lib line
  = Some (record device_id (VFloat a) (VFloat h) (VFloat sm) (VFloat st)
            (VFloat w) (VFloat lo) (VFloat la)).
Proof.
  intros Hb Hd Hid Ha Hh Hsm Hst Hw Hlo Hla.
  unfold _parse_sensor_data, _parse_json_format. rewrite Hb, Hd.
  cbn [mbind Res_bind]. unfold get, get_or.
  by rewrite Hid, Ha, Hh, Hsm, Hst, Hw, Hlo, Hla.
Qed.

(** X2.  In a structured line, a sensor value that is an integer too large
    for [float] does not leave its field empty: [_safe_float] lets the
    [OverflowError] through, and the whole line fails to parse. *)
Theorem structured_overflow_fails (line : text) (d : dict F) (key : string) (z : Z) :
  braced (strip line) = true ->
  json_loads lib (strip line) = Some (VDict d) ->
  key ∈ [ "ambient_temp"; "humidity"; "soil_moisture"; "soil_temp";
          "wind_speed"; "longitude"; "latitude" ] ->
  d !! key = Some (VInt z) ->
  float_of_int lib z = None ->
  _parse_sensor_data lib line = None.
Proof.
  intros Hb Hd Hkey Hz Hover.
  unfold _parse_sensor_data, _parse_json_format. rewrite Hb, Hd.
  cbn [mbind Res_bind].
  assert (_safe_float lib (get d key) = Raise OverflowError) as Hraise.
  { unfold get. rewrite Hz. simpl. by rewrite Hover. }
  repeat (apply elem_of_cons in Hkey as [-> | Hkey];
          [rewrite Hraise;
           repeat (destruct (_safe_float lib _); cbn [mbind Res_bind except_none]; try done)|]).
  by apply elem_of_nil in Hkey.
Qed.

(** X3.  A structured line whose sensor values are no integers or booleans
    always parses once its object is decoded: a float is kept, a string is
    read as a float, and a value that is missing, [null], a list, an object
    or a string that is no number leaves its field [None].  The device id
    is the [str] of the value under [device_id], or ["unknown"]. *)
Theorem structured_lenient (line : text) (d : dict F) :
  braced (strip line) = true ->
  json_loads lib (strip line) = Some (VDict d) ->
  Forall (fun key => plain_value (d !! key))
    [ "ambient_temp"; "humidity"; "soil_moisture"; "soil_temp";
      "wind_speed"; "longitude"; "latitude" ] ->
  _parse_sensor_data lib line
  = Some (record (str lib (default (VStr "unknown") (d !! "device_id")))
            (plain_float lib (d !! "ambient_temp")) (plain_float lib (d !! "humidity"))
            (plain_float lib (d !! "soil_moisture")) (plain_float lib (d !! "soil_temp"))
            (plain_float lib (d !! "wind_speed")) (plain_float lib (d !! "longitude"))
            (plain_float lib (d !! "latitude"))).
Proof.
  intros Hb Hd Hplain.
  unfold _parse_sensor_data, _parse_json_format. rewrite Hb, Hd.
  cbn [mbind Res_bind].
  repeat (apply Forall_cons in Hplain as [? Hplain]).
  by rewrite !_safe_float_plain by done.
Qed.

Lemma _safe_float_sensor_value (v w : pyval F) :
  _safe_float lib v = Ok w -> sensor_value w.
Proof.
  unfold _safe_float, sensor_value. destruct v; simpl.
  - intros [= <-]. by left.
  - destruct (float_of_int lib _); [|done]. intros [= <-]. right. by eexists.
  - destruct (float_of_int lib _); [|done]. intros [= <-]. right. by eexists.
  - intros [= <-]. right. by eexists.
  - destruct (float_of_text lib _); intros [= <-]; [right; by eexists | by left].
  - intros [= <-]. by left.
  - intros [= <-]. by left.
Qed.

Lemma float_or_none_sensor_value (s : text) : sensor_value (float_or_none lib s).
Proof.
  unfold float_or_none, sensor_value.
  destruct (float_of_text lib s); [right; by eexists | by left].
Qed.

Lemma optional_value_sensor_value (seq : list text) (i : nat) :
  sensor_value (optional_value lib seq i).
Proof.
  unfold optional_value. destruct (seq !! i); [apply float_or_none_sensor_value | by left].
Qed.

(** The entries of the dictionary literal. *)
Lemma record_lookup_inv (device_id : text) (a h sm st w lo la : pyval F)
    (key : string) (v : pyval F) :
  record device_id a h sm st w lo la !! key = Some v ->
  (key = "device_id" /\ v = VStr device_id)
  \/ (key = "transmitted" /\ v = VBool false)
  \/ (key ∈ sensor_fields /\ v ∈ [a; h; sm; st; w; lo; la]).
Proof.
  unfold record, sensor_fields. intros Hkey.
  repeat (apply lookup_insert_Some in Hkey as [[<- <-]|[_ Hkey]];
          [first [ by left | right; left; done | right; right; split; in_list ]|]).
  by rewrite lookup_empty in Hkey.
Qed.

Lemma record_wellformed (device_id : text) (a h sm st w lo la : pyval F) :
  Forall sensor_value [a; h; sm; st; w; lo; la] ->
  wellformed (record device_id a h sm st w lo la).
Proof.
  intros Hvalues. split; [apply record_lookup|]. split; [eexists; apply record_lookup|].
  split.
  - intros key [v Hv]. apply record_lookup_inv in Hv as [[-> _]|[[-> _]|[Hin _]]].
    + unfold reading_keys. in_list.
    + unfold reading_keys, sensor_fields. cbn [app]. in_list.
    + unfold reading_keys. apply list_elem_of_further, elem_of_app. by left.
  - intros key v Hin Hv. apply record_lookup_inv in Hv as [[-> _]|[[-> _]|[_ Hv]]].
    + unfold sensor_fields in Hin. not_in_list Hin.
    + unfold sensor_fields in Hin. not_in_list Hin.
    + by apply (proj1 (Forall_forall _ _) Hvalues).
Qed.

Lemma key_field_range (key : text) (field : string) :
  key_field key = Some field -> field = "device_id" \/ field ∈ sensor_fields.
Proof.
  unfold key_field, recognized, sensor_fields. cbn [find fst snd].
  repeat (case_match; [intros [= <-]; first [by left | right; in_list]|]). done.
Qed.

Lemma pair_entry_range (pair : text) (field : string) (v : pyval F) :
  pair_entry lib pair = Some (field, v) ->
  (field = "device_id" /\ exists s, v = VStr s)
  \/ (field ∈ sensor_fields /\ sensor_value v).
Proof.
  unfold pair_entry. destruct (pair_parts pair) as [[key value]|]; [|done].
  cbn [mbind option_bind].
  destruct (key_field _) as [fld|] eqn:Hf; [|done].
  cbn [mbind option_bind]. intros [= -> <-].
  unfold field_value. case_bool_decide as Hd.
  - left. split; [done|by eexists].
  - right. split; [|apply float_or_none_sensor_value].
    by destruct (key_field_range _ _ Hf).
Qed.

Lemma decoded_wellformed (line : text) (r : dict F) :
  _parse_sensor_data lib line = Some r -> wellformed r.
Proof.
  rewrite dispatch_by_priority. destruct (classify (strip line)); cbn [parse_as].
  - (* structured *)
    unfold _parse_json_format.
    destruct (json_loads lib (strip line)) as [[| | | | | |d]|]; try done.
    cbn [mbind Res_bind].
    destruct (_safe_float lib (get d "ambient_temp")) as [a|] eqn:Ha; [|done].
    destruct (_safe_float lib (get d "humidity")) as [h|] eqn:Hh; [|done].
    destruct (_safe_float lib (get d "soil_moisture")) as [sm|] eqn:Hsm; [|done].
    destruct (_safe_float lib (get d "soil_temp")) as [st|] eqn:Hst; [|done].
    destruct (_safe_float lib (get d "wind_speed")) as [w|] eqn:Hw; [|done].
    destruct (_safe_float lib (get d "longitude")) as [lo|] eqn:Hlo; [|done].
    destruct (_safe_float lib (get d "latitude")) as [la|] eqn:Hla; [|done].
    cbn [mbind Res_bind except_none]. intros [= <-].
    apply record_wellformed.
    repeat (constructor; [by eapply _safe_float_sensor_value|]). constructor.
  - (* key=value *)
    intros Hr. pose proof (kv_device_id_origin lib _ _ Hr) as (p & k & v & _ & _ & _ & Hid).
    rewrite kv_outcome in Hr. case_match; [|done]. injection Hr as <-.
    split; [apply lookup_insert_eq|]. split; [by eexists|].
    assert (forall key v, foldl (write_pair lib) ∅ (split "," (strip line)) !! key = Some v ->
              (key = "device_id" /\ exists s, v = VStr s)
              \/ (key ∈ sensor_fields /\ sensor_value v)) as Hrange.
    { intros key w Hw. apply writes_origin in Hw as [Hw|(pair & _ & Hentry)].
      - by rewrite lookup_empty in Hw.
      - by apply pair_entry_range in Hentry. }
    split.
    + intros key [w Hw]. apply lookup_insert_Some in Hw as [[<- _]|[_ Hw]].
      * unfold reading_keys, sensor_fields. cbn [app]. in_list.
      * destruct (Hrange _ _ Hw) as [[-> _]|[Hin _]]; unfold reading_keys.
        -- in_list.
        -- apply list_elem_of_further, elem_of_app. by left.
    + intros key w Hin Hw. apply lookup_insert_Some in Hw as [[<- _]|[_ Hw]].
      * unfold sensor_fields in Hin. not_in_list Hin.
      * destruct (Hrange _ _ Hw) as [[-> _]|[_ Hv]]; [|done].
        unfold sensor_fields in Hin. not_in_list Hin.
  - (* delimited *)
    rewrite csv_outcome. destruct (split "," (strip line)) as [|p0 values]; [done|].
    case_bool_decide; [|done]. intros [= <-]. apply record_wellformed.
    repeat (constructor; [apply optional_value_sensor_value|]). constructor.
  - (* generic *)
    rewrite generic_outcome. case_bool_decide; [|done]. intros [= <-].
    apply record_wellformed.
    repeat (constructor; [apply optional_value_sensor_value|]). constructor.
Qed.

(** X4.  Every reading the decoder returns, from whichever format, has
    [transmitted] false and a string as device id, has no key outside the
    nine columns the decoder fills, and holds [None] or a float in each
    sensor field it has. *)
Theorem reading_wellformed (line : text) (r : dict F) :
  _parse_sensor_data lib line = Some r -> wellformed r.
Proof. apply decoded_wellformed. Qed.

(** *** Surrounding whitespace *)

Lemma lstrip_spaces (ws s : text) :
  Forall (fun c => isspace c = true) ws -> lstrip (ws ++ s) = lstrip s.
Proof. induction 1 as [|c ws Hc _ IH]; simpl; [done|]. by rewrite Hc. Qed.

Lemma lstrip_app (s t : text) : lstrip s <> [] -> lstrip (s ++ t) = lstrip s ++ t.
Proof.
  induction s as [|c s IH]; simpl; [done|].
  destruct (isspace c); [apply IH | done].
Qed.

Lemma lstrip_nil (s : text) : lstrip s = [] -> Forall (fun c => isspace c = true) s.
Proof.
  induction s as [|c s IH]; simpl; [constructor|].
  destruct (isspace c) eqn:Hc; [|done]. intros Hs. constructor; auto.
Qed.

Lemma strip_padded (before s after : text) :
  Forall (fun c => isspace c = true) before ->
  Forall (fun c => isspace c = true) after ->
  strip (before ++ s ++ after) = strip s.
Proof.
  intros Hb Ha. unfold strip, rstrip. rewrite !rev_app_distr, <- app_assoc.
  rewrite (lstrip_spaces (rev after)) by by apply Forall_rev.
  destruct (lstrip (rev s)) as [|c t] eqn:Hs.
  - apply lstrip_nil in Hs.
    rewrite (lstrip_spaces (rev s)) by done.
    rewrite <- (app_nil_r (rev before)), (lstrip_spaces (rev before)) by by apply Forall_rev.
    done.
  - rewrite lstrip_app by by rewrite Hs. rewrite Hs.
    rewrite rev_app_distr, rev_involutive. by apply lstrip_spaces.
Qed.

(** X5.  Whitespace around a line, such as the line end that [readline]
    leaves, does not change what the line decodes to. *)
Theorem surrounding_whitespace_ignored (before line after : text) :
  Forall (fun c => isspace c = true) before ->
  Forall (fun c => isspace c = true) after ->
  _parse_sensor_data lib (before ++ line ++ after) = _parse_sensor_data lib line.
Proof. intros Hb Ha. unfold _parse_sensor_data. by rewrite strip_padded. Qed.

(** *** The pairs of a key=value line *)

Lemma kv_by_entries (s : text) :
  _parse_key_value_format lib s
  = kv_of_entries (omap (pair_entry lib) (split "," s)).
Proof.
  rewrite kv_outcome. unfold names_device_id, names_sensor, kv_of_entries.
  by rewrite names_device_id_test, !(names_entries lib), writes_entries.
Qed.

Lemma entries_recognized (pieces : list text) :
  omap (pair_entry lib) (filter (fun p => is_Some (pair_field p)) pieces)
  = omap (pair_entry lib) pieces.
Proof.
  induction pieces as [|p ps IH]; [done|].
  rewrite filter_cons. destruct (decide (is_Some (pair_field p))) as [Hp|Hp].
  - change (match pair_entry lib p with
            | Some e => e :: omap (pair_entry lib) (filter (fun p => is_Some (pair_field p)) ps)
            | None => omap (pair_entry lib) (filter (fun p => is_Some (pair_field p)) ps)
            end
            = match pair_entry lib p with
              | Some e => e :: omap (pair_entry lib) ps
              | None => omap (pair_entry lib) ps
              end).
    by rewrite IH.
  - rewrite IH.
    change (omap (pair_entry lib) ps
            = match pair_entry lib p with
              | Some e => e :: omap (pair_entry lib) ps
              | None => omap (pair_entry lib) ps
              end).
    rewrite <- (pair_entry_field lib) in Hp.
    destruct (pair_entry lib p); [|done]. exfalso. apply Hp. by eexists.
Qed.

(** X6.  In a key=value line, a pair whose key is not recognized, like a
    piece without [=], is ignored: the line parses as it does with all
    such pieces left out. *)
Theorem unrecognized_pairs_ignored (pieces : list text) :
  Forall (fun p => ","%char ∉ p) pieces ->
  _parse_key_value_format lib (join "," pieces)
  = _parse_key_value_format lib
      (join "," (filter (fun p => is_Some (pair_field p)) pieces)).
Proof.
  intros Hpieces. apply kv_same_entries.
  rewrite !entries_join, entries_recognized; [done| |done].
  apply Forall_forall. intros p [_ Hp]%list_elem_of_filter.
  by apply (proj1 (Forall_forall _ _) Hpieces).
Qed.

Lemma write_entries_permutation (es1 es2 : list (string * pyval F)) :
  es1 ≡ₚ es2 -> NoDup es1.*1 ->
  forall data, foldl write_entry data es1 = foldl write_entry data es2.
Proof.
  induction 1 as [|e es1 es2 Hperm IH|e1 e2 es|es1 es2 es3 H12 IH12 H23 IH23];
    intros Hnodup data.
  - done.
  - simpl. apply IH. by apply NoDup_cons in Hnodup as [_ ?].
  - simpl. f_equal. unfold write_entry. apply insert_insert_ne.
    simpl in Hnodup. apply NoDup_cons in Hnodup as [Hin _].
    intros Heq. apply Hin. rewrite Heq. apply list_elem_of_here.
  - rewrite IH12 by done. apply IH23. by rewrite <- H12.
Qed.

Lemma existsb_permutation {A} (test : A -> bool) (l1 l2 : list A) :
  l1 ≡ₚ l2 -> existsb test l1 = existsb test l2.
Proof.
  intros Hperm. apply eq_true_iff_eq. rewrite !existsb_exists.
  split; intros (x & Hx & Ht); exists x; split; try done;
    apply list_elem_of_In; apply list_elem_of_In in Hx.
  - by rewrite <- Hperm.
  - by rewrite Hperm.
Qed.

(** X7.  In a key=value line in which no recognized key is named twice,
    the order of the pairs does not matter: a line with the same pieces in
    another order parses to the same result. *)
Theorem pair_order_irrelevant (pieces1 pieces2 : list text) :
  pieces1 ≡ₚ pieces2 ->
  NoDup (omap pair_field pieces1) ->
  Forall (fun p => ","%char ∉ p) pieces1 ->
  _parse_key_value_format lib (join "," pieces1)
  = _parse_key_value_format lib (join "," pieces2).
Proof.
  intros Hperm Hnodup Hcomma.
  assert (Forall (fun p => ","%char ∉ p) pieces2) as Hcomma2 by by rewrite <- Hperm.
  rewrite !kv_by_entries, !entries_join by done.
  assert (omap (pair_entry lib) pieces1 ≡ₚ omap (pair_entry lib) pieces2) as Hes
    by by rewrite Hperm.
  assert ((omap (pair_entry lib) pieces1).*1 = omap pair_field pieces1) as Hkeys.
  { clear. induction pieces1 as [|p ps IH]; [done|].
    change ((match pair_entry lib p with
             | Some e => e :: omap (pair_entry lib) ps
             | None => omap (pair_entry lib) ps
             end).*1
            = match pair_field p with
              | Some f => f :: omap pair_field ps
              | None => omap pair_field ps
              end).
    rewrite <- (pair_entry_field lib). destruct (pair_entry lib p) as [[f v]|].
    - change (f :: (omap (pair_entry lib) ps).*1 = f :: omap pair_field ps).
      by rewrite IH.
    - exact IH. }
  unfold kv_of_entries.
  rewrite (existsb_permutation _ _ _ Hes), (existsb_permutation _ _ _ Hes).
  rewrite (write_entries_permutation _ _ Hes) by by rewrite Hkeys.
  done.
Qed.

(** *** The pieces of a delimited line *)

Lemma optional_value_take (values : list text) (n i : nat) :
  i < n -> optional_value lib (take n values) i = optional_value lib values i.
Proof. intros Hi. unfold optional_value. by rewrite lookup_take_lt. Qed.

(** X8.  The delimited parser reads the first eight pieces only: a line
    with more pieces parses as the line cut after its eighth piece. *)
Theorem delimited_reads_eight (parts : list text) :
  Forall (fun p => ","%char ∉ p) parts ->
  _parse_csv_format lib (join "," parts)
  = _parse_csv_format lib (join "," (take 8 parts)).
Proof.
  intros Hparts. destruct parts as [|p0 values]; [done|].
  assert (Forall (fun p => ","%char ∉ p) (take 8 (p0 :: values))) as Htake.
  { apply Forall_take. done. }
  change (take 8 (p0 :: values)) with (p0 :: take 7 values) in *.
  rewrite !csv_outcome, !split_join by done. cbv beta iota.
  rewrite length_take. unfold positional.
  rewrite !optional_value_take by lia.
  destruct (decide (4 <= length values)).
  - by rewrite !bool_decide_eq_true_2 by lia.
  - by rewrite !bool_decide_eq_false_2 by lia.
Qed.

End DecoderExtras.

(** * Further properties of the session *)

Section SessionExtras.
Context (host : Serial.Host).
Import Serial SerialSpec SerialFacts.

(** The state after a method has run, and what it returned. *)
Local Abbreviation after m st := (snd (m st)).
Local Abbreviation outcome m st := (fst (m st)).


Lemma disconnect_closed (connection : handle) (flag monitor : bool)
    (thread : option nat) (w : World) :
  close_port host connection = None ->
  disconnect host
    {| self := {| serial_connection := Some connection; is_connected := flag;
                  should_monitor_data := monitor; data_monitoring_thread := thread |};
       world := w |}
  = (Ok tt,
     {| self := idle thread;
        world := {| open_handles := close_one connection (open_handles w);
                    threads := threads w;
                    stdout := stdout w ++ [connection_closed] |} |}).
Proof.
  intros Hclose. unfold disconnect, serial_close. run_m. simpl. rewrite Hclose. reflexivity.
Qed.

(** Closing the object that was opened last gives back the handles there
    were before it was opened. *)
Lemma close_one_opened (c : handle) (l : list handle) : close_one c (c :: l) = l.
Proof. unfold close_one. unfold Text.eqb. by rewrite bool_decide_eq_true_2. Qed.



(** X11.  When the close of the handle raises [SerialException],
    [disconnect] still returns without raising and leaves the session idle;
    it prints the error message instead of the message of success. *)
Theorem disconnect_survives_close_failure (connection : handle) (flag monitor : bool)
    (thread : option nat) (w : World) :
  close_port host connection = Some SerialException ->
  disconnect host
    {| self := {| serial_connection := Some connection; is_connected := flag;
                  should_monitor_data := monitor; data_monitoring_thread := thread |};
       world := w |}
  = (Ok tt,
     {| self := idle thread;
        world := {| open_handles := open_handles w; threads := threads w;
                    stdout := stdout w ++ [ "Error while closing connection" : text ] |} |}).
Proof.
  intros Hclose. unfold disconnect, serial_close. run_m. simpl. rewrite Hclose. reflexivity.
Qed.

Lemma disconnect_clears_handle (st : State) :
  serial_connection (self (after (disconnect host) st)) = None
  /\ should_monitor_data (self (after (disconnect host) st)) = false.
Proof.
  unfold disconnect, serial_close.
  destruct st as [[[conn|] flag mon thr] w]; [|split; reflexivity].
  run_m. simpl. destruct (close_port host conn) as [e|]; [destruct e|]; split; reflexivity.
Qed.

(** X12.  Whatever [cleanup] finds, when it returns the session is not
    connected; and on a session that is not connected it does nothing at
    all. *)
Theorem cleanup_leaves_disconnected (st st' : State) :
  Wire.cleanup host st = (Ok tt, st') ->
  is_connected (self st') = false
  /\ (is_connected (self st) = false -> st' = st).
Proof.
  unfold Wire.cleanup. run_m. simpl.
  destruct (is_connected (self st)) eqn:Hflag.
  - intros Hrun. split; [|done].
    unfold disconnect, serial_close in Hrun.
    destruct st as [[[conn|] flag mon thr] w]; revert Hrun; run_m; simpl.
    + destruct (close_port host conn) as [e|]; [destruct e|]; intros [= <-]; reflexivity.
    + intros [= <-]. reflexivity.
  - intros [= <-]. by split.
Qed.

(** X13.  On an unsupported platform the port scan raises
    [EnvironmentError] before it probes anything: no port is opened and
    nothing changes. *)
Theorem scan_unsupported_platform (st : State) :
  supported (platform host) = false ->
  scan_available_ports host st = (Raise EnvironmentError, st).
Proof.
  unfold supported, scan_available_ports, port_list. intros Hp.
  repeat (apply orb_false_iff in Hp as [Hp ?]).
  repeat match goal with H : Text.startswith _ _ = false |- _ => rewrite H; clear H end.
  reflexivity.
Qed.

End SessionExtras.

Section ScanHandles.
Context (host : Serial.Host).
Import Serial SerialSpec SerialFacts.
Hypothesis open_errors : forall port e,
  open_port host port None None = Some e -> io_error e = true.
Hypothesis closes : forall port, close_port host port = None.

(** A probe that opens its port closes it again: nothing is left of it. *)
Lemma probe_restores (available : list text) (port : text) (st : State) :
  exists available', probe host available port st = (Ok available', st).
Proof.
  destruct st as [s [handles started printed]].
  unfold probe, serial_open, serial_close.
  destruct (open_port host port None None) as [e|] eqn:Ho.
  - pose proof (open_errors _ _ Ho) as He. run_m. rewrite He. by eexists.
  - run_m. rewrite closes. cbn [self world open_handles threads stdout].
    rewrite close_one_opened. by eexists.
Qed.

Lemma probe_loop_restores (ports available : list text) (st : State) :
  exists found, for_loop (probe host) available ports st = (Ok found, st).
Proof.
  revert available. induction ports as [|port ports IH]; intros available.
  - by eexists.
  - destruct (probe_restores available port st) as [available' Hturn].
    cbn [for_loop]. unfold mbind, M_bind. rewrite Hturn. apply IH.
Qed.

End ScanHandles.

Section ScanExtras.
Context (host : Serial.Host).
Import Serial SerialSpec SerialFacts.

(** X14.  When the errors of opening are I/O errors and every close
    succeeds, the port scan returns and leaves everything as it found it:
    every object a probe opened is closed again, so the open handles are
    exactly those there were before, the handle of a connected session
    among them; no thread is started and nothing is printed. *)
Theorem scan_closes_its_probes (st : State) :
  supported (platform host) = true ->
  (forall port e, open_port host port None None = Some e -> io_error e = true) ->
  (forall port, close_port host port = None) ->
  exists found, scan_available_ports host st = (Ok found, st).
Proof.
  intros Hplatform Hopen Hclose. unfold scan_available_ports.
  rewrite port_list_supported by done.
  change ((mret (candidates host) ≫= (fun ports => for_loop (probe host) [] ports)) st)
    with (for_loop (probe host) [] (candidates host) st).
  apply (probe_loop_restores host Hopen Hclose).
Qed.

End ScanExtras.

Section LinkExtras.
Context (host : Serial.Host).
Context (write_port : Serial.handle -> list N -> option pyexn).
Context (decode : list N -> text).
Import Serial SerialSpec SerialFacts Wire.

Lemma with_session_same (l : Line) : with_session (session l) l = l.
Proof. by destruct l. Qed.

(** X15.  On a connected session [send_command] writes the UTF-8 bytes of
    the command, once, to the handle of the session, with nothing added,
    and returns [True]; when the write raises [SerialException] it returns
    [False] and nothing is recorded as sent.  The session object is not
    changed either way. *)
Theorem send_command_connected (command : text) (connection : handle) (l : Line) :
  is_connected (self (session l)) = true ->
  serial_connection (self (session l)) = Some connection ->
  (write_port connection (encode command) = None ->
   exists l',
     send_command write_port command l = (Eff.Done true, l')
     /\ sent l' = sent l ++ [(connection, encode command)]
     /\ self (session l') = self (session l)
     /\ stdout (world (session l'))
        = stdout (world (session l)) ++ [ "Command sent successfully: " ++ command ])
  /\ (write_port connection (encode command) = Some SerialException ->
      send_command write_port command l = (Eff.Done false, l)).
Proof.
  intros Hflag Hconn. unfold send_command, serial_write.
  split; intros Hwrite.
  - eexists. split.
    + unfold mbind, Eff.M_bind, lift, get_self. cbn [fst snd].
      rewrite with_session_same, Hflag, Hconn. unfold Eff.try_except.
      rewrite Hwrite. reflexivity.
    + repeat split.
  - unfold mbind, Eff.M_bind, lift, get_self. cbn [fst snd].
    rewrite with_session_same, Hflag, Hconn. unfold Eff.try_except.
    rewrite Hwrite. reflexivity.
Qed.

(** X16.  After a [disconnect], whatever it met, [send_command] returns
    [False] and writes nothing: the handle is gone, even where the flag
    [is_connected] was left standing by a close that raised. *)
Theorem send_after_disconnect (command : text) (l : Line) :
  let l1 := (lift (disconnect host) l).2 in
  send_command write_port command l1 = (Eff.Done false, l1).
Proof.
  intros l1.
  assert (serial_connection (self (session l1)) = None) as Hconn.
  { unfold l1, lift. destruct (disconnect host (session l)) as [[?|?] st1] eqn:Hd;
      cbn [snd session with_session];
      pose proof (disconnect_clears_handle host (session l)) as [Hc _];
      by rewrite Hd in Hc. }
  unfold send_command, mbind, Eff.M_bind, lift, get_self. cbn [fst snd].
  rewrite with_session_same, Hconn. by destruct (is_connected _).
Qed.

Lemma monitor_turn_bytes (connection : handle) (data : list N)
    (rest : list reading_result) (l : Line) :
  incoming l = Bytes data :: rest ->
  exists l',
    monitor_turn decode connection l = (Eff.Done true, l')
    /\ incoming l' = rest
    /\ received l'
       = received l ++ (if bool_decide (data <> []) && data_callback l
                        then [decode data] else [])
    /\ self (session l') = self (session l)
    /\ sent l' = sent l
    /\ data_callback l' = data_callback l.
Proof.
  intros Hin. unfold monitor_turn, Eff.try_except, serial_readline.
  unfold mbind at 1. unfold Eff.M_bind at 1. rewrite Hin.
  unfold mbind at 1. unfold Eff.M_bind at 1. cbn [Eff.get data_callback].
  destruct (bool_decide (data <> []) && data_callback l).
  - eexists. split; [reflexivity|]. repeat split.
  - eexists. split; [reflexivity|]. repeat split. cbn [received]. by rewrite app_nil_r.
Qed.

Lemma monitor_turn_error (connection : handle) (rest : list reading_result) (l : Line) :
  incoming l = ReadError SerialException :: rest ->
  exists l',
    monitor_turn decode connection l = (Eff.Done false, l')
    /\ incoming l' = rest /\ received l' = received l
    /\ self (session l') = self (session l) /\ sent l' = sent l.
Proof.
  intros Hin. unfold monitor_turn, Eff.try_except, serial_readline.
  unfold mbind at 1. unfold Eff.M_bind at 1. rewrite Hin.
  eexists. split; [reflexivity|]. repeat split.
Qed.

Lemma monitor_step (connection : handle) (turns : nat) (l : Line) :
  should_monitor_data (self (session l)) = true ->
  serial_connection (self (session l)) = Some connection ->
  _monitor_data decode (S turns) l
  = match monitor_turn decode connection l with
    | (Eff.Done true, l') => _monitor_data decode turns l'
    | (Eff.Done false, l') => (Eff.Done (Some tt), l')
    | (Eff.Fail e, l') => (Eff.Fail e, l')
    end.
Proof.
  intros Hflag Hconn. cbn [_monitor_data]. unfold mbind at 1. unfold Eff.M_bind at 1.
  unfold lift, get_self. rewrite with_session_same, Hflag, Hconn.
  unfold mbind, Eff.M_bind.
  by destruct (monitor_turn decode connection l) as [[[|]|] ?].
Qed.

(** X17.  While the session is monitoring with a callback set,
    [_monitor_data] hands the callback the decoded text of every read that
    brought bytes, in the order read, and passes over the reads that timed
    out; at the first read that raises [SerialException] it returns.  The
    answers of the device behind that read are not consumed, nothing is
    written, and the session object is as it was. *)
Theorem monitor_delivers_in_order (chunks : list (list N)) (rest : list reading_result)
    (connection : handle) (turns : nat) (l : Line) :
  should_monitor_data (self (session l)) = true ->
  serial_connection (self (session l)) = Some connection ->
  data_callback l = true ->
  incoming l = map Bytes chunks ++ ReadError SerialException :: rest ->
  length chunks < turns ->
  exists l',
    _monitor_data decode turns l = (Eff.Done (Some tt), l')
    /\ received l' = received l ++ map decode (filter (fun data => data <> []) chunks)
    /\ incoming l' = rest
    /\ self (session l') = self (session l)
    /\ sent l' = sent l.
Proof.
  revert turns l. induction chunks as [|data chunks IH]; intros turns l Hflag Hconn Hcb Hin Hturns.
  - destruct turns as [|turns]; [simpl in Hturns; lia|].
    simpl in Hin.
    destruct (monitor_turn_error connection _ l Hin) as (l1 & Hturn & Hin1 & Hrec1 & Hself1 & Hsent1).
    exists l1. rewrite (monitor_step connection), Hturn by done.
    repeat split; try done. cbn [map filter]. by rewrite app_nil_r.
  - destruct turns as [|turns]; [simpl in Hturns; lia|].
    simpl in Hin, Hturns.
    destruct (monitor_turn_bytes connection data _ l Hin)
      as (l1 & Hturn & Hin1 & Hrec1 & Hself1 & Hsent1 & Hcb1).
    destruct (IH turns l1) as (l' & Hrun & Hrec & Hin' & Hself & Hsent); try lia.
    { by rewrite Hself1. } { by rewrite Hself1. } { by rewrite Hcb1. } { done. }
    exists l'. rewrite (monitor_step connection), Hturn by done. split; [exact Hrun|].
    rewrite Hrec, Hrec1, Hcb, andb_true_r, Hself, Hself1, Hsent, Hsent1, Hin'.
    repeat split. rewrite filter_cons.
    destruct (decide (data <> [])) as [Hd|Hd].
    + rewrite bool_decide_eq_true_2 by done. by rewrite <- app_assoc.
    + rewrite bool_decide_eq_false_2 by done. by rewrite app_nil_r.
Qed.

(** X18.  After a [disconnect], whatever it met, [_monitor_data] returns
    at its next test of the loop condition: it reads nothing more and calls
    the callback no more. *)
Theorem monitor_stops_after_disconnect (turns : nat) (l : Line) :
  let l1 := (lift (disconnect host) l).2 in
  _monitor_data decode (S turns) l1 = (Eff.Done (Some tt), l1).
Proof.
  intros l1.
  assert (should_monitor_data (self (session l1)) = false) as Hflag.
  { unfold l1, lift. destruct (disconnect host (session l)) as [[?|?] st1] eqn:Hd;
      cbn [snd session with_session];
      pose proof (disconnect_clears_handle host (session l)) as [_ Hc];
      by rewrite Hd in Hc. }
  cbn [_monitor_data]. unfold mbind, Eff.M_bind, lift, get_self. cbn [fst snd].
  by rewrite with_session_same, Hflag.
Qed.

Lemma code_injective (c1 c2 : ascii) : Text.code c1 = Text.code c2 -> c1 = c2.
Proof.
  unfold Text.code. intros H.
  by rewrite <- (ascii_N_embedding c1), <- (ascii_N_embedding c2), H.
Qed.

Lemma code_bound (c : ascii) : (Text.code c < 256)%N.
Proof. apply N_ascii_bounded. Qed.

(** X19.  The encoding of the commands loses nothing: two commands with
    the same bytes are the same command; a command of characters below 128
    is sent as the codes of its characters, one byte each. *)
Theorem encode_faithful (s1 s2 : text) :
  (encode s1 = encode s2 -> s1 = s2)
  /\ (Forall (fun c => (Text.code c < 128)%N) s1 -> encode s1 = map Text.code s1).
Proof.
  split.
  - revert s2. induction s1 as [|c1 s1 IH]; intros [|c2 s2]; unfold encode; cbn [flat_map].
    + done.
    + unfold encode_char. by destruct (Text.code c2 <? 128)%N.
    + unfold encode_char. by destruct (Text.code c1 <? 128)%N.
    + fold (encode s1). fold (encode s2). unfold encode_char.
      pose proof (code_bound c1). pose proof (code_bound c2).
      destruct (N.ltb_spec (Text.code c1) 128), (N.ltb_spec (Text.code c2) 128); cbn [app].
      * intros [= Hc Hs]. f_equal; [by apply code_injective | by apply IH].
      * intros [= Hc _]. exfalso. revert Hc. generalize (Text.code c2 / 64)%N. lia.
      * intros [= Hc _]. exfalso. revert Hc. generalize (Text.code c1 / 64)%N. lia.
      * intros [= Hhi Hlo Hs]. f_equal; [|by apply IH]. apply code_injective.
        pose proof (N.div_mod (Text.code c1) 64 ltac:(lia)).
        pose proof (N.div_mod (Text.code c2) 64 ltac:(lia)). lia.
  - induction 1 as [|c s Hc _ IH]; [done|].
    unfold encode in *. cbn [flat_map map]. rewrite IH. unfold encode_char.
    by rewrite (proj2 (N.ltb_lt _ _) Hc).
Qed.

End LinkExtras.

(** * Properties of saving the readings *)

Section StoreExtras.
Context {F : Type} (lib : PyLib F) (backend : Store.Backend (F:=F)).
Import Store.

(** Run the plumbing of a method body. *)
Ltac run_store :=
  cbv [mbind mret Eff.M_bind Eff.M_ret Eff.raise Eff.get Eff.modify
       Eff.try_except Eff.try_finally Eff.any_exception
       call print set_db set_initialized get_db_session db_add db_commit db_rollback
       db_close init_database];
  cbn [self db engine SessionLocal table open_sessions pending stdout
       database_url _initialized].

(** The keys of a reading are attributes of the model. *)
Lemma reading_keys_columns (key : string) : key ∈ reading_keys -> key ∈ columns.
Proof.
  unfold reading_keys, sensor_fields, columns. cbn [app]. intros Hin.
  repeat (apply elem_of_cons in Hin as [-> | Hin]; [in_list|]).
  by apply elem_of_nil in Hin.
Qed.

Lemma SensorData_accepts (line : text) (record : dict F) (st : State) :
  _parse_sensor_data lib line = Some record ->
  SensorData record st = (Eff.Done record, st).
Proof.
  intros Hparse. unfold SensorData. rewrite bool_decide_eq_true_2; [done|].
  apply Forall_forall. intros key Hkey. apply reading_keys_columns.
  destruct (decoded_wellformed lib _ _ Hparse) as (_ & _ & Hkeys & _).
  apply Hkeys. apply list_elem_of_fmap in Hkey as ([k v] & -> & Hkv).
  apply elem_of_map_to_list in Hkv. by eexists.
Qed.

Lemma decoded_not_falsy (line : text) (record : dict F) :
  _parse_sensor_data lib line = Some record -> falsy (Some record) = false.
Proof.
  intros Hparse. unfold falsy. apply bool_decide_eq_false_2.
  destruct (decoded_wellformed lib _ _ Hparse) as (Ht & _).
  intros Hsize. apply map_size_empty_inv in Hsize. subst.
  by rewrite lookup_empty in Ht.
Qed.

(** The cases of [save_sensor_data]: the flag, the parse, the session
    maker, and the answers of the library. *)
Ltac save_step :=
  match goal with
  | H : _initialized _ = _ |- _ => rewrite H
  | H : SessionLocal _ = _ |- _ => rewrite H
  | H : commit _ _ _ = _ |- _ => rewrite H
  | H : rollback _ = _ |- _ => rewrite H
  | H : close _ = _ |- _ => rewrite H
  | H : _parse_sensor_data _ ?l = Some ?r |- context [SensorData ?r ?s] =>
      rewrite (SensorData_accepts l r s H)
  | H : _parse_sensor_data _ ?l = Some ?r |- context [falsy (Some ?r)] =>
      rewrite (decoded_not_falsy l r H)
  end.

Ltac save_cases line st :=
  unfold save_sensor_data;
  destruct (_initialized (self st)) eqn:?;
  [ destruct (_parse_sensor_data lib line) as [record|] eqn:?;
    [ destruct (SessionLocal (db st)) as [url|] eqn:?;
      [ destruct (commit backend (table (db st)) [record]) as [e1|] eqn:?;
        destruct (rollback backend) as [e2|] eqn:?;
        destruct (close backend) as [e3|] eqn:? | ]
    | ]
  | ];
  run_store; repeat (progress save_step; run_store; cbn [negb app]).

(** X20.  [save_sensor_data] never raises: whatever the line and whatever
    the database answers, it returns [True] or [False].  It does not change
    the manager, and when closing a session does not fail it leaves as many
    sessions open as it found. *)
Theorem save_never_raises (line : text) (st : State) :
  exists b st',
    save_sensor_data lib backend line st = (Eff.Done b, st')
    /\ self st' = self st
    /\ (close backend = None -> open_sessions (db st') = open_sessions (db st)).
Proof.
  save_cases line st;
    (eexists _, _; split; [reflexivity|]; split; [reflexivity|]; by intros ?).
Qed.

(** X21.  When [save_sensor_data] returns [True], the line was decoded
    and its reading is the one row added to the table; when it returns
    [False] and closing the session did not fail, the table is as it
    was. *)
Theorem save_true_means_stored (line : text) (st st' : State) (b : bool) :
  save_sensor_data lib backend line st = (Eff.Done b, st') ->
  (b = true ->
   exists record,
     _parse_sensor_data lib line = Some record
     /\ table (db st') = table (db st) ++ [record])
  /\ (b = false -> close backend = None -> table (db st') = table (db st)).
Proof.
  save_cases line st; intros [= <- <-]; (split; [intros ?|intros ? ?]);
    try done; try congruence.
  all: eexists; split; reflexivity.
Qed.

(** X22.  A line that does not decode is dropped without a trace: on an
    initialized manager [save_sensor_data] returns [False], opens no
    session, prints nothing and changes nothing. *)
Theorem save_drops_undecoded (line : text) (st : State) :
  _initialized (self st) = true ->
  _parse_sensor_data lib line = None ->
  save_sensor_data lib backend line st = (Eff.Done false, st).
Proof.
  intros Hinit Hparse. unfold save_sensor_data. run_store.
  rewrite Hinit, Hparse. reflexivity.
Qed.

(** X23.  [initialize] never raises.  It returns [True] exactly when
    [create_engine] and [create_all] both succeed, and then the manager is
    initialized and sessions can be made; when it returns [False] the flag
    of the manager is as it was. *)
Theorem initialize_outcome (st : State) :
  exists b st',
    initialize backend st = (Eff.Done b, st')
    /\ (b = true <->
        create_engine backend (database_url (self st)) = None
        /\ create_all backend (database_url (self st)) = None)
    /\ (b = true ->
        _initialized (self st') = true
        /\ SessionLocal (db st') = Some (database_url (self st)))
    /\ (b = false -> self st' = self st)
    /\ table (db st') = table (db st).
Proof.
  unfold initialize. run_store.
  destruct (create_engine backend (database_url (self st))) as [e1|];
    [|destruct (create_all backend (database_url (self st))) as [e2|]];
    run_store; eexists _, _; (split; [reflexivity|]);
    repeat split; try done; by intros [? ?].
Qed.

(** X24.  A manager that was just made saves nothing: [save_sensor_data]
    returns [False] and the table stays as it is.  After an [initialize]
    that succeeded, a line that decodes is stored: when the commit and the
    close succeed, [save_sensor_data] returns [True], the reading of the
    line is the last row of the table, and no session is left open. *)
Theorem initialize_then_save (url line : text) (record : dict F) (d : Database) :
  create_engine backend url = None ->
  create_all backend url = None ->
  _parse_sensor_data lib line = Some record ->
  commit backend (table d) [record] = None ->
  close backend = None ->
  let fresh := {| self := __init__ url; db := d |} in
  let st1 := (initialize backend fresh).2 in
  let st2 := (save_sensor_data lib backend line st1).2 in
  (save_sensor_data lib backend line fresh).1 = Eff.Done false
  /\ table (db (save_sensor_data lib backend line fresh).2) = table d
  /\ (initialize backend fresh).1 = Eff.Done true
  /\ (save_sensor_data lib backend line st1).1 = Eff.Done true
  /\ table (db st2) = table d ++ [record]
  /\ open_sessions (db st2) = open_sessions d.
Proof.
  intros Hengine Hall Hparse Hcommit Hclose fresh st1 st2.
  assert (initialize backend fresh
          = (Eff.Done true,
             {| self := {| database_url := url; _initialized := true |};
                db := {| engine := Some url; SessionLocal := Some url; table := table d;
                         open_sessions := open_sessions d; pending := pending d;
                         stdout := stdout d ++ [ "Database initialized successfully" : text ] |} |}))
    as Hinit.
  { unfold initialize, fresh, __init__. run_store. rewrite Hengine. run_store.
    rewrite Hall. reflexivity. }
  unfold st2, st1. rewrite Hinit. cbn [fst snd].
  split; [reflexivity|]. split; [reflexivity|]. split; [reflexivity|].
  unfold save_sensor_data. run_store. cbn [negb]. rewrite Hparse.
  repeat (progress save_step; run_store; cbn [negb app]).
  by repeat split.
Qed.

End StoreExtras.
(** * The validation of the settings and the handlers of the window *)

Section WindowExtras.
Context (host : Serial.Host).
Context (write_port : Serial.handle -> list N -> option pyexn).
Context (int_of_text : text -> option Z).
Context (format : text -> list (string * text) -> Res text).
Import Serial SerialSpec SerialFacts.

Local Abbreviation settings_valid := (WindowSpec.settings_valid int_of_text).

Ltac run_gui :=
  cbv [mbind mret Eff.M_bind Eff.M_ret Eff.raise Eff.get Eff.modify
       Eff.try_except Eff.try_except_as Eff.try_finally Eff.any_exception
       Gui.show Gui.show_configuration_error Gui.show_connection_error
       Gui.show_input_error Gui.show_communication_error Gui.show_warning
       Gui.message_for Gui.value_error
       App.on_dialogs App.on_line App.update_connection_button_state
       App.clear_command_input App.with_dialogs];
  cbn [App.line App.ui App.dialogs App.selected_os App.port_selection
       App.baud_rate_input App.command_input App.button_text].

Lemma message_invalid_baud_rate :
  default ("invalid_baud_rate" : text) (Gui.ERROR_MESSAGES !! "invalid_baud_rate")
  = "Baud rate must be a valid number".
Proof. by_evaluation. Qed.

Lemma message_configuration_missing :
  default ("configuration_missing" : text) (Gui.ERROR_MESSAGES !! "configuration_missing")
  = "Please specify both port and baud rate before connecting".
Proof. by_evaluation. Qed.

Lemma message_os_not_selected :
  default ("os_not_selected" : text) (Gui.ERROR_MESSAGES !! "os_not_selected")
  = "Please select an operating system before connecting".
Proof. by_evaluation. Qed.

Lemma message_connection_failed :
  default ("connection_failed" : text) (Gui.ERROR_MESSAGES !! "connection_failed")
  = "Failed to connect to {port}: {error}".
Proof. by_evaluation. Qed.

Lemma title_configuration_error : Gui.title_for "configuration_error" = "Configuration Error".
Proof. by_evaluation. Qed.

Lemma title_connection_error : Gui.title_for "connection_error" = "Connection Error".
Proof. by_evaluation. Qed.

(** The baud rate: the integer the text reads as when it is positive, and
    one dialog otherwise. *)
Lemma validate_baud_rate_run (baud_rate_string : text) (shown : list Gui.dialog) :
  Gui.validate_baud_rate int_of_text format baud_rate_string shown
  = match int_of_text baud_rate_string with
    | Some n =>
        if (0 <? n)%Z then (Eff.Done (Some n), shown)
        else (Eff.Done None,
              shown ++ [Gui.ShowError "Configuration Error" "Baud rate must be a valid number"])
    | None =>
        (Eff.Done None,
         shown ++ [Gui.ShowError "Configuration Error" "Baud rate must be a valid number"])
    end.
Proof.
  unfold Gui.validate_baud_rate. run_gui.
  rewrite message_invalid_baud_rate, title_configuration_error.
  destruct (int_of_text baud_rate_string) as [n|]; [|done].
  rewrite Z.leb_antisym. by destruct (0 <? n)%Z.
Qed.

Lemma empty_false (s : text) : s <> [] -> Gui.empty s = false.
Proof. intros Hs. unfold Gui.empty. by apply bool_decide_eq_false_2. Qed.

Lemma os_listed (selected_os : Z) :
  bool_decide (selected_os ∈ [1; 2]%Z) = true <->
  selected_os = OS_WINDOWS \/ selected_os = OS_LINUX.
Proof.
  rewrite bool_decide_eq_true. unfold OS_WINDOWS, OS_LINUX.
  rewrite !elem_of_cons, elem_of_nil. tauto.
Qed.

Lemma validate_valid (selected_os : Z) (selected_port baud_rate_string : text)
    (shown : list Gui.dialog) :
  settings_valid selected_os selected_port baud_rate_string ->
  Gui.validate_connection_settings int_of_text format selected_os selected_port
    baud_rate_string shown
  = (Eff.Done true, shown).
Proof.
  intros (Hport & Hbaud & (n & Hint & Hn) & Hos).
  unfold Gui.validate_connection_settings.
  rewrite !empty_false by done. cbn [orb]. run_gui.
  rewrite validate_baud_rate_run, Hint.
  apply Z.ltb_lt in Hn. rewrite Hn.
  apply os_listed in Hos. by rewrite Hos.
Qed.

Lemma validate_invalid (selected_os : Z) (selected_port baud_rate_string : text)
    (shown : list Gui.dialog) :
  ~ settings_valid selected_os selected_port baud_rate_string ->
  exists message,
    Gui.validate_connection_settings int_of_text format selected_os selected_port
      baud_rate_string shown
    = (Eff.Done false, shown ++ [Gui.ShowError "Configuration Error" message]).
Proof.
  intros Hinvalid. unfold Gui.validate_connection_settings, Gui.empty.
  case_bool_decide as Hport.
  { cbn [orb]. run_gui.
    rewrite message_configuration_missing, title_configuration_error. by eexists. }
  case_bool_decide as Hbaud.
  { cbn [orb]. run_gui.
    rewrite message_configuration_missing, title_configuration_error. by eexists. }
  cbn [orb]. run_gui. rewrite validate_baud_rate_run.
  destruct (int_of_text baud_rate_string) as [n|] eqn:Hint; [|by eexists].
  destruct (0 <? n)%Z eqn:Hn; [|by eexists].
  apply Z.ltb_lt in Hn.
  destruct (bool_decide (selected_os ∈ [1; 2]%Z)) eqn:Hos.
  { apply os_listed in Hos. exfalso. apply Hinvalid. repeat split; eauto. }
  cbn [negb]. rewrite message_os_not_selected, title_configuration_error. by eexists.
Qed.

Lemma settings_valid_dec (selected_os : Z) (selected_port baud_rate_string : text) :
  settings_valid selected_os selected_port baud_rate_string
  \/ ~ settings_valid selected_os selected_port baud_rate_string.
Proof.
  unfold WindowSpec.settings_valid.
  destruct (decide (selected_port = [])) as [?|Hport]; [right; tauto|].
  destruct (decide (baud_rate_string = [])) as [?|Hbaud]; [right; tauto|].
  destruct (decide (selected_os = OS_WINDOWS \/ selected_os = OS_LINUX)) as [Hos|?];
    [|right; tauto].
  destruct (int_of_text baud_rate_string) as [n|] eqn:Hint.
  - destruct (decide (0 < n)%Z) as [Hn|Hn].
    + left. repeat split; eauto.
    + right. intros (_ & _ & (m & [= <-] & Hm) & _). done.
  - right. intros (_ & _ & (m & [=] & _) & _).
Qed.

(** X25.  [validate_connection_settings] never raises, and returns [True]
    exactly when a port is given, the baud rate is given and reads as a
    positive integer, and the operating system is one of the two.  When it
    returns [True] it shows no dialog, and when it returns [False] it shows
    exactly one, a configuration error. *)
Theorem connection_settings_valid_iff (selected_os : Z)
    (selected_port baud_rate_string : text) (shown : list Gui.dialog) :
  exists valid shown',
    Gui.validate_connection_settings int_of_text format selected_os selected_port
      baud_rate_string shown
    = (Eff.Done valid, shown')
    /\ (valid = true <->
        settings_valid selected_os selected_port baud_rate_string)
    /\ (valid = true -> shown' = shown)
    /\ (valid = false ->
        exists message, shown' = shown ++ [Gui.ShowError "Configuration Error" message]).
Proof.
  destruct (settings_valid_dec selected_os selected_port baud_rate_string)
    as [Hvalid|Hinvalid].
  - exists true, shown. rewrite validate_valid by done.
    split; [done|]. split; [tauto|]. split; [done|]. intros [=].
  - destruct (validate_invalid _ _ _ shown Hinvalid) as [message Hrun].
    exists false, (shown ++ [Gui.ShowError "Configuration Error" message]).
    rewrite Hrun. split; [done|]. split; [|split].
    + split; [intros [=] | tauto].
    + intros [=].
    + intros _. by exists message.
Qed.


(** What [connect] does with the answer of the driver. *)
Lemma connect_refused (port : text) (baud_rate os_type : Z) (st : State) :
  os_type = OS_WINDOWS \/ os_type = OS_LINUX ->
  open_port host (connect_path os_type port) (Some baud_rate) (Some SERIAL_TIMEOUT)
  = Some SerialException ->
  connect host port baud_rate os_type st
  = (Ok false,
     {| self := {| serial_connection := serial_connection (self st); is_connected := false;
                   should_monitor_data := should_monitor_data (self st);
                   data_monitoring_thread := data_monitoring_thread (self st) |};
        world := world st |}).
Proof.
  intros Hos Hopen. destruct st as [s w].
  unfold connect, connect_path, serial_open in *.
  destruct Hos as [-> | ->]; simpl in Hopen |- *; rewrite Hopen; reflexivity.
Qed.

Lemma connect_raises (port : text) (baud_rate os_type : Z) (e : pyexn) (st : State) :
  os_type = OS_WINDOWS \/ os_type = OS_LINUX ->
  open_port host (connect_path os_type port) (Some baud_rate) (Some SERIAL_TIMEOUT) = Some e ->
  serial_exception e = false ->
  connect host port baud_rate os_type st = (Raise e, st).
Proof.
  intros Hos Hopen He. destruct st as [s w].
  unfold connect, connect_path, serial_open in *.
  destruct Hos as [-> | ->]; simpl in Hopen |- *; rewrite Hopen; run_m; by rewrite He.
Qed.

Lemma connect_opens (port : text) (baud_rate os_type : Z) (st : State) :
  os_type = OS_WINDOWS \/ os_type = OS_LINUX ->
  open_port host (connect_path os_type port) (Some baud_rate) (Some SERIAL_TIMEOUT) = None ->
  connect host port baud_rate os_type st
  = (Ok true,
     {| self := {| serial_connection := Some (connect_path os_type port);
                   is_connected := true; should_monitor_data := true;
                   data_monitoring_thread := Some (threads (world st)) |};
        world := {| open_handles := connect_path os_type port :: open_handles (world st);
                    threads := S (threads (world st));
                    stdout := stdout (world st) |} |}).
Proof.
  intros Hos Hopen. unfold connect, connect_path, serial_open in *.
  destruct Hos as [-> | ->]; simpl in Hopen |- *; rewrite Hopen; reflexivity.
Qed.

(** The two validations of [_establish_serial_connection] agree. *)
Lemma establish_validated (st : App.State) (baud_rate : Z) :
  settings_valid (App.selected_os (App.ui st)) (App.port_selection (App.ui st))
    (App.baud_rate_input (App.ui st)) ->
  int_of_text (App.baud_rate_input (App.ui st)) = Some baud_rate ->
  App._establish_serial_connection host int_of_text format st
  = (connected ←
       App.on_line
         (Wire.lift (connect host (App.port_selection (App.ui st)) baud_rate
                       (App.selected_os (App.ui st))));
     if connected : bool then App.update_connection_button_state true
     else App.on_dialogs
            (Gui.handle_connection_failure format (App.port_selection (App.ui st))
               "Connection failed")) st.
Proof.
  intros Hvalid Hint. pose proof Hvalid as (_ & _ & (n & Hn & Hpos) & _).
  rewrite Hint in Hn. injection Hn as <-.
  unfold App._establish_serial_connection.
  unfold mbind at 1, Eff.M_bind at 1, Eff.get at 1.
  unfold mbind at 1, Eff.M_bind at 1, App.on_dialogs at 1.
  rewrite validate_valid by done. cbn [negb].
  unfold mbind at 1, Eff.M_bind at 1, App.on_dialogs at 1.
  cbn [App.ui App.dialogs App.with_dialogs].
  rewrite validate_baud_rate_run, Hint. apply Z.ltb_lt in Hpos. rewrite Hpos.
  destruct st as [l [os port baud command button shown]]. reflexivity.
Qed.

(** X26.  With settings that are not valid, [_establish_serial_connection]
    never reaches [connect]: it returns with the session, the link and the
    widgets as they were, and one more dialog, a configuration error. *)
Theorem establish_rejects_invalid_settings (st : App.State) :
  ~ settings_valid (App.selected_os (App.ui st)) (App.port_selection (App.ui st))
      (App.baud_rate_input (App.ui st)) ->
  exists message,
    App._establish_serial_connection host int_of_text format st
    = (Eff.Done tt,
       {| App.line := App.line st;
          App.ui := App.with_dialogs
                      (App.dialogs (App.ui st)
                       ++ [Gui.ShowError "Configuration Error" message])
                      (App.ui st) |}).
Proof.
  intros Hinvalid.
  destruct (validate_invalid _ _ _ (App.dialogs (App.ui st)) Hinvalid) as [message Hrun].
  exists message. unfold App._establish_serial_connection.
  unfold mbind at 1, Eff.M_bind at 1, Eff.get at 1.
  unfold mbind at 1, Eff.M_bind at 1, App.on_dialogs at 1.
  rewrite Hrun. reflexivity.
Qed.

(** X27.  With valid settings, [_establish_serial_connection] calls
    [connect] once, and what follows is decided by the driver.  When the
    port opens, the session holds it and is connected, the button reads
    Disconnect, and no dialog is shown.  When the driver raises
    [SerialException], the session is not connected, no port is opened, the
    button is as it was, and one connection error is shown.  When the driver
    raises anything else, the handler itself raises it: no dialog is shown,
    and the session is as it was. *)
Theorem establish_valid_settings (st : App.State) (baud_rate : Z) :
  let settings := App.ui st in
  let path := connect_path (App.selected_os settings) (App.port_selection settings) in
  let run := App._establish_serial_connection host int_of_text format st in
  settings_valid (App.selected_os settings) (App.port_selection settings)
    (App.baud_rate_input settings) ->
  int_of_text (App.baud_rate_input settings) = Some baud_rate ->
  match open_port host path (Some baud_rate) (Some SERIAL_TIMEOUT) with
  | None =>
      run.1 = Eff.Done tt
      /\ serial_connection (self (Wire.session (App.line run.2))) = Some path
      /\ is_connected (self (Wire.session (App.line run.2))) = true
      /\ App.button_text (App.ui run.2) = "Disconnect"
      /\ App.dialogs (App.ui run.2) = App.dialogs settings
  | Some e =>
      if serial_exception e then
        forall message,
          format "Failed to connect to {port}: {error}"
            [("port", App.port_selection settings); ("error", "Connection failed" : text)]
          = Ok message ->
          run.1 = Eff.Done tt
          /\ is_connected (self (Wire.session (App.line run.2))) = false
          /\ world (Wire.session (App.line run.2)) = world (Wire.session (App.line st))
          /\ App.button_text (App.ui run.2) = App.button_text settings
          /\ App.dialogs (App.ui run.2)
             = App.dialogs settings ++ [Gui.ShowError "Connection Error" message]
      else
        run.1 = Eff.Fail e /\ run.2 = st
  end.
Proof.
  intros settings path run Hvalid Hint. unfold run, path, settings.
  rewrite (establish_validated st baud_rate Hvalid Hint).
  pose proof Hvalid as (_ & _ & _ & Hos).
  destruct st as [[session sent incoming callback received]
                    [os port baud command button shown]].
  cbn [App.ui App.line App.selected_os App.port_selection App.baud_rate_input
       App.button_text App.dialogs Wire.session] in *.
  cbv [mbind Eff.M_bind App.on_line Wire.lift].
  cbn [App.ui App.line Wire.session].
  destruct (open_port host (connect_path os port) (Some baud_rate) (Some SERIAL_TIMEOUT))
    as [e|] eqn:Hopen.
  - destruct (serial_exception e) eqn:He.
    + destruct e; try discriminate He.
      rewrite (connect_refused _ _ _ _ Hos Hopen).
      intros message Hformat.
      unfold Gui.handle_connection_failure. run_gui.
      rewrite message_connection_failed, title_connection_error, Hformat.
      by repeat split.
    + rewrite (connect_raises _ _ _ _ _ Hos Hopen He). by split.
  - rewrite (connect_opens _ _ _ _ Hos Hopen). by repeat split.
Qed.


Lemma establish_opened (st : App.State) (baud_rate : Z) :
  let settings := App.ui st in
  let path := connect_path (App.selected_os settings) (App.port_selection settings) in
  let session := Wire.session (App.line st) in
  settings_valid (App.selected_os settings) (App.port_selection settings)
    (App.baud_rate_input settings) ->
  int_of_text (App.baud_rate_input settings) = Some baud_rate ->
  open_port host path (Some baud_rate) (Some SERIAL_TIMEOUT) = None ->
  App._establish_serial_connection host int_of_text format st
  = (Eff.Done tt,
     {| App.line :=
          Wire.with_session
            {| self := {| serial_connection := Some path; is_connected := true;
                          should_monitor_data := true;
                          data_monitoring_thread := Some (threads (world session)) |};
               world := {| open_handles := path :: open_handles (world session);
                           threads := S (threads (world session));
                           stdout := stdout (world session) |} |}
            (App.line st);
        App.ui := {| App.selected_os := App.selected_os settings;
                     App.port_selection := App.port_selection settings;
                     App.baud_rate_input := App.baud_rate_input settings;
                     App.command_input := App.command_input settings;
                     App.button_text := "Disconnect";
                     App.dialogs := App.dialogs settings |} |}).
Proof.
  intros settings path session Hvalid Hint Hopen. unfold path, session, settings in *.
  rewrite (establish_validated st baud_rate Hvalid Hint).
  pose proof Hvalid as (_ & _ & _ & Hos).
  cbv [mbind Eff.M_bind App.on_line Wire.lift].
  rewrite (connect_opens _ _ _ _ Hos Hopen). reflexivity.
Qed.

(** X28.  Pressing the connection button twice, on a window that is not
    connected and has valid settings, when the port opens and closes: the
    first press connects and turns the button to Disconnect, the second
    closes the object the first one opened, so that the open handles are
    exactly those there were before, leaves the session idle and turns the
    button back to Connect; no dialog is shown on the way. *)
Theorem toggle_twice (st : App.State) (baud_rate : Z) :
  let settings := App.ui st in
  let path := connect_path (App.selected_os settings) (App.port_selection settings) in
  let toggle := App._toggle_serial_connection host int_of_text format in
  let st1 := (toggle st).2 in
  let st2 := (toggle st1).2 in
  is_connected (self (Wire.session (App.line st))) = false ->
  settings_valid (App.selected_os settings) (App.port_selection settings)
    (App.baud_rate_input settings) ->
  int_of_text (App.baud_rate_input settings) = Some baud_rate ->
  open_port host path (Some baud_rate) (Some SERIAL_TIMEOUT) = None ->
  close_port host path = None ->
  (toggle st).1 = Eff.Done tt
  /\ is_connected (self (Wire.session (App.line st1))) = true
  /\ (path ∈ open_handles (world (Wire.session (App.line st1))))
  /\ App.button_text (App.ui st1) = "Disconnect"
  /\ (toggle st1).1 = Eff.Done tt
  /\ self (Wire.session (App.line st2))
     = idle (Some (threads (world (Wire.session (App.line st)))))
  /\ open_handles (world (Wire.session (App.line st2)))
     = open_handles (world (Wire.session (App.line st)))
  /\ App.button_text (App.ui st2) = "Connect"
  /\ App.dialogs (App.ui st2) = App.dialogs settings.
Proof.
  intros settings path toggle st1 st2 Hidle Hvalid Hint Hopen Hclose.
  assert (toggle st = App._establish_serial_connection host int_of_text format st) as Hfirst.
  { unfold toggle, App._toggle_serial_connection.
    unfold mbind, Eff.M_bind, Eff.get. by rewrite Hidle. }
  unfold st2, st1. rewrite Hfirst.
  rewrite (establish_opened st baud_rate Hvalid Hint Hopen).
  fold settings path. cbn [fst snd].
  unfold toggle, App._toggle_serial_connection, App._close_serial_connection.
  cbv [mbind Eff.M_bind Eff.get App.on_line Wire.lift Wire.with_session].
  cbn [App.line App.ui Wire.session self is_connected].
  rewrite (disconnect_closed host _ _ _ _ _ Hclose).
  cbn [fst snd App.line App.ui Wire.session self world open_handles App.button_text
       App.dialogs threads].
  repeat split.
  - apply list_elem_of_here.
  - apply close_one_opened.
Qed.

Lemma message_no_connection :
  default ("no_connection" : text) (Gui.ERROR_MESSAGES !! "no_connection")
  = "No active connection. Please connect to a device first.".
Proof. by_evaluation. Qed.

Lemma message_empty_command :
  default ("empty_command" : text) (Gui.ERROR_MESSAGES !! "empty_command")
  = "Please enter a command to send".
Proof. by_evaluation. Qed.

Lemma title_input_error : Gui.title_for "input_error" = "Input Error".
Proof. by_evaluation. Qed.

(** X29.  [_send_serial_command] on a session that holds a handle whose
    write succeeds.  When the session is connected and the command field
    holds more than blanks, the bytes of the trimmed command are written
    once to the handle, the field is cleared and no dialog is shown.
    Otherwise nothing is written, the field keeps its text, and one warning
    is shown. *)
Theorem window_sends_trimmed_command (st : App.State) (connection : handle) :
  let session := Wire.session (App.line st) in
  let command := Text.strip (App.command_input (App.ui st)) in
  let run := App._send_serial_command write_port format st in
  serial_connection (self session) = Some connection ->
  write_port connection (Wire.encode command) = None ->
  run.1 = Eff.Done tt
  /\ if is_connected (self session) && negb (Gui.empty command) then
       Wire.sent (App.line run.2)
       = Wire.sent (App.line st) ++ [(connection, Wire.encode command)]
       /\ App.command_input (App.ui run.2) = []
       /\ App.dialogs (App.ui run.2) = App.dialogs (App.ui st)
     else
       Wire.sent (App.line run.2) = Wire.sent (App.line st)
       /\ App.command_input (App.ui run.2) = App.command_input (App.ui st)
       /\ exists message,
            App.dialogs (App.ui run.2)
            = App.dialogs (App.ui st) ++ [Gui.ShowWarning "Input Error" message].
Proof.
  intros session command run Hconn Hwrite. unfold run, session in *.
  unfold App._send_serial_command, Gui.handle_command_validation.
  run_gui. fold command.
  rewrite message_no_connection, message_empty_command, title_input_error.
  destruct (is_connected (self (Wire.session (App.line st)))) eqn:Hflag; cbn [negb andb].
  - destruct (Gui.empty command) eqn:Hempty; cbn [negb fst snd App.line App.ui App.dialogs
      App.command_input].
    + repeat split. by eexists.
    + unfold Wire.send_command, Wire.serial_write.
      cbv [mbind Eff.M_bind Wire.lift get_self Eff.try_except Eff.modify mret Eff.M_ret].
      cbn [fst snd].
      destruct (App.line st) as [s sent incoming callback received] eqn:Hline.
      cbn [Wire.session Wire.with_session self] in *.
      rewrite Hflag, Hconn, Hwrite. by repeat split.
  - cbn [fst snd App.line App.ui App.dialogs App.command_input].
    repeat split. by eexists.
Qed.

End WindowExtras.
(** * The lines of the example sender, read back *)

Section RoundTrip.
Context {F : Type} (lib : PyLib F).
Import Text TextFacts.

Local Abbreviation float_char := Example.float_char.
Local Abbreviation printable := (Example.printable lib).
Local Abbreviation sendable := Example.sendable.
Local Abbreviation generated := Example.generated.
Local Abbreviation field := (Example.field lib).

(** No character of the text of a float is a separator, a blank or a
    brace. *)
Lemma float_char_plain (c : ascii) :
  float_char c = true ->
  c <> ","%char /\ c <> "="%char /\ c <> "}"%char /\ isspace c = false.
Proof.
  destruct c as [[] [] [] [] [] [] [] []]; vm_compute; intros H;
    try discriminate H; repeat split; congruence.
Qed.

Lemma float_text_plain (s : text) (c : ascii) :
  forallb float_char s = true -> c ∈ s ->
  c <> ","%char /\ c <> "="%char /\ c <> "}"%char /\ isspace c = false.
Proof.
  intros Hall Hin. apply float_char_plain.
  rewrite forallb_forall in Hall. apply Hall. by apply list_elem_of_In.
Qed.

Lemma float_text_no (s : text) (c : ascii) :
  forallb float_char s = true -> float_char c = false -> c ∉ s.
Proof.
  intros Hall Hc Hin. rewrite forallb_forall in Hall.
  apply list_elem_of_In, Hall in Hin. congruence.
Qed.

(** Texts that [lstrip] leaves as they are. *)
Lemma lstrip_length (s : text) : length (lstrip s) <= length s.
Proof. induction s as [|c s IH]; simpl; [lia|]. destruct (isspace c); simpl; lia. Qed.

Lemma lstrip_fixed_head (c : ascii) (s : text) :
  lstrip (c :: s) = c :: s -> isspace c = false.
Proof.
  simpl. destruct (isspace c); [|done]. intros H.
  pose proof (lstrip_length s) as Hlen. rewrite H in Hlen. simpl in Hlen. lia.
Qed.

Lemma lstrip_same_length (s : text) : length (lstrip s) = length s -> lstrip s = s.
Proof.
  destruct s as [|c s]; simpl; [done|]. destruct (isspace c); [|done].
  intros H. pose proof (lstrip_length s). lia.
Qed.

Lemma lstrip_fixed_app (s t : text) (c : ascii) :
  lstrip s = s -> isspace c = false -> lstrip (s ++ c :: t) = s ++ c :: t.
Proof.
  intros Hs Hc. destruct s as [|x s].
  - simpl. by rewrite Hc.
  - apply lstrip_fixed_head in Hs. simpl. by rewrite Hs.
Qed.

Lemma lstrip_float_text (s : text) : forallb float_char s = true -> lstrip s = s.
Proof.
  destruct s as [|c s]; [done|]. intros Hall. simpl in *.
  apply andb_true_iff in Hall as [Hc _].
  apply float_char_plain in Hc as (_ & _ & _ & Hc). by rewrite Hc.
Qed.

Lemma forallb_rev {A} (test : A -> bool) (l : list A) :
  forallb test (rev l) = forallb test l.
Proof.
  apply eq_true_iff_eq. rewrite !forallb_forall. split; intros H x Hx; apply H.
  - by apply in_rev in Hx.
  - by apply in_rev.
Qed.

Lemma strip_float_text (s : text) : forallb float_char s = true -> strip s = s.
Proof.
  intros Hall. unfold strip, rstrip.
  rewrite (lstrip_float_text (rev s)) by by rewrite forallb_rev.
  rewrite rev_involutive. by apply lstrip_float_text.
Qed.

Lemma strip_fixed (s : text) : strip s = s -> lstrip s = s /\ lstrip (rev s) = rev s.
Proof.
  intros Hs. assert (lstrip (rev s) = rev s) as Hr.
  { apply lstrip_same_length. apply (f_equal length) in Hs.
    unfold strip, rstrip in Hs.
    pose proof (lstrip_length (rev (lstrip (rev s)))) as H1.
    pose proof (lstrip_length (rev s)) as H2.
    rewrite length_rev in H1. rewrite length_rev in *. lia. }
  split; [|done]. unfold strip, rstrip in Hs. by rewrite Hr, rev_involutive in Hs.
Qed.

(** A line that begins with a trimmed text and a separator, and ends with
    a separator and the text of a float, has no blank to trim. *)
Lemma strip_line (first middle last : text) (sep1 sep2 : ascii) :
  strip first = first -> isspace sep1 = false -> isspace sep2 = false ->
  forallb float_char last = true ->
  strip (first ++ sep1 :: middle ++ sep2 :: last) = first ++ sep1 :: middle ++ sep2 :: last.
Proof.
  intros Hfirst Hsep1 Hsep2 Hlast. apply strip_fixed in Hfirst as [Hfirst _].
  unfold strip, rstrip.
  assert (lstrip (rev (first ++ sep1 :: middle ++ sep2 :: last))
          = rev (first ++ sep1 :: middle ++ sep2 :: last)) as ->.
  { rewrite rev_app_distr. cbn [rev]. rewrite rev_app_distr. cbn [rev].
    rewrite <- !app_assoc. cbn [app].
    apply lstrip_fixed_app; [|done]. apply lstrip_float_text. by rewrite forallb_rev. }
  rewrite rev_involutive. by apply lstrip_fixed_app.
Qed.

Lemma not_braced (first rest : text) (sep : ascii) :
  startswith "{" first = false -> sep <> "{"%char ->
  braced (first ++ sep :: rest) = false.
Proof.
  intros Hfirst Hsep. unfold braced. apply andb_false_iff. left.
  destruct first as [|c first]; [|done].
  change (Ascii.eqb "{" sep && true = false).
  rewrite andb_true_r. apply Ascii.eqb_neq. congruence.
Qed.

Lemma generated_fields (device_id : text) (a h sm st w lo la : F) :
  let data := generated device_id a h sm st w lo la in
  field data "device_id" = Some device_id
  /\ field data "ambient_temp" = Some (repr lib (VFloat a))
  /\ field data "humidity" = Some (repr lib (VFloat h))
  /\ field data "soil_moisture" = Some (repr lib (VFloat sm))
  /\ field data "soil_temp" = Some (repr lib (VFloat st))
  /\ field data "wind_speed" = Some (repr lib (VFloat w))
  /\ field data "longitude" = Some (repr lib (VFloat lo))
  /\ field data "latitude" = Some (repr lib (VFloat la)).
Proof.
  unfold Example.generated, Example.field. repeat split;
    repeat (rewrite lookup_insert_ne by done); by rewrite lookup_insert_eq.
Qed.

Lemma float_or_none_printable (v : F) :
  printable v -> float_or_none lib (repr lib (VFloat v)) = VFloat v.
Proof. intros [_ Hread]. unfold float_or_none. by rewrite Hread. Qed.

Lemma join_without (c sep : ascii) (pieces : list text) :
  c <> sep -> Forall (fun p => c ∉ p) pieces -> c ∉ join sep pieces.
Proof.
  intros Hne. induction 1 as [|p ps Hp Hps IH]; [apply not_elem_of_nil|].
  destruct ps as [|q ps]; [done|].
  change (join sep (p :: q :: ps)) with (p ++ sep :: join sep (q :: ps)).
  rewrite not_elem_of_app, not_elem_of_cons. by repeat split.
Qed.

(** The pieces of both lines hold no comma. *)
Ltac no_separator :=
  repeat (apply Forall_cons; split;
          [first [ done
                 | by apply float_text_no
                 | apply not_elem_of_app; split;
                   [ by apply contains_false
                   | apply not_elem_of_cons; split;
                     [done | first [done | by apply float_text_no]] ] ]|]);
  try by constructor.

(** The delimited line. *)
Lemma csv_read_back (device_id : text) (a h sm st w lo la : F) :
  sendable device_id ->
  Forall printable [a; h; sm; st; w; lo; la] ->
  _parse_sensor_data lib
    (join "," [device_id; repr lib (VFloat a); repr lib (VFloat h); repr lib (VFloat sm);
               repr lib (VFloat st); repr lib (VFloat w); repr lib (VFloat lo);
               repr lib (VFloat la)])
  = Some (record device_id (VFloat a) (VFloat h) (VFloat sm) (VFloat st) (VFloat w)
            (VFloat lo) (VFloat la)).
Proof.
  intros (Hstrip & Hcomma & Hequals & Hbrace) Hall.
  pose proof Hall as Hprintable.
  repeat (apply Forall_cons in Hall as [[?Hchars ?Hread] Hall]).
  set (pieces := [device_id; _; _; _; _; _; _; _]).
  assert (Forall (fun p => ","%char ∉ p) pieces) as Hpieces by (unfold pieces; no_separator).
  assert (Forall (fun p => "="%char ∉ p) pieces) as Hplain by (unfold pieces; no_separator).
  assert (strip (join "," pieces) = join "," pieces) as Hline.
  { assert (join "," pieces
            = device_id ++ ","%char
                :: (repr lib (VFloat a) ++ ","%char :: repr lib (VFloat h) ++ ","%char
                      :: repr lib (VFloat sm) ++ ","%char :: repr lib (VFloat st)
                      ++ ","%char :: repr lib (VFloat w) ++ ","%char
                      :: repr lib (VFloat lo))
                ++ ","%char :: repr lib (VFloat la)) as ->.
    { unfold pieces. cbn [join]. repeat (rewrite <- app_assoc; cbn [app]). reflexivity. }
    by apply strip_line. }
  unfold _parse_sensor_data. cbv zeta. rewrite Hline.
  assert (braced (join "," pieces) = false) as ->.
  { unfold pieces. cbn [join]. by apply not_braced. }
  rewrite (contains_not_in "=") by by apply join_without.
  assert (contains "," (join "," pieces) = true) as ->.
  { apply contains_true. unfold pieces. cbn [join].
    apply elem_of_app. right. apply list_elem_of_here. }
  rewrite csv_outcome, split_join by done.
  unfold pieces. rewrite bool_decide_eq_true_2 by (simpl; lia).
  rewrite Hstrip. unfold positional, optional_value. cbn [lookup list_lookup].
  apply Forall_forall with (x := a) in Hprintable as Ha; [|in_list].
  rewrite !float_or_none_printable; try done.
  all: by split.
Qed.

Lemma omap_all {A B} (f : A -> option B) (l : list A) (k : list B) :
  Forall2 (fun x y => f x = Some y) l k -> omap f l = k.
Proof.
  induction 1 as [|x y l k Hx _ IH]; [done|].
  change (omap f (x :: l)) with (match f x with Some e => e :: omap f l | None => omap f l end).
  by rewrite Hx, IH.
Qed.

(** What the pairs of the key=value line write. *)
Lemma device_pair_entry (device_id : text) :
  strip device_id = device_id ->
  pair_entry lib ("device_id" ++ "="%char :: device_id) = Some ("device_id", VStr device_id).
Proof.
  intros Hstrip. unfold pair_entry. rewrite pair_parts_cut by by apply contains_false.
  cbn [mbind option_bind].
  assert (key_field (lower (strip "device_id")) = Some "device_id") as -> by by_evaluation.
  cbn [mbind option_bind]. unfold field_value.
  by rewrite bool_decide_eq_true_2, Hstrip.
Qed.

Lemma sensor_pair_entry (key : text) (name : string) (v : F) :
  key_field (lower (strip key)) = Some name -> name <> "device_id" ->
  contains "=" key = false -> printable v ->
  pair_entry lib (key ++ "="%char :: repr lib (VFloat v)) = Some (name, VFloat v).
Proof.
  intros Hkey Hname Hcut [Hchars Hread].
  unfold pair_entry. rewrite pair_parts_cut by by apply contains_false.
  cbn [mbind option_bind]. rewrite Hkey. cbn [mbind option_bind]. unfold field_value.
  rewrite bool_decide_eq_false_2 by done.
  rewrite strip_float_text by done. unfold float_or_none. by rewrite Hread.
Qed.

Lemma key_value_pairs (device_id r1 r2 r3 r4 r5 r6 r7 : text) :
  ("device_id=" ++ device_id ++ ",ambient_temp=" ++ r1 ++ ",humidity=" ++ r2
   ++ ",soil_moisture=" ++ r3 ++ ",soil_temp=" ++ r4 ++ ",wind_speed=" ++ r5
   ++ ",longitude=" ++ r6 ++ ",latitude=" ++ r7 : text)
  = join ","
      [ "device_id" ++ "="%char :: device_id; "ambient_temp" ++ "="%char :: r1;
        "humidity" ++ "="%char :: r2; "soil_moisture" ++ "="%char :: r3;
        "soil_temp" ++ "="%char :: r4; "wind_speed" ++ "="%char :: r5;
        "longitude" ++ "="%char :: r6; "latitude" ++ "="%char :: r7 ].
Proof. simpl. repeat (rewrite <- app_assoc; simpl). reflexivity. Qed.

(** The key=value line. *)
Lemma kv_read_back (device_id : text) (a h sm st w lo la : F) :
  sendable device_id ->
  Forall printable [a; h; sm; st; w; lo; la] ->
  _parse_sensor_data lib
    (join ","
       [ "device_id" ++ "="%char :: device_id;
         "ambient_temp" ++ "="%char :: repr lib (VFloat a);
         "humidity" ++ "="%char :: repr lib (VFloat h);
         "soil_moisture" ++ "="%char :: repr lib (VFloat sm);
         "soil_temp" ++ "="%char :: repr lib (VFloat st);
         "wind_speed" ++ "="%char :: repr lib (VFloat w);
         "longitude" ++ "="%char :: repr lib (VFloat lo);
         "latitude" ++ "="%char :: repr lib (VFloat la) ])
  = Some (record device_id (VFloat a) (VFloat h) (VFloat sm) (VFloat st) (VFloat w)
            (VFloat lo) (VFloat la)).
Proof.
  intros (Hstrip & Hcomma & Hequals & Hbrace) Hall.
  pose proof Hall as Hprintable.
  repeat (apply Forall_cons in Hall as [[?Hchars ?Hread] Hall]).
  set (pairs := [_; _; _; _; _; _; _; _]).
  assert (Forall (fun p => ","%char ∉ p) pairs) as Hpairs by (unfold pairs; no_separator).
  assert (strip (join "," pairs) = join "," pairs) as Hline.
  { assert (join "," pairs
            = "device_id" ++ "="%char
                :: (device_id ++ ","%char :: "ambient_temp" ++ "="%char
                      :: repr lib (VFloat a) ++ ","%char :: "humidity" ++ "="%char
                      :: repr lib (VFloat h) ++ ","%char :: "soil_moisture" ++ "="%char
                      :: repr lib (VFloat sm) ++ ","%char :: "soil_temp" ++ "="%char
                      :: repr lib (VFloat st) ++ ","%char :: "wind_speed" ++ "="%char
                      :: repr lib (VFloat w) ++ ","%char :: "longitude" ++ "="%char
                      :: repr lib (VFloat lo) ++ ","%char :: "latitude")
                ++ "="%char :: repr lib (VFloat la)) as ->.
    { unfold pairs. simpl. repeat (rewrite <- app_assoc; simpl). reflexivity. }
    by apply strip_line. }
  unfold _parse_sensor_data. cbv zeta. rewrite Hline.
  assert (braced (join "," pairs) = false) as -> by done.
  assert (contains "=" (join "," pairs) = true) as ->.
  { apply contains_true. unfold pairs. cbn [join].
    rewrite <- app_assoc. apply elem_of_app. right. apply list_elem_of_here. }
  rewrite kv_by_entries, split_join by done.
  unfold pairs.
  assert (omap (pair_entry lib) pairs
          = [ ("device_id", VStr device_id); ("ambient_temperature", VFloat a);
              ("humidity", VFloat h); ("soil_moisture", VFloat sm);
              ("soil_temperature", VFloat st); ("wind_speed", VFloat w);
              ("longitude", VFloat lo); ("latitude", VFloat la) ]) as Hentries.
  { unfold pairs. apply omap_all. repeat constructor.
    - by apply device_pair_entry.
    - apply sensor_pair_entry; first [done | by split | by_evaluation].
    - apply sensor_pair_entry; first [done | by split | by_evaluation].
    - apply sensor_pair_entry; first [done | by split | by_evaluation].
    - apply sensor_pair_entry; first [done | by split | by_evaluation].
    - apply sensor_pair_entry; first [done | by split | by_evaluation].
    - apply sensor_pair_entry; first [done | by split | by_evaluation].
    - apply sensor_pair_entry; first [done | by split | by_evaluation]. }
  fold pairs. rewrite Hentries. reflexivity.
Qed.

(** X30.  The lines of the example sender are read back as the reading
    that was sent.  For a device id a line can carry and floats whose text
    reads back as the same float, both the comma-separated line and the
    key=value line that the sender formats from the generated data decode
    to the reading with that device id and those seven values. *)
Theorem formatted_lines_read_back (device_id : text) (ambient_temp humidity soil_moisture
    soil_temp wind_speed longitude latitude : F) :
  let data := generated device_id ambient_temp humidity soil_moisture soil_temp
                wind_speed longitude latitude in
  let reading := record device_id (VFloat ambient_temp) (VFloat humidity)
                   (VFloat soil_moisture) (VFloat soil_temp) (VFloat wind_speed)
                   (VFloat longitude) (VFloat latitude) in
  sendable device_id ->
  Forall printable [ambient_temp; humidity; soil_moisture; soil_temp; wind_speed;
                    longitude; latitude] ->
  exists csv_line key_value_line,
    Example.format_csv_data lib data = Some csv_line
    /\ Example.format_key_value_data lib data = Some key_value_line
    /\ _parse_sensor_data lib csv_line = Some reading
    /\ _parse_sensor_data lib key_value_line = Some reading.
Proof.
  intros data reading Hid Hall.
  destruct (generated_fields device_id ambient_temp humidity soil_moisture soil_temp
              wind_speed longitude latitude)
    as (H0 & H1 & H2 & H3 & H4 & H5 & H6 & H7).
  fold data in H0, H1, H2, H3, H4, H5, H6, H7.
  eexists _, _. split; [|split].
  - unfold Example.format_csv_data. rewrite H0, H1, H2, H3, H4, H5, H6, H7.
    cbn [mbind option_bind]. reflexivity.
  - unfold Example.format_key_value_data. rewrite H0, H1, H2, H3, H4, H5, H6, H7.
    cbn [mbind option_bind]. reflexivity.
  - split.
    + by apply (csv_read_back device_id).
    + rewrite key_value_pairs. by apply kv_read_back.
Qed.

End RoundTrip.
(** * The further properties at sample inputs *)

(** A piece of a line holds no comma. *)
Ltac no_comma := apply TextFacts.contains_false; by_evaluation.

Lemma structured_recovers_fields_witness :
  _parse_sensor_data Ref.lib Samples.structured_line
  = Some (record "T1" (VFloat (51 # 2)) (VFloat (301 # 5)) (VFloat (83 # 2))
            (VFloat (45 # 2)) (VFloat (7 # 2)) (VFloat (49 # 4)) (VFloat (91 # 2))).
Proof.
  apply (structured_recovers_fields Ref.lib Samples.structured_line
           Samples.structured_object); by_evaluation.
Defined.

Lemma structured_overflow_fails_witness :
  _parse_sensor_data Ref.lib Samples.overflow_line = None.
Proof.
  apply (structured_overflow_fails Ref.lib Samples.overflow_line Samples.overflow_object
           "humidity" (10 ^ 309)).
  - by_evaluation.
  - by_evaluation.
  - in_list.
  - by_evaluation.
  - by_evaluation.
Defined.

Lemma structured_lenient_witness :
  _parse_sensor_data Ref.lib Samples.lenient_line
  = Some (record (str Ref.lib (default (VStr "unknown") (Samples.lenient_object !! "device_id")))
            (plain_float Ref.lib (Samples.lenient_object !! "ambient_temp"))
            (plain_float Ref.lib (Samples.lenient_object !! "humidity"))
            (plain_float Ref.lib (Samples.lenient_object !! "soil_moisture"))
            (plain_float Ref.lib (Samples.lenient_object !! "soil_temp"))
            (plain_float Ref.lib (Samples.lenient_object !! "wind_speed"))
            (plain_float Ref.lib (Samples.lenient_object !! "longitude"))
            (plain_float Ref.lib (Samples.lenient_object !! "latitude"))).
Proof.
  assert (braced (Text.strip Samples.lenient_line) = true) as Hb by by_evaluation.
  assert (json_loads Ref.lib (Text.strip Samples.lenient_line)
          = Some (VDict Samples.lenient_object)) as Hd by by_evaluation.
  assert (Samples.lenient_object !! "ambient_temp" = None) as H1 by by_evaluation.
  assert (Samples.lenient_object !! "humidity" = Some (VStr "61.5")) as H2 by by_evaluation.
  assert (Samples.lenient_object !! "soil_moisture" = None) as H3 by by_evaluation.
  assert (Samples.lenient_object !! "soil_temp" = Some VNone) as H4 by by_evaluation.
  assert (Samples.lenient_object !! "wind_speed" = None) as H5 by by_evaluation.
  assert (Samples.lenient_object !! "longitude" = None) as H6 by by_evaluation.
  assert (Samples.lenient_object !! "latitude" = None) as H7 by by_evaluation.
  refine (structured_lenient Ref.lib Samples.lenient_line Samples.lenient_object Hb Hd _).
  repeat (apply Forall_cons; split); try apply Forall_nil_2.
  - by rewrite H1.
  - by rewrite H2.
  - by rewrite H3.
  - by rewrite H4.
  - by rewrite H5.
  - by rewrite H6.
  - by rewrite H7.
Defined.

Lemma reading_wellformed_witness : wellformed Samples.delimited_reading.
Proof.
  apply (reading_wellformed Ref.lib "T2,26.1,58.9,42.3,23.5"). by_evaluation.
Defined.

Lemma surrounding_whitespace_ignored_witness :
  _parse_sensor_data Ref.lib (" " ++ "T2,26.1,58.9,42.3,23.5" ++ Samples.line_end)
  = _parse_sensor_data Ref.lib "T2,26.1,58.9,42.3,23.5".
Proof.
  apply (surrounding_whitespace_ignored Ref.lib " " "T2,26.1,58.9,42.3,23.5" Samples.line_end).
  - repeat constructor.
  - repeat constructor.
Defined.

Lemma unrecognized_pairs_ignored_witness :
  _parse_key_value_format Ref.lib
    (Text.join "," [ "device_id=A" : text; "junk" : text; "colour=red" : text;
                     "humidity=1" : text ])
  = _parse_key_value_format Ref.lib
      (Text.join ","
         (filter (fun p => is_Some (pair_field p))
            [ "device_id=A" : text; "junk" : text; "colour=red" : text;
              "humidity=1" : text ])).
Proof.
  apply (unrecognized_pairs_ignored Ref.lib).
  repeat (apply Forall_cons; split; [no_comma|]). apply Forall_nil_2.
Defined.

Lemma pair_order_irrelevant_witness :
  _parse_key_value_format Ref.lib
    (Text.join "," [ "device_id=A" : text; "humidity=1" : text ])
  = _parse_key_value_format Ref.lib
      (Text.join "," [ "humidity=1" : text; "device_id=A" : text ]).
Proof.
  apply (pair_order_irrelevant Ref.lib).
  - apply perm_swap.
  - replace (omap pair_field [ "device_id=A" : text; "humidity=1" : text ])
      with [ "device_id"; "humidity" ] by by_evaluation.
    apply NoDup_cons. split; [|apply NoDup_singleton].
    rewrite list_elem_of_singleton. discriminate.
  - repeat (apply Forall_cons; split; [no_comma|]). apply Forall_nil_2.
Defined.

Lemma delimited_reads_eight_witness :
  _parse_csv_format Ref.lib
    (Text.join "," [ "T" : text; "1" : text; "2" : text; "3" : text; "4" : text;
                     "5" : text; "6" : text; "7" : text; "8" : text ])
  = _parse_csv_format Ref.lib
      (Text.join ","
         (take 8 [ "T" : text; "1" : text; "2" : text; "3" : text; "4" : text;
                   "5" : text; "6" : text; "7" : text; "8" : text ])).
Proof.
  apply (delimited_reads_eight Ref.lib).
  repeat (apply Forall_cons; split; [no_comma|]). apply Forall_nil_2.
Defined.



Lemma disconnect_survives_close_failure_witness :
  Serial.disconnect WindowSpec.stuck WindowSpec.connected
  = (Ok tt,
     {| Serial.self := SerialSpec.idle (Some 0);
        Serial.world :=
          {| Serial.open_handles := [ "/dev/ttyUSB0" : text ]; Serial.threads := 1;
             Serial.stdout := [ "Error while closing connection" : text ] |} |}).
Proof.
  exact (disconnect_survives_close_failure WindowSpec.stuck "/dev/ttyUSB0" true true
           (Some 0) (Serial.world WindowSpec.connected) eq_refl).
Defined.

Lemma cleanup_leaves_disconnected_witness :
  Wire.cleanup SerialSpec.bench WindowSpec.connected
  = (Ok tt,
     {| Serial.self := SerialSpec.idle (Some 0);
        Serial.world :=
          {| Serial.open_handles := []; Serial.threads := 1;
             Serial.stdout := [ Serial.connection_closed ] |} |})
  /\ Serial.is_connected
       (Serial.self
          {| Serial.self := SerialSpec.idle (Some 0);
             Serial.world :=
               {| Serial.open_handles := []; Serial.threads := 1;
                  Serial.stdout := [ Serial.connection_closed ] |} |})
     = false.
Proof.
  assert (Wire.cleanup SerialSpec.bench WindowSpec.connected
          = (Ok tt,
             {| Serial.self := SerialSpec.idle (Some 0);
                Serial.world :=
                  {| Serial.open_handles := []; Serial.threads := 1;
                     Serial.stdout := [ Serial.connection_closed ] |} |})) as Hrun
    by by_evaluation.
  split; [exact Hrun|].
  exact (proj1 (cleanup_leaves_disconnected SerialSpec.bench WindowSpec.connected _ Hrun)).
Defined.

Lemma scan_unsupported_platform_witness :
  Serial.scan_available_ports WindowSpec.unknown_platform SerialSpec.boot
  = (Raise EnvironmentError, SerialSpec.boot).
Proof.
  apply (scan_unsupported_platform WindowSpec.unknown_platform SerialSpec.boot).
  by_evaluation.
Defined.

Lemma scan_closes_its_probes_witness :
  exists found,
    Serial.scan_available_ports SerialSpec.bench WindowSpec.connected
    = (Ok found, WindowSpec.connected).
Proof.
  assert (SerialSpec.supported (Serial.platform SerialSpec.bench) = true) as Hplatform
    by by_evaluation.
  assert (forall port e, Serial.open_port SerialSpec.bench port None None = Some e ->
                         Serial.io_error e = true) as Hopen.
  { intros port e. simpl. repeat case_match; intros [= <-]; reflexivity. }
  assert (forall port, Serial.close_port SerialSpec.bench port = None) as Hclose
    by (intros port; reflexivity).
  exact (scan_closes_its_probes SerialSpec.bench WindowSpec.connected
           Hplatform Hopen Hclose).
Defined.

Lemma send_command_connected_witness :
  exists l',
    Wire.send_command WindowSpec.write_port "PING" Samples.monitored = (Eff.Done true, l')
    /\ Wire.sent l'
       = Wire.sent Samples.monitored
         ++ [(("/dev/ttyUSB0" : text), Wire.encode "PING")]
    /\ Serial.self (Wire.session l') = Serial.self (Wire.session Samples.monitored)
    /\ Serial.stdout (Serial.world (Wire.session l'))
       = Serial.stdout (Serial.world (Wire.session Samples.monitored))
         ++ [ "Command sent successfully: " ++ "PING" ].
Proof.
  exact (proj1 (send_command_connected WindowSpec.write_port "PING" "/dev/ttyUSB0"
                  Samples.monitored eq_refl eq_refl) eq_refl).
Defined.

Lemma monitor_delivers_in_order_witness :
  exists l',
    Wire._monitor_data WindowSpec.decode 4 Samples.monitored = (Eff.Done (Some tt), l')
    /\ Wire.received l'
       = Wire.received Samples.monitored
         ++ map WindowSpec.decode
              (filter (fun data => data <> []) [ [72; 105]; []; [79; 75] ]%N)
    /\ Wire.incoming l' = [ Wire.Bytes [1%N] ]
    /\ Serial.self (Wire.session l') = Serial.self (Wire.session Samples.monitored)
    /\ Wire.sent l' = Wire.sent Samples.monitored.
Proof.
  apply (monitor_delivers_in_order WindowSpec.decode [ [72; 105]; []; [79; 75] ]%N
           [ Wire.Bytes [1%N] ] "/dev/ttyUSB0" 4 Samples.monitored);
    try reflexivity.
  simpl. lia.
Defined.

Lemma save_true_means_stored_witness :
  exists record,
    _parse_sensor_data Ref.lib "T2,26.1,58.9,42.3,23.5" = Some record
    /\ Store.table
         (Store.db
            {| Store.self := Store.self StoreSpec.ready;
               Store.db :=
                 {| Store.engine := Store.engine (Store.db StoreSpec.ready);
                    Store.SessionLocal := Store.SessionLocal (Store.db StoreSpec.ready);
                    Store.table := [ Samples.delimited_reading ];
                    Store.open_sessions := 0; Store.pending := [];
                    Store.stdout := [ "Saved sensor data to database" : text ] |} |})
       = Store.table (Store.db StoreSpec.ready) ++ [record].
Proof.
  assert (Store.save_sensor_data Ref.lib StoreSpec.accepting "T2,26.1,58.9,42.3,23.5"
            StoreSpec.ready
          = (Eff.Done true,
             {| Store.self := Store.self StoreSpec.ready;
                Store.db :=
                  {| Store.engine := Store.engine (Store.db StoreSpec.ready);
                     Store.SessionLocal := Store.SessionLocal (Store.db StoreSpec.ready);
                     Store.table := [ Samples.delimited_reading ];
                     Store.open_sessions := 0; Store.pending := [];
                     Store.stdout := [ "Saved sensor data to database" : text ] |} |}))
    as Hrun by by_evaluation.
  exact (proj1 (save_true_means_stored Ref.lib StoreSpec.accepting _ _ _ _ Hrun) eq_refl).
Defined.

Lemma save_drops_undecoded_witness :
  Store.save_sensor_data Ref.lib StoreSpec.accepting "no reading here" StoreSpec.ready
  = (Eff.Done false, StoreSpec.ready).
Proof.
  apply (save_drops_undecoded Ref.lib StoreSpec.accepting "no reading here" StoreSpec.ready).
  - reflexivity.
  - by_evaluation.
Defined.

Lemma initialize_then_save_witness :
  (Store.save_sensor_data Ref.lib StoreSpec.accepting "T2,26.1,58.9,42.3,23.5"
     {| Store.self := Store.__init__ "postgresql://localhost/mizu_sensor_hub";
        Store.db := StoreSpec.empty |}).1
  = Eff.Done false
  /\ Store.table
       (Store.db
          (Store.save_sensor_data Ref.lib StoreSpec.accepting "T2,26.1,58.9,42.3,23.5"
             (Store.initialize StoreSpec.accepting
                {| Store.self := Store.__init__ "postgresql://localhost/mizu_sensor_hub";
                   Store.db := StoreSpec.empty |}).2).2)
     = Store.table StoreSpec.empty ++ [ Samples.delimited_reading ].
Proof.
  assert (_parse_sensor_data Ref.lib "T2,26.1,58.9,42.3,23.5" = Some Samples.delimited_reading)
    as Hparse by by_evaluation.
  pose proof (initialize_then_save Ref.lib StoreSpec.accepting
                "postgresql://localhost/mizu_sensor_hub" "T2,26.1,58.9,42.3,23.5"
                Samples.delimited_reading StoreSpec.empty
                eq_refl eq_refl Hparse eq_refl eq_refl) as H.
  exact (conj (proj1 H) (proj1 (proj2 (proj2 (proj2 (proj2 H)))))).
Defined.

Lemma establish_rejects_invalid_settings_witness :
  exists message,
    App._establish_serial_connection SerialSpec.bench WindowSpec.int WindowSpec.format
      (WindowSpec.on WindowSpec.line0 (WindowSpec.settings "USB0" "fast"))
    = (Eff.Done tt,
       WindowSpec.on WindowSpec.line0
         (App.with_dialogs
            ([] ++ [Gui.ShowError "Configuration Error" message])
            (WindowSpec.settings "USB0" "fast"))).
Proof.
  apply (establish_rejects_invalid_settings SerialSpec.bench WindowSpec.int WindowSpec.format
           (WindowSpec.on WindowSpec.line0 (WindowSpec.settings "USB0" "fast"))).
  intros (_ & _ & (n & Hn & _) & _). vm_compute in Hn. discriminate Hn.
Defined.

Lemma window_settings_valid :
  WindowSpec.settings_valid WindowSpec.int Serial.OS_LINUX "USB0" "9600".
Proof.
  split; [discriminate|]. split; [discriminate|]. split; [|by right].
  exists 9600%Z. split; [by_evaluation | reflexivity].
Defined.

Lemma establish_valid_settings_witness :
  Serial.is_connected
    (Serial.self
       (Wire.session
          (App.line
             (App._establish_serial_connection SerialSpec.bench WindowSpec.int
                WindowSpec.format WindowSpec.window).2)))
  = true
  /\ App.button_text
       (App.ui
          (App._establish_serial_connection SerialSpec.bench WindowSpec.int
             WindowSpec.format WindowSpec.window).2)
     = "Disconnect".
Proof.
  assert (WindowSpec.int "9600" = Some 9600%Z) as Hint by by_evaluation.
  pose proof (establish_valid_settings SerialSpec.bench WindowSpec.int WindowSpec.format
                WindowSpec.window 9600 window_settings_valid Hint) as H.
  exact (conj (proj1 (proj2 (proj2 H))) (proj1 (proj2 (proj2 (proj2 H))))).
Defined.

Lemma toggle_twice_witness :
  Serial.open_handles
    (Serial.world
       (Wire.session
          (App.line
             (App._toggle_serial_connection SerialSpec.bench WindowSpec.int
                WindowSpec.format
                (App._toggle_serial_connection SerialSpec.bench WindowSpec.int
                   WindowSpec.format WindowSpec.window).2).2)))
  = Serial.open_handles (Serial.world (Wire.session (App.line WindowSpec.window)))
  /\ App.button_text
       (App.ui
          (App._toggle_serial_connection SerialSpec.bench WindowSpec.int WindowSpec.format
             (App._toggle_serial_connection SerialSpec.bench WindowSpec.int
                WindowSpec.format WindowSpec.window).2).2)
     = "Connect"
  /\ App.dialogs
       (App.ui
          (App._toggle_serial_connection SerialSpec.bench WindowSpec.int WindowSpec.format
             (App._toggle_serial_connection SerialSpec.bench WindowSpec.int
                WindowSpec.format WindowSpec.window).2).2)
     = App.dialogs (App.ui WindowSpec.window).
Proof.
  assert (WindowSpec.int "9600" = Some 9600%Z) as Hint by by_evaluation.
  assert (Serial.open_port SerialSpec.bench (SerialSpec.connect_path Serial.OS_LINUX "USB0")
            (Some 9600%Z) (Some Serial.SERIAL_TIMEOUT) = None) as Hopen by by_evaluation.
  pose proof (toggle_twice SerialSpec.bench WindowSpec.int WindowSpec.format
                WindowSpec.window 9600 eq_refl window_settings_valid Hint Hopen eq_refl) as H.
  exact (proj2 (proj2 (proj2 (proj2 (proj2 (proj2 H)))))).
Defined.

Lemma window_sends_trimmed_command_witness :
  Wire.sent
    (App.line
       (App._send_serial_command WindowSpec.write_port WindowSpec.format Samples.typing).2)
  = Wire.sent (App.line Samples.typing)
    ++ [(("/dev/ttyUSB0" : text), Wire.encode (Text.strip " PING "))]
  /\ App.command_input
       (App.ui
          (App._send_serial_command WindowSpec.write_port WindowSpec.format
             Samples.typing).2)
     = []
  /\ App.dialogs
       (App.ui
          (App._send_serial_command WindowSpec.write_port WindowSpec.format
             Samples.typing).2)
     = App.dialogs (App.ui Samples.typing).
Proof.
  exact (proj2 (window_sends_trimmed_command WindowSpec.write_port WindowSpec.format
                  Samples.typing "/dev/ttyUSB0" eq_refl eq_refl)).
Defined.

Lemma example_device_sendable : Example.sendable "EXAMPLE_001".
Proof.
  split; [by_evaluation|]. split; [no_comma|]. split; [|by_evaluation].
  apply TextFacts.contains_false. by_evaluation.
Defined.

Lemma formatted_lines_read_back_witness :
  exists csv_line key_value_line,
    Example.format_csv_data Example.lib
      (Example.generated "EXAMPLE_001" (51 # 2) (301 # 5) (83 # 2) (45 # 2) (7 # 2)
         (-49 # 4) (91 # 2))
    = Some csv_line
    /\ Example.format_key_value_data Example.lib
         (Example.generated "EXAMPLE_001" (51 # 2) (301 # 5) (83 # 2) (45 # 2) (7 # 2)
            (-49 # 4) (91 # 2))
       = Some key_value_line
    /\ _parse_sensor_data Example.lib csv_line
       = Some (record "EXAMPLE_001" (VFloat (51 # 2)) (VFloat (301 # 5)) (VFloat (83 # 2))
                 (VFloat (45 # 2)) (VFloat (7 # 2)) (VFloat (-49 # 4)) (VFloat (91 # 2)))
    /\ _parse_sensor_data Example.lib key_value_line
       = Some (record "EXAMPLE_001" (VFloat (51 # 2)) (VFloat (301 # 5)) (VFloat (83 # 2))
                 (VFloat (45 # 2)) (VFloat (7 # 2)) (VFloat (-49 # 4)) (VFloat (91 # 2))).
Proof.
  apply (formatted_lines_read_back Example.lib "EXAMPLE_001" (51 # 2) (301 # 5) (83 # 2)
           (45 # 2) (7 # 2) (-49 # 4) (91 # 2) example_device_sendable).
  repeat (apply Forall_cons; split; [split; by_evaluation|]). apply Forall_nil_2.
Defined.
